(** * Translation Buddy: a shallow embedding of [translator/main.py]

    The development follows the Python module function by function.

    - Python [str] values are sequences of Unicode code points ([pystr]).
      The character predicates used by [str.strip], [str.lower] and by the
      [re] classes [\w] and [\s] are tables of the Unicode character
      database, version 14.0.0 (the one of CPython 3.11).
    - The chat framework's per-session store, the clock, the connectivity
      probe, the translation service and the history file are the
      collaborators of the module.  They are modelled by a [World] (list
      objects of the interpreter, the session store, the file, a log of
      the calls made on the collaborators) and by an [Env] of oracles that
      fixes how the outside answers.
    - Python exceptions of class [Exception] are modelled by the outcome
      [Raises], exceptions of another class ([KeyboardInterrupt],
      [SystemExit]) by the outcome [Interrupts]; [try ... except
      Exception] is [try_except], which handles the first kind only.
    - The file system is reliable: opening, writing and reading the
      history file do not fail by themselves; what the data can make fail
      (encoding, decoding, parsing) is modelled.  Logging is not
      modelled. *)

From Stdlib Require Import NArith List Ascii String Lia.
From stdpp Require Import base option list strings gmap.

Local Open Scope N_scope.

(** ** Python strings *)

(** A Python [str]: a sequence of code points. *)
Definition pystr := list N.

Module Utf8.

(** The UTF-8 encoding of one code point, as the strict [utf-8] codec of
    Python writes it: surrogates (U+D800..U+DFFF) are refused. *)
Definition encode_cp (c : N) : option (list N) :=
  if c <? 128 then Some [c]
  else if c <? 2048 then Some [192 + c / 64; 128 + c mod 64]
  else if c <? 65536 then
    if (55296 <=? c) && (c <=? 57343) then None
    else Some [224 + c / 4096; 128 + (c / 64) mod 64; 128 + c mod 64]
  else if c <? 1114112 then
    Some [240 + c / 262144; 128 + (c / 4096) mod 64;
          128 + (c / 64) mod 64; 128 + c mod 64]
  else None.

(** [text.encode('utf-8')]: [None] stands for [UnicodeEncodeError]. *)
Fixpoint encode (s : pystr) : option (list N) :=
  match s with
  | [] => Some []
  | c :: s' =>
      match encode_cp c, encode s' with
      | Some bs, Some bs' => Some (bs ++ bs')
      | _, _ => None
      end
  end.

(** A continuation byte, 10xxxxxx. *)
Definition is_cont (b : N) : bool := (128 <=? b) && (b <? 192).

(** [bytes.decode('utf-8')]: overlong forms, surrogates, code points
    above U+10FFFF and truncated sequences are refused ([None] stands for
    [UnicodeDecodeError]). *)
Fixpoint decode (bs : list N) : option pystr :=
  match bs with
  | [] => Some []
  | b0 :: r0 =>
      if b0 <? 128 then cons b0 <$> decode r0
      else if b0 <? 192 then None
      else if b0 <? 224 then
        match r0 with
        | b1 :: r1 =>
            let c := (b0 - 192) * 64 + (b1 - 128) in
            if is_cont b1 && (128 <=? c) then cons c <$> decode r1 else None
        | _ => None
        end
      else if b0 <? 240 then
        match r0 with
        | b1 :: b2 :: r2 =>
            let c := (b0 - 224) * 4096 + (b1 - 128) * 64 + (b2 - 128) in
            if is_cont b1 && is_cont b2 && (2048 <=? c)
               && negb ((55296 <=? c) && (c <=? 57343))
            then cons c <$> decode r2 else None
        | _ => None
        end
      else if b0 <? 248 then
        match r0 with
        | b1 :: b2 :: b3 :: r3 =>
            let c := (b0 - 240) * 262144 + (b1 - 128) * 4096
                     + (b2 - 128) * 64 + (b3 - 128) in
            if is_cont b1 && is_cont b2 && is_cont b3
               && (65536 <=? c) && (c <? 1114112)
            then cons c <$> decode r3 else None
        | _ => None
        end
      else None
  end.

End Utf8.

(** A string literal of the source: the code points of its UTF-8 text. *)
Definition py (s : string) : pystr :=
  default [] (Utf8.decode (N_of_ascii <$> list_ascii_of_string s)).
Arguments py : simpl never.

(** ** Unicode character database *)

(** Code points [c] with [chr(c).isalnum()], as closed intervals (Unicode 14.0.0). *)
Definition alnum_ranges : list (N * N) :=
  [ (48, 57); (65, 90); (97, 122); (170, 170); (178, 179); (181, 181); (185, 186); (188, 190); (192,
    214); (216, 246); (248, 705); (710, 721); (736, 740); (748, 748); (750, 750); (880, 884); (886,
    887); (890, 893); (895, 895); (902, 902); (904, 906); (908, 908); (910, 929); (931, 1013);
    (1015, 1153); (1162, 1327); (1329, 1366); (1369, 1369); (1376, 1416); (1488, 1514); (1519,
    1522); (1568, 1610); (1632, 1641); (1646, 1647); (1649, 1747); (1749, 1749); (1765, 1766);
    (1774, 1788); (1791, 1791); (1808, 1808); (1810, 1839); (1869, 1957); (1969, 1969); (1984,
    2026); (2036, 2037); (2042, 2042); (2048, 2069); (2074, 2074); (2084, 2084); (2088, 2088);
    (2112, 2136); (2144, 2154); (2160, 2183); (2185, 2190); (2208, 2249); (2308, 2361); (2365,
    2365); (2384, 2384); (2392, 2401); (2406, 2415); (2417, 2432); (2437, 2444); (2447, 2448);
    (2451, 2472); (2474, 2480); (2482, 2482); (2486, 2489); (2493, 2493); (2510, 2510); (2524,
    2525); (2527, 2529); (2534, 2545); (2548, 2553); (2556, 2556); (2565, 2570); (2575, 2576);
    (2579, 2600); (2602, 2608); (2610, 2611); (2613, 2614); (2616, 2617); (2649, 2652); (2654,
    2654); (2662, 2671); (2674, 2676); (2693, 2701); (2703, 2705); (2707, 2728); (2730, 2736);
    (2738, 2739); (2741, 2745); (2749, 2749); (2768, 2768); (2784, 2785); (2790, 2799); (2809,
    2809); (2821, 2828); (2831, 2832); (2835, 2856); (2858, 2864); (2866, 2867); (2869, 2873);
    (2877, 2877); (2908, 2909); (2911, 2913); (2918, 2927); (2929, 2935); (2947, 2947); (2949,
    2954); (2958, 2960); (2962, 2965); (2969, 2970); (2972, 2972); (2974, 2975); (2979, 2980);
    (2984, 2986); (2990, 3001); (3024, 3024); (3046, 3058); (3077, 3084); (3086, 3088); (3090,
    3112); (3114, 3129); (3133, 3133); (3160, 3162); (3165, 3165); (3168, 3169); (3174, 3183);
    (3192, 3198); (3200, 3200); (3205, 3212); (3214, 3216); (3218, 3240); (3242, 3251); (3253,
    3257); (3261, 3261); (3293, 3294); (3296, 3297); (3302, 3311); (3313, 3314); (3332, 3340);
    (3342, 3344); (3346, 3386); (3389, 3389); (3406, 3406); (3412, 3414); (3416, 3425); (3430,
    3448); (3450, 3455); (3461, 3478); (3482, 3505); (3507, 3515); (3517, 3517); (3520, 3526);
    (3558, 3567); (3585, 3632); (3634, 3635); (3648, 3654); (3664, 3673); (3713, 3714); (3716,
    3716); (3718, 3722); (3724, 3747); (3749, 3749); (3751, 3760); (3762, 3763); (3773, 3773);
    (3776, 3780); (3782, 3782); (3792, 3801); (3804, 3807); (3840, 3840); (3872, 3891); (3904,
    3911); (3913, 3948); (3976, 3980); (4096, 4138); (4159, 4169); (4176, 4181); (4186, 4189);
    (4193, 4193); (4197, 4198); (4206, 4208); (4213, 4225); (4238, 4238); (4240, 4249); (4256,
    4293); (4295, 4295); (4301, 4301); (4304, 4346); (4348, 4680); (4682, 4685); (4688, 4694);
    (4696, 4696); (4698, 4701); (4704, 4744); (4746, 4749); (4752, 4784); (4786, 4789); (4792,
    4798); (4800, 4800); (4802, 4805); (4808, 4822); (4824, 4880); (4882, 4885); (4888, 4954);
    (4969, 4988); (4992, 5007); (5024, 5109); (5112, 5117); (5121, 5740); (5743, 5759); (5761,
    5786); (5792, 5866); (5870, 5880); (5888, 5905); (5919, 5937); (5952, 5969); (5984, 5996);
    (5998, 6000); (6016, 6067); (6103, 6103); (6108, 6108); (6112, 6121); (6128, 6137); (6160,
    6169); (6176, 6264); (6272, 6276); (6279, 6312); (6314, 6314); (6320, 6389); (6400, 6430);
    (6470, 6509); (6512, 6516); (6528, 6571); (6576, 6601); (6608, 6618); (6656, 6678); (6688,
    6740); (6784, 6793); (6800, 6809); (6823, 6823); (6917, 6963); (6981, 6988); (6992, 7001);
    (7043, 7072); (7086, 7141); (7168, 7203); (7232, 7241); (7245, 7293); (7296, 7304); (7312,
    7354); (7357, 7359); (7401, 7404); (7406, 7411); (7413, 7414); (7418, 7418); (7424, 7615);
    (7680, 7957); (7960, 7965); (7968, 8005); (8008, 8013); (8016, 8023); (8025, 8025); (8027,
    8027); (8029, 8029); (8031, 8061); (8064, 8116); (8118, 8124); (8126, 8126); (8130, 8132);
    (8134, 8140); (8144, 8147); (8150, 8155); (8160, 8172); (8178, 8180); (8182, 8188); (8304,
    8305); (8308, 8313); (8319, 8329); (8336, 8348); (8450, 8450); (8455, 8455); (8458, 8467);
    (8469, 8469); (8473, 8477); (8484, 8484); (8486, 8486); (8488, 8488); (8490, 8493); (8495,
    8505); (8508, 8511); (8517, 8521); (8526, 8526); (8528, 8585); (9312, 9371); (9450, 9471);
    (10102, 10131); (11264, 11492); (11499, 11502); (11506, 11507); (11517, 11517); (11520, 11557);
    (11559, 11559); (11565, 11565); (11568, 11623); (11631, 11631); (11648, 11670); (11680, 11686);
    (11688, 11694); (11696, 11702); (11704, 11710); (11712, 11718); (11720, 11726); (11728, 11734);
    (11736, 11742); (11823, 11823); (12293, 12295); (12321, 12329); (12337, 12341); (12344, 12348);
    (12353, 12438); (12445, 12447); (12449, 12538); (12540, 12543); (12549, 12591); (12593, 12686);
    (12690, 12693); (12704, 12735); (12784, 12799); (12832, 12841); (12872, 12879); (12881, 12895);
    (12928, 12937); (12977, 12991); (13312, 19903); (19968, 42124); (42192, 42237); (42240, 42508);
    (42512, 42539); (42560, 42606); (42623, 42653); (42656, 42735); (42775, 42783); (42786, 42888);
    (42891, 42954); (42960, 42961); (42963, 42963); (42965, 42969); (42994, 43009); (43011, 43013);
    (43015, 43018); (43020, 43042); (43056, 43061); (43072, 43123); (43138, 43187); (43216, 43225);
    (43250, 43255); (43259, 43259); (43261, 43262); (43264, 43301); (43312, 43334); (43360, 43388);
    (43396, 43442); (43471, 43481); (43488, 43492); (43494, 43518); (43520, 43560); (43584, 43586);
    (43588, 43595); (43600, 43609); (43616, 43638); (43642, 43642); (43646, 43695); (43697, 43697);
    (43701, 43702); (43705, 43709); (43712, 43712); (43714, 43714); (43739, 43741); (43744, 43754);
    (43762, 43764); (43777, 43782); (43785, 43790); (43793, 43798); (43808, 43814); (43816, 43822);
    (43824, 43866); (43868, 43881); (43888, 44002); (44016, 44025); (44032, 55203); (55216, 55238);
    (55243, 55291); (63744, 64109); (64112, 64217); (64256, 64262); (64275, 64279); (64285, 64285);
    (64287, 64296); (64298, 64310); (64312, 64316); (64318, 64318); (64320, 64321); (64323, 64324);
    (64326, 64433); (64467, 64829); (64848, 64911); (64914, 64967); (65008, 65019); (65136, 65140);
    (65142, 65276); (65296, 65305); (65313, 65338); (65345, 65370); (65382, 65470); (65474, 65479);
    (65482, 65487); (65490, 65495); (65498, 65500); (65536, 65547); (65549, 65574); (65576, 65594);
    (65596, 65597); (65599, 65613); (65616, 65629); (65664, 65786); (65799, 65843); (65856, 65912);
    (65930, 65931); (66176, 66204); (66208, 66256); (66273, 66299); (66304, 66339); (66349, 66378);
    (66384, 66421); (66432, 66461); (66464, 66499); (66504, 66511); (66513, 66517); (66560, 66717);
    (66720, 66729); (66736, 66771); (66776, 66811); (66816, 66855); (66864, 66915); (66928, 66938);
    (66940, 66954); (66956, 66962); (66964, 66965); (66967, 66977); (66979, 66993); (66995, 67001);
    (67003, 67004); (67072, 67382); (67392, 67413); (67424, 67431); (67456, 67461); (67463, 67504);
    (67506, 67514); (67584, 67589); (67592, 67592); (67594, 67637); (67639, 67640); (67644, 67644);
    (67647, 67669); (67672, 67702); (67705, 67742); (67751, 67759); (67808, 67826); (67828, 67829);
    (67835, 67867); (67872, 67897); (67968, 68023); (68028, 68047); (68050, 68096); (68112, 68115);
    (68117, 68119); (68121, 68149); (68160, 68168); (68192, 68222); (68224, 68255); (68288, 68295);
    (68297, 68324); (68331, 68335); (68352, 68405); (68416, 68437); (68440, 68466); (68472, 68497);
    (68521, 68527); (68608, 68680); (68736, 68786); (68800, 68850); (68858, 68899); (68912, 68921);
    (69216, 69246); (69248, 69289); (69296, 69297); (69376, 69415); (69424, 69445); (69457, 69460);
    (69488, 69505); (69552, 69579); (69600, 69622); (69635, 69687); (69714, 69743); (69745, 69746);
    (69749, 69749); (69763, 69807); (69840, 69864); (69872, 69881); (69891, 69926); (69942, 69951);
    (69956, 69956); (69959, 69959); (69968, 70002); (70006, 70006); (70019, 70066); (70081, 70084);
    (70096, 70106); (70108, 70108); (70113, 70132); (70144, 70161); (70163, 70187); (70272, 70278);
    (70280, 70280); (70282, 70285); (70287, 70301); (70303, 70312); (70320, 70366); (70384, 70393);
    (70405, 70412); (70415, 70416); (70419, 70440); (70442, 70448); (70450, 70451); (70453, 70457);
    (70461, 70461); (70480, 70480); (70493, 70497); (70656, 70708); (70727, 70730); (70736, 70745);
    (70751, 70753); (70784, 70831); (70852, 70853); (70855, 70855); (70864, 70873); (71040, 71086);
    (71128, 71131); (71168, 71215); (71236, 71236); (71248, 71257); (71296, 71338); (71352, 71352);
    (71360, 71369); (71424, 71450); (71472, 71483); (71488, 71494); (71680, 71723); (71840, 71922);
    (71935, 71942); (71945, 71945); (71948, 71955); (71957, 71958); (71960, 71983); (71999, 71999);
    (72001, 72001); (72016, 72025); (72096, 72103); (72106, 72144); (72161, 72161); (72163, 72163);
    (72192, 72192); (72203, 72242); (72250, 72250); (72272, 72272); (72284, 72329); (72349, 72349);
    (72368, 72440); (72704, 72712); (72714, 72750); (72768, 72768); (72784, 72812); (72818, 72847);
    (72960, 72966); (72968, 72969); (72971, 73008); (73030, 73030); (73040, 73049); (73056, 73061);
    (73063, 73064); (73066, 73097); (73112, 73112); (73120, 73129); (73440, 73458); (73648, 73648);
    (73664, 73684); (73728, 74649); (74752, 74862); (74880, 75075); (77712, 77808); (77824, 78894);
    (82944, 83526); (92160, 92728); (92736, 92766); (92768, 92777); (92784, 92862); (92864, 92873);
    (92880, 92909); (92928, 92975); (92992, 92995); (93008, 93017); (93019, 93025); (93027, 93047);
    (93053, 93071); (93760, 93846); (93952, 94026); (94032, 94032); (94099, 94111); (94176, 94177);
    (94179, 94179); (94208, 100343); (100352, 101589); (101632, 101640); (110576, 110579); (110581,
    110587); (110589, 110590); (110592, 110882); (110928, 110930); (110948, 110951); (110960,
    111355); (113664, 113770); (113776, 113788); (113792, 113800); (113808, 113817); (119520,
    119539); (119648, 119672); (119808, 119892); (119894, 119964); (119966, 119967); (119970,
    119970); (119973, 119974); (119977, 119980); (119982, 119993); (119995, 119995); (119997,
    120003); (120005, 120069); (120071, 120074); (120077, 120084); (120086, 120092); (120094,
    120121); (120123, 120126); (120128, 120132); (120134, 120134); (120138, 120144); (120146,
    120485); (120488, 120512); (120514, 120538); (120540, 120570); (120572, 120596); (120598,
    120628); (120630, 120654); (120656, 120686); (120688, 120712); (120714, 120744); (120746,
    120770); (120772, 120779); (120782, 120831); (122624, 122654); (123136, 123180); (123191,
    123197); (123200, 123209); (123214, 123214); (123536, 123565); (123584, 123627); (123632,
    123641); (124896, 124902); (124904, 124907); (124909, 124910); (124912, 124926); (124928,
    125124); (125127, 125135); (125184, 125251); (125259, 125259); (125264, 125273); (126065,
    126123); (126125, 126127); (126129, 126132); (126209, 126253); (126255, 126269); (126464,
    126467); (126469, 126495); (126497, 126498); (126500, 126500); (126503, 126503); (126505,
    126514); (126516, 126519); (126521, 126521); (126523, 126523); (126530, 126530); (126535,
    126535); (126537, 126537); (126539, 126539); (126541, 126543); (126545, 126546); (126548,
    126548); (126551, 126551); (126553, 126553); (126555, 126555); (126557, 126557); (126559,
    126559); (126561, 126562); (126564, 126564); (126567, 126570); (126572, 126578); (126580,
    126583); (126585, 126588); (126590, 126590); (126592, 126601); (126603, 126619); (126625,
    126627); (126629, 126633); (126635, 126651); (127232, 127244); (130032, 130041); (131072,
    173791); (173824, 177976); (177984, 178205); (178208, 183969); (183984, 191456); (194560,
    195101); (196608, 201546) ]%N.

(** Code points [c] with [chr(c).isspace()], as closed intervals. *)
Definition space_ranges : list (N * N) :=
  [ (9, 13); (28, 32); (133, 133); (160, 160); (5760, 5760); (8192, 8202); (8232, 8233); (8239,
    8239); (8287, 8287); (12288, 12288) ]%N.

(** Code points with the Unicode property Cased. *)
Definition cased_ranges : list (N * N) :=
  [ (65, 90); (97, 122); (170, 170); (181, 181); (186, 186); (192, 214); (216, 246); (248, 442);
    (444, 447); (452, 659); (661, 696); (704, 705); (736, 740); (837, 837); (880, 883); (886, 887);
    (890, 893); (895, 895); (902, 902); (904, 906); (908, 908); (910, 929); (931, 1013); (1015,
    1153); (1162, 1327); (1329, 1366); (1376, 1416); (4256, 4293); (4295, 4295); (4301, 4301);
    (4304, 4346); (4349, 4351); (5024, 5109); (5112, 5117); (7296, 7304); (7312, 7354); (7357,
    7359); (7424, 7615); (7680, 7957); (7960, 7965); (7968, 8005); (8008, 8013); (8016, 8023);
    (8025, 8025); (8027, 8027); (8029, 8029); (8031, 8061); (8064, 8116); (8118, 8124); (8126,
    8126); (8130, 8132); (8134, 8140); (8144, 8147); (8150, 8155); (8160, 8172); (8178, 8180);
    (8182, 8188); (8305, 8305); (8319, 8319); (8336, 8348); (8450, 8450); (8455, 8455); (8458,
    8467); (8469, 8469); (8473, 8477); (8484, 8484); (8486, 8486); (8488, 8488); (8490, 8493);
    (8495, 8500); (8505, 8505); (8508, 8511); (8517, 8521); (8526, 8526); (8544, 8575); (8579,
    8580); (9398, 9449); (11264, 11492); (11499, 11502); (11506, 11507); (11520, 11557); (11559,
    11559); (11565, 11565); (42560, 42605); (42624, 42653); (42786, 42887); (42891, 42894); (42896,
    42954); (42960, 42961); (42963, 42963); (42965, 42969); (42997, 42998); (43000, 43002); (43824,
    43866); (43868, 43880); (43888, 43967); (64256, 64262); (64275, 64279); (65313, 65338); (65345,
    65370); (66560, 66639); (66736, 66771); (66776, 66811); (66928, 66938); (66940, 66954); (66956,
    66962); (66964, 66965); (66967, 66977); (66979, 66993); (66995, 67001); (67003, 67004); (67456,
    67456); (67459, 67461); (67463, 67504); (67506, 67514); (68736, 68786); (68800, 68850); (71840,
    71903); (93760, 93823); (119808, 119892); (119894, 119964); (119966, 119967); (119970, 119970);
    (119973, 119974); (119977, 119980); (119982, 119993); (119995, 119995); (119997, 120003);
    (120005, 120069); (120071, 120074); (120077, 120084); (120086, 120092); (120094, 120121);
    (120123, 120126); (120128, 120132); (120134, 120134); (120138, 120144); (120146, 120485);
    (120488, 120512); (120514, 120538); (120540, 120570); (120572, 120596); (120598, 120628);
    (120630, 120654); (120656, 120686); (120688, 120712); (120714, 120744); (120746, 120770);
    (120772, 120779); (122624, 122633); (122635, 122654); (125184, 125251); (127280, 127305);
    (127312, 127337); (127344, 127369) ]%N.

(** Code points with the Unicode property Case_Ignorable. *)
Definition case_ignorable_ranges : list (N * N) :=
  [ (39, 39); (46, 46); (58, 58); (94, 94); (96, 96); (168, 168); (173, 173); (175, 175); (180,
    180); (183, 184); (688, 879); (884, 885); (890, 890); (900, 901); (903, 903); (1155, 1161);
    (1369, 1369); (1375, 1375); (1425, 1469); (1471, 1471); (1473, 1474); (1476, 1477); (1479,
    1479); (1524, 1524); (1536, 1541); (1552, 1562); (1564, 1564); (1600, 1600); (1611, 1631);
    (1648, 1648); (1750, 1757); (1759, 1768); (1770, 1773); (1807, 1807); (1809, 1809); (1840,
    1866); (1958, 1968); (2027, 2037); (2042, 2042); (2045, 2045); (2070, 2093); (2137, 2139);
    (2184, 2184); (2192, 2193); (2200, 2207); (2249, 2306); (2362, 2362); (2364, 2364); (2369,
    2376); (2381, 2381); (2385, 2391); (2402, 2403); (2417, 2417); (2433, 2433); (2492, 2492);
    (2497, 2500); (2509, 2509); (2530, 2531); (2558, 2558); (2561, 2562); (2620, 2620); (2625,
    2626); (2631, 2632); (2635, 2637); (2641, 2641); (2672, 2673); (2677, 2677); (2689, 2690);
    (2748, 2748); (2753, 2757); (2759, 2760); (2765, 2765); (2786, 2787); (2810, 2815); (2817,
    2817); (2876, 2876); (2879, 2879); (2881, 2884); (2893, 2893); (2901, 2902); (2914, 2915);
    (2946, 2946); (3008, 3008); (3021, 3021); (3072, 3072); (3076, 3076); (3132, 3132); (3134,
    3136); (3142, 3144); (3146, 3149); (3157, 3158); (3170, 3171); (3201, 3201); (3260, 3260);
    (3263, 3263); (3270, 3270); (3276, 3277); (3298, 3299); (3328, 3329); (3387, 3388); (3393,
    3396); (3405, 3405); (3426, 3427); (3457, 3457); (3530, 3530); (3538, 3540); (3542, 3542);
    (3633, 3633); (3636, 3642); (3654, 3662); (3761, 3761); (3764, 3772); (3782, 3782); (3784,
    3789); (3864, 3865); (3893, 3893); (3895, 3895); (3897, 3897); (3953, 3966); (3968, 3972);
    (3974, 3975); (3981, 3991); (3993, 4028); (4038, 4038); (4141, 4144); (4146, 4151); (4153,
    4154); (4157, 4158); (4184, 4185); (4190, 4192); (4209, 4212); (4226, 4226); (4229, 4230);
    (4237, 4237); (4253, 4253); (4348, 4348); (4957, 4959); (5906, 5908); (5938, 5939); (5970,
    5971); (6002, 6003); (6068, 6069); (6071, 6077); (6086, 6086); (6089, 6099); (6103, 6103);
    (6109, 6109); (6155, 6159); (6211, 6211); (6277, 6278); (6313, 6313); (6432, 6434); (6439,
    6440); (6450, 6450); (6457, 6459); (6679, 6680); (6683, 6683); (6742, 6742); (6744, 6750);
    (6752, 6752); (6754, 6754); (6757, 6764); (6771, 6780); (6783, 6783); (6823, 6823); (6832,
    6862); (6912, 6915); (6964, 6964); (6966, 6970); (6972, 6972); (6978, 6978); (7019, 7027);
    (7040, 7041); (7074, 7077); (7080, 7081); (7083, 7085); (7142, 7142); (7144, 7145); (7149,
    7149); (7151, 7153); (7212, 7219); (7222, 7223); (7288, 7293); (7376, 7378); (7380, 7392);
    (7394, 7400); (7405, 7405); (7412, 7412); (7416, 7417); (7468, 7530); (7544, 7544); (7579,
    7679); (8125, 8125); (8127, 8129); (8141, 8143); (8157, 8159); (8173, 8175); (8189, 8190);
    (8203, 8207); (8216, 8217); (8228, 8228); (8231, 8231); (8234, 8238); (8288, 8292); (8294,
    8303); (8305, 8305); (8319, 8319); (8336, 8348); (8400, 8432); (11388, 11389); (11503, 11505);
    (11631, 11631); (11647, 11647); (11744, 11775); (11823, 11823); (12293, 12293); (12330, 12333);
    (12337, 12341); (12347, 12347); (12441, 12446); (12540, 12542); (40981, 40981); (42232, 42237);
    (42508, 42508); (42607, 42610); (42612, 42621); (42623, 42623); (42652, 42655); (42736, 42737);
    (42752, 42785); (42864, 42864); (42888, 42890); (42994, 42996); (43000, 43001); (43010, 43010);
    (43014, 43014); (43019, 43019); (43045, 43046); (43052, 43052); (43204, 43205); (43232, 43249);
    (43263, 43263); (43302, 43309); (43335, 43345); (43392, 43394); (43443, 43443); (43446, 43449);
    (43452, 43453); (43471, 43471); (43493, 43494); (43561, 43566); (43569, 43570); (43573, 43574);
    (43587, 43587); (43596, 43596); (43632, 43632); (43644, 43644); (43696, 43696); (43698, 43700);
    (43703, 43704); (43710, 43711); (43713, 43713); (43741, 43741); (43756, 43757); (43763, 43764);
    (43766, 43766); (43867, 43871); (43881, 43883); (44005, 44005); (44008, 44008); (44013, 44013);
    (64286, 64286); (64434, 64450); (65024, 65039); (65043, 65043); (65056, 65071); (65106, 65106);
    (65109, 65109); (65279, 65279); (65287, 65287); (65294, 65294); (65306, 65306); (65342, 65342);
    (65344, 65344); (65392, 65392); (65438, 65439); (65507, 65507); (65529, 65531); (66045, 66045);
    (66272, 66272); (66422, 66426); (67456, 67461); (67463, 67504); (67506, 67514); (68097, 68099);
    (68101, 68102); (68108, 68111); (68152, 68154); (68159, 68159); (68325, 68326); (68900, 68903);
    (69291, 69292); (69446, 69456); (69506, 69509); (69633, 69633); (69688, 69702); (69744, 69744);
    (69747, 69748); (69759, 69761); (69811, 69814); (69817, 69818); (69821, 69821); (69826, 69826);
    (69837, 69837); (69888, 69890); (69927, 69931); (69933, 69940); (70003, 70003); (70016, 70017);
    (70070, 70078); (70089, 70092); (70095, 70095); (70191, 70193); (70196, 70196); (70198, 70199);
    (70206, 70206); (70367, 70367); (70371, 70378); (70400, 70401); (70459, 70460); (70464, 70464);
    (70502, 70508); (70512, 70516); (70712, 70719); (70722, 70724); (70726, 70726); (70750, 70750);
    (70835, 70840); (70842, 70842); (70847, 70848); (70850, 70851); (71090, 71093); (71100, 71101);
    (71103, 71104); (71132, 71133); (71219, 71226); (71229, 71229); (71231, 71232); (71339, 71339);
    (71341, 71341); (71344, 71349); (71351, 71351); (71453, 71455); (71458, 71461); (71463, 71467);
    (71727, 71735); (71737, 71738); (71995, 71996); (71998, 71998); (72003, 72003); (72148, 72151);
    (72154, 72155); (72160, 72160); (72193, 72202); (72243, 72248); (72251, 72254); (72263, 72263);
    (72273, 72278); (72281, 72283); (72330, 72342); (72344, 72345); (72752, 72758); (72760, 72765);
    (72767, 72767); (72850, 72871); (72874, 72880); (72882, 72883); (72885, 72886); (73009, 73014);
    (73018, 73018); (73020, 73021); (73023, 73029); (73031, 73031); (73104, 73105); (73109, 73109);
    (73111, 73111); (73459, 73460); (78896, 78904); (92912, 92916); (92976, 92982); (92992, 92995);
    (94031, 94031); (94095, 94111); (94176, 94177); (94179, 94180); (110576, 110579); (110581,
    110587); (110589, 110590); (113821, 113822); (113824, 113827); (118528, 118573); (118576,
    118598); (119143, 119145); (119155, 119170); (119173, 119179); (119210, 119213); (119362,
    119364); (121344, 121398); (121403, 121452); (121461, 121461); (121476, 121476); (121499,
    121503); (121505, 121519); (122880, 122886); (122888, 122904); (122907, 122913); (122915,
    122916); (122918, 122922); (123184, 123197); (123566, 123566); (123628, 123631); (125136,
    125142); (125252, 125259); (127995, 127999); (917505, 917505); (917536, 917631); (917760,
    917999) ]%N.

(** Simple lower-case mappings: [(lo, hi, t)] sends [c] in [lo..hi] to [t + (c - lo)]. *)
Definition lower_runs : list (N * N * N) :=
  [ (65, 90, 97); (192, 214, 224); (216, 222, 248); (256, 256, 257); (258, 258, 259); (260, 260,
    261); (262, 262, 263); (264, 264, 265); (266, 266, 267); (268, 268, 269); (270, 270, 271); (272,
    272, 273); (274, 274, 275); (276, 276, 277); (278, 278, 279); (280, 280, 281); (282, 282, 283);
    (284, 284, 285); (286, 286, 287); (288, 288, 289); (290, 290, 291); (292, 292, 293); (294, 294,
    295); (296, 296, 297); (298, 298, 299); (300, 300, 301); (302, 302, 303); (306, 306, 307); (308,
    308, 309); (310, 310, 311); (313, 313, 314); (315, 315, 316); (317, 317, 318); (319, 319, 320);
    (321, 321, 322); (323, 323, 324); (325, 325, 326); (327, 327, 328); (330, 330, 331); (332, 332,
    333); (334, 334, 335); (336, 336, 337); (338, 338, 339); (340, 340, 341); (342, 342, 343); (344,
    344, 345); (346, 346, 347); (348, 348, 349); (350, 350, 351); (352, 352, 353); (354, 354, 355);
    (356, 356, 357); (358, 358, 359); (360, 360, 361); (362, 362, 363); (364, 364, 365); (366, 366,
    367); (368, 368, 369); (370, 370, 371); (372, 372, 373); (374, 374, 375); (376, 376, 255); (377,
    377, 378); (379, 379, 380); (381, 381, 382); (385, 385, 595); (386, 386, 387); (388, 388, 389);
    (390, 390, 596); (391, 391, 392); (393, 394, 598); (395, 395, 396); (398, 398, 477); (399, 399,
    601); (400, 400, 603); (401, 401, 402); (403, 403, 608); (404, 404, 611); (406, 406, 617); (407,
    407, 616); (408, 408, 409); (412, 412, 623); (413, 413, 626); (415, 415, 629); (416, 416, 417);
    (418, 418, 419); (420, 420, 421); (422, 422, 640); (423, 423, 424); (425, 425, 643); (428, 428,
    429); (430, 430, 648); (431, 431, 432); (433, 434, 650); (435, 435, 436); (437, 437, 438); (439,
    439, 658); (440, 440, 441); (444, 444, 445); (452, 452, 454); (453, 453, 454); (455, 455, 457);
    (456, 456, 457); (458, 458, 460); (459, 459, 460); (461, 461, 462); (463, 463, 464); (465, 465,
    466); (467, 467, 468); (469, 469, 470); (471, 471, 472); (473, 473, 474); (475, 475, 476); (478,
    478, 479); (480, 480, 481); (482, 482, 483); (484, 484, 485); (486, 486, 487); (488, 488, 489);
    (490, 490, 491); (492, 492, 493); (494, 494, 495); (497, 497, 499); (498, 498, 499); (500, 500,
    501); (502, 502, 405); (503, 503, 447); (504, 504, 505); (506, 506, 507); (508, 508, 509); (510,
    510, 511); (512, 512, 513); (514, 514, 515); (516, 516, 517); (518, 518, 519); (520, 520, 521);
    (522, 522, 523); (524, 524, 525); (526, 526, 527); (528, 528, 529); (530, 530, 531); (532, 532,
    533); (534, 534, 535); (536, 536, 537); (538, 538, 539); (540, 540, 541); (542, 542, 543); (544,
    544, 414); (546, 546, 547); (548, 548, 549); (550, 550, 551); (552, 552, 553); (554, 554, 555);
    (556, 556, 557); (558, 558, 559); (560, 560, 561); (562, 562, 563); (570, 570, 11365); (571,
    571, 572); (573, 573, 410); (574, 574, 11366); (577, 577, 578); (579, 579, 384); (580, 580,
    649); (581, 581, 652); (582, 582, 583); (584, 584, 585); (586, 586, 587); (588, 588, 589); (590,
    590, 591); (880, 880, 881); (882, 882, 883); (886, 886, 887); (895, 895, 1011); (902, 902, 940);
    (904, 906, 941); (908, 908, 972); (910, 911, 973); (913, 929, 945); (931, 939, 963); (975, 975,
    983); (984, 984, 985); (986, 986, 987); (988, 988, 989); (990, 990, 991); (992, 992, 993); (994,
    994, 995); (996, 996, 997); (998, 998, 999); (1000, 1000, 1001); (1002, 1002, 1003); (1004,
    1004, 1005); (1006, 1006, 1007); (1012, 1012, 952); (1015, 1015, 1016); (1017, 1017, 1010);
    (1018, 1018, 1019); (1021, 1023, 891); (1024, 1039, 1104); (1040, 1071, 1072); (1120, 1120,
    1121); (1122, 1122, 1123); (1124, 1124, 1125); (1126, 1126, 1127); (1128, 1128, 1129); (1130,
    1130, 1131); (1132, 1132, 1133); (1134, 1134, 1135); (1136, 1136, 1137); (1138, 1138, 1139);
    (1140, 1140, 1141); (1142, 1142, 1143); (1144, 1144, 1145); (1146, 1146, 1147); (1148, 1148,
    1149); (1150, 1150, 1151); (1152, 1152, 1153); (1162, 1162, 1163); (1164, 1164, 1165); (1166,
    1166, 1167); (1168, 1168, 1169); (1170, 1170, 1171); (1172, 1172, 1173); (1174, 1174, 1175);
    (1176, 1176, 1177); (1178, 1178, 1179); (1180, 1180, 1181); (1182, 1182, 1183); (1184, 1184,
    1185); (1186, 1186, 1187); (1188, 1188, 1189); (1190, 1190, 1191); (1192, 1192, 1193); (1194,
    1194, 1195); (1196, 1196, 1197); (1198, 1198, 1199); (1200, 1200, 1201); (1202, 1202, 1203);
    (1204, 1204, 1205); (1206, 1206, 1207); (1208, 1208, 1209); (1210, 1210, 1211); (1212, 1212,
    1213); (1214, 1214, 1215); (1216, 1216, 1231); (1217, 1217, 1218); (1219, 1219, 1220); (1221,
    1221, 1222); (1223, 1223, 1224); (1225, 1225, 1226); (1227, 1227, 1228); (1229, 1229, 1230);
    (1232, 1232, 1233); (1234, 1234, 1235); (1236, 1236, 1237); (1238, 1238, 1239); (1240, 1240,
    1241); (1242, 1242, 1243); (1244, 1244, 1245); (1246, 1246, 1247); (1248, 1248, 1249); (1250,
    1250, 1251); (1252, 1252, 1253); (1254, 1254, 1255); (1256, 1256, 1257); (1258, 1258, 1259);
    (1260, 1260, 1261); (1262, 1262, 1263); (1264, 1264, 1265); (1266, 1266, 1267); (1268, 1268,
    1269); (1270, 1270, 1271); (1272, 1272, 1273); (1274, 1274, 1275); (1276, 1276, 1277); (1278,
    1278, 1279); (1280, 1280, 1281); (1282, 1282, 1283); (1284, 1284, 1285); (1286, 1286, 1287);
    (1288, 1288, 1289); (1290, 1290, 1291); (1292, 1292, 1293); (1294, 1294, 1295); (1296, 1296,
    1297); (1298, 1298, 1299); (1300, 1300, 1301); (1302, 1302, 1303); (1304, 1304, 1305); (1306,
    1306, 1307); (1308, 1308, 1309); (1310, 1310, 1311); (1312, 1312, 1313); (1314, 1314, 1315);
    (1316, 1316, 1317); (1318, 1318, 1319); (1320, 1320, 1321); (1322, 1322, 1323); (1324, 1324,
    1325); (1326, 1326, 1327); (1329, 1366, 1377); (4256, 4293, 11520); (4295, 4295, 11559); (4301,
    4301, 11565); (5024, 5103, 43888); (5104, 5109, 5112); (7312, 7354, 4304); (7357, 7359, 4349);
    (7680, 7680, 7681); (7682, 7682, 7683); (7684, 7684, 7685); (7686, 7686, 7687); (7688, 7688,
    7689); (7690, 7690, 7691); (7692, 7692, 7693); (7694, 7694, 7695); (7696, 7696, 7697); (7698,
    7698, 7699); (7700, 7700, 7701); (7702, 7702, 7703); (7704, 7704, 7705); (7706, 7706, 7707);
    (7708, 7708, 7709); (7710, 7710, 7711); (7712, 7712, 7713); (7714, 7714, 7715); (7716, 7716,
    7717); (7718, 7718, 7719); (7720, 7720, 7721); (7722, 7722, 7723); (7724, 7724, 7725); (7726,
    7726, 7727); (7728, 7728, 7729); (7730, 7730, 7731); (7732, 7732, 7733); (7734, 7734, 7735);
    (7736, 7736, 7737); (7738, 7738, 7739); (7740, 7740, 7741); (7742, 7742, 7743); (7744, 7744,
    7745); (7746, 7746, 7747); (7748, 7748, 7749); (7750, 7750, 7751); (7752, 7752, 7753); (7754,
    7754, 7755); (7756, 7756, 7757); (7758, 7758, 7759); (7760, 7760, 7761); (7762, 7762, 7763);
    (7764, 7764, 7765); (7766, 7766, 7767); (7768, 7768, 7769); (7770, 7770, 7771); (7772, 7772,
    7773); (7774, 7774, 7775); (7776, 7776, 7777); (7778, 7778, 7779); (7780, 7780, 7781); (7782,
    7782, 7783); (7784, 7784, 7785); (7786, 7786, 7787); (7788, 7788, 7789); (7790, 7790, 7791);
    (7792, 7792, 7793); (7794, 7794, 7795); (7796, 7796, 7797); (7798, 7798, 7799); (7800, 7800,
    7801); (7802, 7802, 7803); (7804, 7804, 7805); (7806, 7806, 7807); (7808, 7808, 7809); (7810,
    7810, 7811); (7812, 7812, 7813); (7814, 7814, 7815); (7816, 7816, 7817); (7818, 7818, 7819);
    (7820, 7820, 7821); (7822, 7822, 7823); (7824, 7824, 7825); (7826, 7826, 7827); (7828, 7828,
    7829); (7838, 7838, 223); (7840, 7840, 7841); (7842, 7842, 7843); (7844, 7844, 7845); (7846,
    7846, 7847); (7848, 7848, 7849); (7850, 7850, 7851); (7852, 7852, 7853); (7854, 7854, 7855);
    (7856, 7856, 7857); (7858, 7858, 7859); (7860, 7860, 7861); (7862, 7862, 7863); (7864, 7864,
    7865); (7866, 7866, 7867); (7868, 7868, 7869); (7870, 7870, 7871); (7872, 7872, 7873); (7874,
    7874, 7875); (7876, 7876, 7877); (7878, 7878, 7879); (7880, 7880, 7881); (7882, 7882, 7883);
    (7884, 7884, 7885); (7886, 7886, 7887); (7888, 7888, 7889); (7890, 7890, 7891); (7892, 7892,
    7893); (7894, 7894, 7895); (7896, 7896, 7897); (7898, 7898, 7899); (7900, 7900, 7901); (7902,
    7902, 7903); (7904, 7904, 7905); (7906, 7906, 7907); (7908, 7908, 7909); (7910, 7910, 7911);
    (7912, 7912, 7913); (7914, 7914, 7915); (7916, 7916, 7917); (7918, 7918, 7919); (7920, 7920,
    7921); (7922, 7922, 7923); (7924, 7924, 7925); (7926, 7926, 7927); (7928, 7928, 7929); (7930,
    7930, 7931); (7932, 7932, 7933); (7934, 7934, 7935); (7944, 7951, 7936); (7960, 7965, 7952);
    (7976, 7983, 7968); (7992, 7999, 7984); (8008, 8013, 8000); (8025, 8025, 8017); (8027, 8027,
    8019); (8029, 8029, 8021); (8031, 8031, 8023); (8040, 8047, 8032); (8072, 8079, 8064); (8088,
    8095, 8080); (8104, 8111, 8096); (8120, 8121, 8112); (8122, 8123, 8048); (8124, 8124, 8115);
    (8136, 8139, 8050); (8140, 8140, 8131); (8152, 8153, 8144); (8154, 8155, 8054); (8168, 8169,
    8160); (8170, 8171, 8058); (8172, 8172, 8165); (8184, 8185, 8056); (8186, 8187, 8060); (8188,
    8188, 8179); (8486, 8486, 969); (8490, 8490, 107); (8491, 8491, 229); (8498, 8498, 8526); (8544,
    8559, 8560); (8579, 8579, 8580); (9398, 9423, 9424); (11264, 11311, 11312); (11360, 11360,
    11361); (11362, 11362, 619); (11363, 11363, 7549); (11364, 11364, 637); (11367, 11367, 11368);
    (11369, 11369, 11370); (11371, 11371, 11372); (11373, 11373, 593); (11374, 11374, 625); (11375,
    11375, 592); (11376, 11376, 594); (11378, 11378, 11379); (11381, 11381, 11382); (11390, 11391,
    575); (11392, 11392, 11393); (11394, 11394, 11395); (11396, 11396, 11397); (11398, 11398,
    11399); (11400, 11400, 11401); (11402, 11402, 11403); (11404, 11404, 11405); (11406, 11406,
    11407); (11408, 11408, 11409); (11410, 11410, 11411); (11412, 11412, 11413); (11414, 11414,
    11415); (11416, 11416, 11417); (11418, 11418, 11419); (11420, 11420, 11421); (11422, 11422,
    11423); (11424, 11424, 11425); (11426, 11426, 11427); (11428, 11428, 11429); (11430, 11430,
    11431); (11432, 11432, 11433); (11434, 11434, 11435); (11436, 11436, 11437); (11438, 11438,
    11439); (11440, 11440, 11441); (11442, 11442, 11443); (11444, 11444, 11445); (11446, 11446,
    11447); (11448, 11448, 11449); (11450, 11450, 11451); (11452, 11452, 11453); (11454, 11454,
    11455); (11456, 11456, 11457); (11458, 11458, 11459); (11460, 11460, 11461); (11462, 11462,
    11463); (11464, 11464, 11465); (11466, 11466, 11467); (11468, 11468, 11469); (11470, 11470,
    11471); (11472, 11472, 11473); (11474, 11474, 11475); (11476, 11476, 11477); (11478, 11478,
    11479); (11480, 11480, 11481); (11482, 11482, 11483); (11484, 11484, 11485); (11486, 11486,
    11487); (11488, 11488, 11489); (11490, 11490, 11491); (11499, 11499, 11500); (11501, 11501,
    11502); (11506, 11506, 11507); (42560, 42560, 42561); (42562, 42562, 42563); (42564, 42564,
    42565); (42566, 42566, 42567); (42568, 42568, 42569); (42570, 42570, 42571); (42572, 42572,
    42573); (42574, 42574, 42575); (42576, 42576, 42577); (42578, 42578, 42579); (42580, 42580,
    42581); (42582, 42582, 42583); (42584, 42584, 42585); (42586, 42586, 42587); (42588, 42588,
    42589); (42590, 42590, 42591); (42592, 42592, 42593); (42594, 42594, 42595); (42596, 42596,
    42597); (42598, 42598, 42599); (42600, 42600, 42601); (42602, 42602, 42603); (42604, 42604,
    42605); (42624, 42624, 42625); (42626, 42626, 42627); (42628, 42628, 42629); (42630, 42630,
    42631); (42632, 42632, 42633); (42634, 42634, 42635); (42636, 42636, 42637); (42638, 42638,
    42639); (42640, 42640, 42641); (42642, 42642, 42643); (42644, 42644, 42645); (42646, 42646,
    42647); (42648, 42648, 42649); (42650, 42650, 42651); (42786, 42786, 42787); (42788, 42788,
    42789); (42790, 42790, 42791); (42792, 42792, 42793); (42794, 42794, 42795); (42796, 42796,
    42797); (42798, 42798, 42799); (42802, 42802, 42803); (42804, 42804, 42805); (42806, 42806,
    42807); (42808, 42808, 42809); (42810, 42810, 42811); (42812, 42812, 42813); (42814, 42814,
    42815); (42816, 42816, 42817); (42818, 42818, 42819); (42820, 42820, 42821); (42822, 42822,
    42823); (42824, 42824, 42825); (42826, 42826, 42827); (42828, 42828, 42829); (42830, 42830,
    42831); (42832, 42832, 42833); (42834, 42834, 42835); (42836, 42836, 42837); (42838, 42838,
    42839); (42840, 42840, 42841); (42842, 42842, 42843); (42844, 42844, 42845); (42846, 42846,
    42847); (42848, 42848, 42849); (42850, 42850, 42851); (42852, 42852, 42853); (42854, 42854,
    42855); (42856, 42856, 42857); (42858, 42858, 42859); (42860, 42860, 42861); (42862, 42862,
    42863); (42873, 42873, 42874); (42875, 42875, 42876); (42877, 42877, 7545); (42878, 42878,
    42879); (42880, 42880, 42881); (42882, 42882, 42883); (42884, 42884, 42885); (42886, 42886,
    42887); (42891, 42891, 42892); (42893, 42893, 613); (42896, 42896, 42897); (42898, 42898,
    42899); (42902, 42902, 42903); (42904, 42904, 42905); (42906, 42906, 42907); (42908, 42908,
    42909); (42910, 42910, 42911); (42912, 42912, 42913); (42914, 42914, 42915); (42916, 42916,
    42917); (42918, 42918, 42919); (42920, 42920, 42921); (42922, 42922, 614); (42923, 42923, 604);
    (42924, 42924, 609); (42925, 42925, 620); (42926, 42926, 618); (42928, 42928, 670); (42929,
    42929, 647); (42930, 42930, 669); (42931, 42931, 43859); (42932, 42932, 42933); (42934, 42934,
    42935); (42936, 42936, 42937); (42938, 42938, 42939); (42940, 42940, 42941); (42942, 42942,
    42943); (42944, 42944, 42945); (42946, 42946, 42947); (42948, 42948, 42900); (42949, 42949,
    642); (42950, 42950, 7566); (42951, 42951, 42952); (42953, 42953, 42954); (42960, 42960, 42961);
    (42966, 42966, 42967); (42968, 42968, 42969); (42997, 42997, 42998); (65313, 65338, 65345);
    (66560, 66599, 66600); (66736, 66771, 66776); (66928, 66938, 66967); (66940, 66954, 66979);
    (66956, 66962, 66995); (66964, 66965, 67003); (68736, 68786, 68800); (71840, 71871, 71872);
    (93760, 93791, 93792); (125184, 125217, 125218) ]%N.

Fixpoint in_ranges (c : N) (t : list (N * N)) : bool :=
  match t with
  | [] => false
  | (lo, hi) :: t' => ((lo <=? c) && (c <=? hi)) || in_ranges c t'
  end.

(** [chr(c).isalnum()] *)
Definition isalnum (c : N) : bool := in_ranges c alnum_ranges.
(** [chr(c).isspace()] *)
Definition isspace (c : N) : bool := in_ranges c space_ranges.
Definition is_cased (c : N) : bool := in_ranges c cased_ranges.
Definition is_case_ignorable (c : N) : bool := in_ranges c case_ignorable_ranges.
Arguments isalnum : simpl never.
Arguments isspace : simpl never.
Arguments is_cased : simpl never.
Arguments is_case_ignorable : simpl never.

Fixpoint lower_lookup (c : N) (t : list (N * N * N)) : N :=
  match t with
  | [] => c
  | (lo, hi, tlo) :: t' =>
      if (lo <=? c) && (c <=? hi) then tlo + (c - lo) else lower_lookup c t'
  end.

(** The full lower-case mapping of one code point outside of any context:
    U+0130 is the only code point of the database that lowers to two. *)
Definition to_lower_full (c : N) : list N :=
  if c =? 304 then [105; 775] else [lower_lookup c lower_runs].

Module Str.

(** [s.lstrip()], [s.rstrip()], [s.strip()] *)
Fixpoint lstrip (s : pystr) : pystr :=
  match s with
  | c :: s' => if isspace c then lstrip s' else s
  | [] => []
  end.
Definition rstrip (s : pystr) : pystr := rev (lstrip (rev s)).
Definition strip (s : pystr) : pystr := rstrip (lstrip s).

(** The first code point that is not case-ignorable, if any. *)
Fixpoint skip_ignorable (s : pystr) : option N :=
  match s with
  | [] => None
  | c :: s' => if is_case_ignorable c then skip_ignorable s' else Some c
  end.

(** A capital sigma lowers to the final form when a cased letter comes
    before it and none comes after it, case-ignorable code points skipped.
    [before] is the text before the sigma, nearest code point first. *)
Definition lower_sigma (before after : pystr) : N :=
  match skip_ignorable before with
  | Some c =>
      if is_cased c then
        match skip_ignorable after with
        | Some d => if is_cased d then 963 else 962
        | None => 962
        end
      else 963
  | None => 963
  end.

Fixpoint lower_from (before s : pystr) : pystr :=
  match s with
  | [] => []
  | c :: s' =>
      (if c =? 931 then [lower_sigma before s'] else to_lower_full c)
      ++ lower_from (c :: before) s'
  end.

(** [s.lower()] *)
Definition lower (s : pystr) : pystr := lower_from [] s.

(** [s.startswith(p)] *)
Fixpoint startswith (s p : pystr) : bool :=
  match p, s with
  | [], _ => true
  | a :: p', b :: s' => (a =? b) && startswith s' p'
  | _ :: _, [] => false
  end.

(** [sep.join(parts)] *)
Fixpoint join (sep : pystr) (parts : list pystr) : pystr :=
  match parts with
  | [] => []
  | [p] => p
  | p :: ps => p ++ sep ++ join sep ps
  end.

End Str.

(** ** The two regular expressions *)

Module Re.

(** [\w] on [str] patterns: alphanumeric or underscore. *)
Definition word (c : N) : bool := isalnum c || (c =? 95).
(** [\s] on [str] patterns. *)
Definition space (c : N) : bool := isspace c.

(** The class of the first alternative: [\w], [\s], and the seven marks
    full stop, comma, exclamation mark, question mark, apostrophe,
    quotation mark and hyphen. *)
Definition latin_class (c : N) : bool :=
  word c || space c || (c =? 46) || (c =? 44) || (c =? 33) || (c =? 63)
  || (c =? 39) || (c =? 34) || (c =? 45).

(** The class of the second alternative: U+0600..U+06FF, [\s], and the
    four marks full stop, comma, exclamation mark and question mark. *)
Definition arabic_class (c : N) : bool :=
  ((1536 <=? c) && (c <=? 1791)) || space c
  || (c =? 46) || (c =? 44) || (c =? 33) || (c =? 63).

(** [$] without [re.MULTILINE]: at the end of the text, or before a
    newline that ends the text. *)
Definition at_end (s : pystr) : bool :=
  match s with
  | [] => true
  | [10] => true
  | _ => false
  end.

(** [[cls]+$] matched from the head of [s]: one or more code points of the
    class, then [$]; the repetition gives back code points as needed. *)
Fixpoint class_plus_end (cls : N -> bool) (s : pystr) : bool :=
  match s with
  | [] => false
  | c :: s' => cls c && (at_end s' || class_plus_end cls s')
  end.

(** [re.search(r'[cls]', s)] as a truth value. *)
Definition search_class (cls : N -> bool) (s : pystr) : bool := existsb cls s.

End Re.

(** ** Validator and language detector *)

(** [validate_input]: [re.match] anchors at the start, so [^] holds there;
    the alternatives are tried left to right. *)
Definition validate_input (text : pystr) : bool :=
  if bool_decide (text = []) || bool_decide (Str.strip text = []) then false
  else Re.class_plus_end Re.latin_class text
       || Re.class_plus_end Re.arabic_class text.

(** [detect_language]: the two searches cannot raise, the handler of the
    source is dead code. *)
Definition detect_language (text : pystr) : pystr :=
  if Re.search_class (fun c => (1536 <=? c) && (c <=? 1791)) text then py "ur"
  else if Re.search_class
            (fun c => ((97 <=? c) && (c <=? 122)) || ((65 <=? c) && (c <=? 90))) text
  then py "en"
  else py "unknown".

(** ** History entries and their JSON text *)

(** One entry of the history: the dictionary
    [{"role": ..., "content": ..., "timestamp": ...}], keys in this order. *)
Record HistoryEntry := mkEntry { role : pystr; content : pystr; timestamp : pystr }.

Module Json.

#[local] Set Warnings "-register-all".

(** The values [json.load] can return.  Numbers are kept as their text. *)
Inductive json : Type :=
| JNull
| JBool (b : bool)
| JNum (lexeme : pystr)
| JStr (s : pystr)
| JArr (items : list json)
| JObj (pairs : list (pystr * json)).

(** The Python value of an entry and of a history. *)
Definition entry_json (e : HistoryEntry) : json :=
  JObj [ (py "role", JStr (role e)); (py "content", JStr (content e));
         (py "timestamp", JStr (timestamp e)) ].
Definition history_json (h : list HistoryEntry) : json := JArr (entry_json <$> h).

(** *** Encoder, [ensure_ascii=False] *)

Definition hex_digit (d : N) : N := if d <? 10 then 48 + d else 87 + d.

(** The replacement of one code point by [ESCAPE_DCT]; code points from
    U+0020 on, other than the quotation mark and the backslash, stay. *)
Definition escape_char (c : N) : pystr :=
  if c =? 92 then [92; 92]
  else if c =? 34 then [92; 34]
  else if c =? 8 then [92; 98]
  else if c =? 12 then [92; 102]
  else if c =? 10 then [92; 110]
  else if c =? 13 then [92; 114]
  else if c =? 9 then [92; 116]
  else if c <? 32 then [92; 117; 48; 48; hex_digit (c / 16); hex_digit (c mod 16)]
  else [c].

(** [encode_basestring] *)
Definition encode_basestring (s : pystr) : pystr :=
  [34] ++ flat_map escape_char s ++ [34].

(** The chunks [_iterencode_dict] yields for an entry. *)
Definition iterencode_entry (e : HistoryEntry) : list pystr :=
  [ [123];
    encode_basestring (py "role"); py ": "; encode_basestring (role e); py ", ";
    encode_basestring (py "content"); py ": "; encode_basestring (content e); py ", ";
    encode_basestring (py "timestamp"); py ": "; encode_basestring (timestamp e);
    [125] ].

(** The chunks [_iterencode_list] yields for a history. *)
Definition iterencode (h : list HistoryEntry) : list pystr :=
  match h with
  | [] => [py "[]"]
  | e :: h' =>
      ([91] :: iterencode_entry e)
      ++ flat_map (fun e' => py ", " :: iterencode_entry e') h'
      ++ [[93]]
  end.

(** [json.dumps(h, ensure_ascii=False)]: the chunks joined. *)
Definition dumps (h : list HistoryEntry) : pystr := concat (iterencode h).

(** *** Decoder *)

Definition is_ws (c : N) : bool := (c =? 32) || (c =? 9) || (c =? 10) || (c =? 13).

Fixpoint skip_ws (s : pystr) : pystr :=
  match s with
  | c :: s' => if is_ws c then skip_ws s' else s
  | [] => []
  end.

Definition is_digit (c : N) : bool := (48 <=? c) && (c <=? 57).

Definition hex_value (c : N) : option N :=
  if is_digit c then Some (c - 48)
  else if (97 <=? c) && (c <=? 102) then Some (c - 87)
  else if (65 <=? c) && (c <=? 70) then Some (c - 55)
  else None.

Definition hex4 (a b c d : N) : option N :=
  match hex_value a, hex_value b, hex_value c, hex_value d with
  | Some x, Some y, Some z, Some w => Some (((x * 16 + y) * 16 + z) * 16 + w)
  | _, _, _, _ => None
  end.

(** The table [BACKSLASH]. *)
Definition unescape (c : N) : option N :=
  if c =? 34 then Some 34
  else if c =? 92 then Some 92
  else if c =? 47 then Some 47
  else if c =? 98 then Some 8
  else if c =? 102 then Some 12
  else if c =? 110 then Some 10
  else if c =? 114 then Some 13
  else if c =? 116 then Some 9
  else None.

Definition push {A : Type} (c : N) (r : option (pystr * A)) : option (pystr * A) :=
  match r with
  | Some (s, a) => Some (c :: s, a)
  | None => None
  end.

(** [scanstring], strict: from the code point after the opening quotation
    mark, the decoded string and the text after the closing mark. *)
Fixpoint scanstring (s : pystr) : option (pystr * pystr) :=
  match s with
  | [] => None
  | c :: r =>
      if c =? 34 then Some ([], r)
      else if c =? 92 then
        match r with
        | [] => None
        | e :: r1 =>
            if e =? 117 then
              match r1 with
              | h1 :: h2 :: h3 :: h4 :: r2 =>
                  match hex4 h1 h2 h3 h4 with
                  | None => None
                  | Some uni =>
                      if (55296 <=? uni) && (uni <=? 56319) then
                        match r2 with
                        | b :: u :: r3 =>
                            if (b =? 92) && (u =? 117) then
                              match r3 with
                              | g1 :: g2 :: g3 :: g4 :: r4 =>
                                  match hex4 g1 g2 g3 g4 with
                                  | None => None
                                  | Some uni2 =>
                                      if (56320 <=? uni2) && (uni2 <=? 57343)
                                      then push (65536 + ((uni - 55296) * 1024
                                                          + (uni2 - 56320)))
                                                (scanstring r4)
                                      else push uni (scanstring r2)
                                  end
                              | _ => None
                              end
                            else push uni (scanstring r2)
                        | _ => push uni (scanstring r2)
                        end
                      else push uni (scanstring r2)
                  end
              | _ => None
              end
            else
              match unescape e with
              | Some ch => push ch (scanstring r1)
              | None => None
              end
        end
      else if c <? 32 then None
      else push c (scanstring r)
  end.

(** The longest run of decimal digits at the head of the text. *)
Fixpoint span_digits (s : pystr) : pystr * pystr :=
  match s with
  | c :: s' =>
      if is_digit c then let '(ds, r) := span_digits s' in (c :: ds, r)
      else ([], s)
  | [] => ([], [])
  end.

(** The number pattern of the scanner: an optional minus sign, then a
    zero or a non-zero digit followed by digits; then, when present, a
    full stop with one digit or more; then, when present, [e] or [E], an
    optional sign and one digit or more.  Returns the integer part, the
    fraction and the exponent (empty when absent), and the rest of the
    text. *)
Definition match_number (s : pystr) : option (pystr * pystr * pystr * pystr) :=
  let '(sign, s1) :=
    match s with
    | c :: s' => if c =? 45 then ([45], s') else ([], s)
    | [] => ([], [])
    end in
  let int_part :=
    match s1 with
    | c :: s' =>
        if c =? 48 then Some ([48], s')
        else if is_digit c then let '(ds, r) := span_digits s' in Some (c :: ds, r)
        else None
    | [] => None
    end in
  match int_part with
  | None => None
  | Some (digits, s2) =>
      let '(frac, s3) :=
        match s2 with
        | c :: s' =>
            if c =? 46 then
              match span_digits s' with
              | ([], _) => ([], s2)
              | (ds, r) => (46 :: ds, r)
              end
            else ([], s2)
        | [] => ([], [])
        end in
      let '(exp, s4) :=
        match s3 with
        | c :: s' =>
            if (c =? 101) || (c =? 69) then
              let '(sg, s'') :=
                match s' with
                | d :: t => if (d =? 45) || (d =? 43) then ([d], t) else ([], s')
                | [] => ([], [])
                end in
              match span_digits s'' with
              | ([], _) => ([], s3)
              | (ds, r) => (c :: sg ++ ds, r)
              end
            else ([], s3)
        | [] => ([], [])
        end in
      Some (sign ++ digits, frac, exp, s4)
  end.

(** [dict(pairs)]: a later pair with the same key replaces the value and
    keeps the place of the first. *)
Fixpoint dict_set (k : pystr) (v : json) (d : list (pystr * json)) : list (pystr * json) :=
  match d with
  | [] => [(k, v)]
  | (k', v') :: d' =>
      if bool_decide (k' = k) then (k, v) :: d' else (k', v') :: dict_set k v d'
  end.

Definition dict_of_pairs (pairs : list (pystr * json)) : list (pystr * json) :=
  fold_left (fun d kv => dict_set (fst kv) (snd kv) d) pairs [].

(** [scan_once], with [JSONArray] and [JSONObject]: the value at the head
    of the text, and the rest of the text.  Each call and each turn of a
    loop takes one unit of [fuel]. *)
Fixpoint scan_once (fuel : nat) (s : pystr) : option (json * pystr) :=
  match fuel with
  | O => None
  | S fuel' =>
      match s with
      | [] => None
      | c :: r =>
          if c =? 34 then
            match scanstring r with
            | Some (str, rest) => Some (JStr str, rest)
            | None => None
            end
          else if c =? 123 then
            match skip_ws r with
            | d :: r' =>
                if d =? 125 then Some (JObj [], r')
                else if d =? 34 then
                  match object_loop fuel' r' [] with
                  | Some (pairs, rest) => Some (JObj (dict_of_pairs pairs), rest)
                  | None => None
                  end
                else None
            | [] => None
            end
          else if c =? 91 then
            match skip_ws r with
            | d :: r' =>
                if d =? 93 then Some (JArr [], r')
                else
                  match array_loop fuel' (d :: r') [] with
                  | Some (items, rest) => Some (JArr items, rest)
                  | None => None
                  end
            | [] => None
            end
          else if Str.startswith s (py "null") then Some (JNull, drop 4 s)
          else if Str.startswith s (py "true") then Some (JBool true, drop 4 s)
          else if Str.startswith s (py "false") then Some (JBool false, drop 5 s)
          else
            match match_number s with
            | Some (integer, frac, exp, rest) =>
                match frac, exp with
                | [], [] =>
                    (* [int(integer)] refuses more than 4300 digits *)
                    if (4300 <? length (filter (fun c => is_digit c = true) integer))%nat
                    then None
                    else Some (JNum integer, rest)
                | _, _ => Some (JNum (integer ++ frac ++ exp), rest)
                end
            | None =>
                if Str.startswith s (py "NaN") then Some (JNum (py "NaN"), drop 3 s)
                else if Str.startswith s (py "Infinity")
                then Some (JNum (py "Infinity"), drop 8 s)
                else if Str.startswith s (py "-Infinity")
                then Some (JNum (py "-Infinity"), drop 9 s)
                else None
            end
      end
  end

(** The loop of [JSONArray], at the first code point of an item. *)
with array_loop (fuel : nat) (s : pystr) (acc : list json)
  : option (list json * pystr) :=
  match fuel with
  | O => None
  | S fuel' =>
      match scan_once fuel' s with
      | None => None
      | Some (v, s1) =>
          match skip_ws s1 with
          | d :: s2 =>
              if d =? 93 then Some (acc ++ [v], s2)
              else if d =? 44 then array_loop fuel' (skip_ws s2) (acc ++ [v])
              else None
          | [] => None
          end
      end
  end

(** The loop of [JSONObject], after the quotation mark that opens a key. *)
with object_loop (fuel : nat) (s : pystr) (acc : list (pystr * json))
  : option (list (pystr * json) * pystr) :=
  match fuel with
  | O => None
  | S fuel' =>
      match scanstring s with
      | None => None
      | Some (key, s1) =>
          match skip_ws s1 with
          | c :: s2 =>
              if c =? 58 then
                match scan_once fuel' (skip_ws s2) with
                | None => None
                | Some (v, s3) =>
                    match skip_ws s3 with
                    | d :: s4 =>
                        if d =? 125 then Some (acc ++ [(key, v)], s4)
                        else if d =? 44 then
                          match skip_ws s4 with
                          | q :: s5 =>
                              if q =? 34
                              then object_loop fuel' s5 (acc ++ [(key, v)])
                              else None
                          | [] => None
                          end
                        else None
                    | [] => None
                    end
                end
              else None
          | [] => None
          end
      end
  end.

(** [json.loads(s)]; [None] stands for the exceptions it raises.  The
    recursion limit of the interpreter is not modelled. *)
Definition loads (s : pystr) : option json :=
  if Str.startswith s [65279] then None
  else
    match scan_once (2 * length s + 2) (skip_ws s) with
    | Some (v, rest) =>
        match skip_ws rest with
        | [] => Some v
        | _ => None
        end
    | None => None
    end.

End Json.

Export Json(json).

(** ** The interpreter state and the collaborators *)

(** How a call ends: with a value, with an exception of class
    [Exception], kept as its message [str(e)], or with an exception that
    is not of class [Exception] ([KeyboardInterrupt], [SystemExit],
    [GeneratorExit], [asyncio.CancelledError]), kept as its message too.
    The handlers of the module are all [except Exception]: they catch
    the first kind and let the second through. *)
Inductive outcome (A : Type) : Type :=
| Returns (a : A)
| Raises (e : pystr)
| Interrupts (e : pystr).
Arguments Returns {A} a.
Arguments Raises {A} e.
Arguments Interrupts {A} e.

(** A translator handle: what [translate(text)] does on a text. *)
Definition Translator : Type := pystr -> outcome pystr.

(** What [socket.create_connection] does: it connects, or raises
    [socket.gaierror], [socket.timeout], another exception of class
    [Exception] (a refused connection, an unreachable network), or an
    exception that is not of class [Exception]. *)
Inductive probe_result : Type :=
| Connected
| GaiError (e : pystr)
| SockTimeout (e : pystr)
| ProbeError (e : pystr)
| ProbeInterrupt (e : pystr).

(** The calls made on the collaborators, in order. *)
Inductive event : Type :=
| EvProbe
| EvTranslate (key : string) (text : pystr)
| EvSend (content : pystr).

(** The answers of the outside: the [n]-th query of the run reads the
    clock, probes the network or sends a chat message. *)
Record Env : Type := mkEnv {
  clock : nat -> pystr;
  network : nat -> probe_result;
  chat : nat -> outcome unit
}.

(** [heap]: the list objects, a reference is an index.
    [sess_translators], [sess_history]: the keys ["translators"] and
    ["history"] of [cl.user_session], absent when [None]; the history is
    held by reference.  [disk]: the bytes of [translation_history.json],
    absent when [None]. *)
Record World : Type := mkWorld {
  heap : list (list HistoryEntry);
  sess_translators : option (gmap string Translator);
  sess_history : option nat;
  disk : option (list N);
  tick : nat;
  events : list event
}.

Definition Py (A : Type) : Type := World -> outcome A * World.

Definition ret {A : Type} (a : A) : Py A := fun w => (Returns a, w).
Definition raise {A : Type} (e : pystr) : Py A := fun w => (Raises e, w).
Definition interrupt {A : Type} (e : pystr) : Py A := fun w => (Interrupts e, w).
Definition bind {A B : Type} (m : Py A) (f : A -> Py B) : Py B :=
  fun w =>
    match m w with
    | (Returns a, w') => f a w'
    | (Raises e, w') => (Raises e, w')
    | (Interrupts e, w') => (Interrupts e, w')
    end.
(** [try: body except Exception as e: handler(str(e))]: an exception
    that is not of class [Exception] is not handled. *)
Definition try_except {A : Type} (body : Py A) (handler : pystr -> Py A) : Py A :=
  fun w =>
    match body w with
    | (Returns a, w') => (Returns a, w')
    | (Raises e, w') => handler e w'
    | (Interrupts e, w') => (Interrupts e, w')
    end.

Notation "x <~ m ;; k" := (bind m (fun x => k))
  (at level 100, m at next level, right associativity, only parsing).
Notation "m ;;; k" := (bind m (fun _ => k))
  (at level 100, right associativity, only parsing).

Definition set_heap (h : list (list HistoryEntry)) (w : World) : World :=
  mkWorld h (sess_translators w) (sess_history w) (disk w) (tick w) (events w).
Definition set_sess_history (r : option nat) (w : World) : World :=
  mkWorld (heap w) (sess_translators w) r (disk w) (tick w) (events w).
Definition set_disk (d : option (list N)) (w : World) : World :=
  mkWorld (heap w) (sess_translators w) (sess_history w) d (tick w) (events w).

(** A new list object. *)
Definition list_new (l : list HistoryEntry) : Py nat :=
  fun w => (Returns (length (heap w)), set_heap (heap w ++ [l]) w).
(** [lst.append(e)] *)
Definition list_append (r : nat) (e : HistoryEntry) : Py unit :=
  fun w => (Returns tt, set_heap (alter (fun l => l ++ [e]) r (heap w)) w).
(** The elements of the list object. *)
Definition list_read (r : nat) : Py (list HistoryEntry) :=
  fun w => (Returns (default [] (heap w !! r)), w).

(** [cl.user_session.get("history", dflt)] *)
Definition session_get_history (dflt : nat) : Py nat :=
  fun w => (Returns (default dflt (sess_history w)), w).
(** [cl.user_session.set("history", r)] *)
Definition session_set_history (r : nat) : Py unit :=
  fun w => (Returns tt, set_sess_history (Some r) w).
(** [cl.user_session.get("translators")] *)
Definition session_get_translators : Py (option (gmap string Translator)) :=
  fun w => (Returns (sess_translators w), w).

(** One query of the outside: logged, and the run moves on by one. *)
Definition query (ev : event) : Py nat :=
  fun w =>
    (Returns (tick w),
     mkWorld (heap w) (sess_translators w) (sess_history w) (disk w)
             (S (tick w)) (events w ++ [ev])).
Definition next_tick : Py nat :=
  fun w =>
    (Returns (tick w),
     mkWorld (heap w) (sess_translators w) (sess_history w) (disk w)
             (S (tick w)) (events w)).

Definition of_outcome {A : Type} (o : outcome A) : Py A := fun w => (o, w).

(** [l[-n:]] for a positive [n] *)
Definition last_n {A : Type} (n : nat) (l : list A) : list A :=
  drop (length l - n) l.

(** ** The module, function by function *)

Section Program.

Variable env : Env.

(** [check_internet]: only [socket.gaierror] and [socket.timeout] are
    handled, any other exception of the probe leaves the function. *)
Definition check_internet : Py bool :=
  n <~ query EvProbe ;;
  match network env n with
  | Connected => ret true
  | GaiError _ | SockTimeout _ => ret false
  | ProbeError e => raise e
  | ProbeInterrupt e => interrupt e
  end.

(** [translators[key].translate(text)]; a missing key is a [KeyError],
    whose message is the key between apostrophes. *)
Definition call_translate (translators : gmap string Translator)
    (key : string) (text : pystr) : Py pystr :=
  match translators !! key with
  | None => raise ([39] ++ py key ++ [39])
  | Some t => query (EvTranslate key text) ;;; of_outcome (t text)
  end.

(** [not translators]: [None] and the empty dictionary are false. *)
Definition truthy (translators : option (gmap string Translator)) : bool :=
  match translators with
  | None => false
  | Some d => negb (bool_decide (d = ∅))
  end.

Definition translate_text (translators : option (gmap string Translator))
    (text : pystr) : Py pystr :=
  try_except
    (if negb (truthy translators) then
       ret (py "Error: Translators not initialized.")
     else
       online <~ check_internet ;;
       if negb online then
         ret (py "Error: No internet connection. Please check your network.")
       else if negb (validate_input text) then
         ret (py "Error: Please provide valid English or Urdu text.")
       else
         let source_lang := detect_language text in
         if bool_decide (source_lang = py "unknown") then
           ret (py "Error: Unable to detect language. Use clear English or Urdu text.")
         else
           let translator_key :=
             if bool_decide (source_lang = py "en") then "en_to_ur"%string
             else "ur_to_en"%string in
           let target_lang :=
             if bool_decide (source_lang = py "en") then py "Urdu" else py "English" in
           translated <~ call_translate (default ∅ translators) translator_key text ;;
           ret (py "Translation to " ++ target_lang ++ py ": " ++ translated))
    (fun e =>
       ret (py "Error: Unable to translate. Check your internet connection. ("
            ++ e ++ py ")")).

(** [f.write(chunk)] for each chunk: a chunk is encoded when it is
    written; the chunks written before a failure stay in the file. *)
Fixpoint write_chunks (chunks : list pystr) (file : list N) : outcome unit * list N :=
  match chunks with
  | [] => (Returns tt, file)
  | c :: cs =>
      match Utf8.encode c with
      | Some bs => write_chunks cs (file ++ bs)
      | None => (Raises (py "UnicodeEncodeError"), file)
      end
  end.

(** [save_history_to_file]: opening for writing empties the file; any
    exception is logged and dropped. *)
Definition save_history_to_file (history : list HistoryEntry) : Py unit :=
  try_except
    (fun w =>
       let '(r, file) := write_chunks (Json.iterencode history) [] in
       (r, set_disk (Some file) w))
    (fun _ => ret tt).

(** Reading in text mode: [\r\n] and [\r] come out as [\n]. *)
Fixpoint universal_newlines (s : pystr) : pystr :=
  match s with
  | [] => []
  | c :: r =>
      if c =? 13 then
        10 :: match r with
              | d :: r' => if d =? 10 then universal_newlines r' else universal_newlines r
              | [] => []
              end
      else c :: universal_newlines r
  end.

(** [f.read()] *)
Definition read_text (file : list N) : option pystr :=
  universal_newlines <$> Utf8.decode file.

(** [load_history_from_file]: the empty list when the file is absent, and
    when reading or parsing raises. *)
Definition load_history_from_file : Py json :=
  try_except
    (fun w =>
       match disk w with
       | Some file =>
           match read_text file with
           | Some text =>
               match Json.loads text with
               | Some v => (Returns v, w)
               | None => (Raises (py "JSONDecodeError"), w)
               end
           | None => (Raises (py "UnicodeDecodeError"), w)
           end
       | None => (Returns (Json.JArr []), w)
       end)
    (fun _ => ret (Json.JArr [])).

Definition get_current_timestamp : Py pystr :=
  n <~ next_tick ;; ret (clock env n).

(** [await cl.Message(content=...).send()] *)
Definition send_message (text : pystr) : Py unit :=
  n <~ query (EvSend text) ;; of_outcome (chat env n).

(** One line of the [/history] listing. *)
Definition format_entry (e : HistoryEntry) : pystr :=
  timestamp e ++ py " [" ++ role e ++ py "]: " ++ content e.

Definition process_command (command : pystr) : Py pystr :=
  let command := Str.strip (Str.lower command) in
  if bool_decide (command = py "/history") then
    dflt <~ list_new [] ;;
    history <~ session_get_history dflt ;;
    h <~ list_read history ;;
    match h with
    | [] => ret (py "No translation history available.")
    | _ => ret (Str.join [10] (format_entry <$> h))
    end
  else if bool_decide (command = py "/clear") then
    r <~ list_new [] ;;
    session_set_history r ;;;
    ret (py "Translation history cleared.")
  else ret (py "Unknown command. Available: /history, /clear").

(** [cl.user_session.set("history", history[-10:])]: the slice is a new
    list object. *)
Definition store_last_ten (history : nat) : Py unit :=
  h <~ list_read history ;;
  r <~ list_new (last_n 10 h) ;;
  session_set_history r.

Definition handle_message (message_content : pystr) : Py unit :=
  dflt <~ list_new [] ;;
  history <~ session_get_history dflt ;;
  translators <~ session_get_translators ;;
  let user_input := Str.strip message_content in
  try_except
    (ts <~ get_current_timestamp ;;
     list_append history (mkEntry (py "user") user_input ts) ;;;
     response <~ (if Str.startswith (Str.lower user_input) (py "/")
                  then process_command user_input
                  else translate_text translators user_input) ;;
     send_message response ;;;
     ts' <~ get_current_timestamp ;;
     list_append history (mkEntry (py "assistant") response ts') ;;;
     store_last_ten history ;;;
     h <~ list_read history ;;
     save_history_to_file h)
    (fun e =>
       let error_message := py "Error: " ++ e in
       send_message error_message ;;;
       ts' <~ get_current_timestamp ;;
       list_append history (mkEntry (py "assistant") error_message ts') ;;;
       store_last_ten history ;;;
       h <~ list_read history ;;
       save_history_to_file h).

(** A run of turns: the messages are handled one after the other; an
    exception of class [Exception] that leaves [handle_message] ends that
    turn only.  What the framework does after an exception of another
    class is not part of the module: the statements about runs are about
    runs whose turns return or raise an exception of class [Exception]. *)
Fixpoint run_turns (messages : list pystr) (w : World) : World :=
  match messages with
  | [] => w
  | m :: ms => run_turns ms (snd (handle_message m w))
  end.

End Program.

(** The world of a session that has just started without a history file:
    [handle_chat_start] has stored the translators and the empty list
    that [load_history_from_file] returned.  The log of calls starts
    empty here. *)
Definition fresh_session (translators : gmap string Translator) : World :=
  mkWorld [[]] (Some translators) (Some 0%nat) None 0 [].

(** ** Sample collaborators *)

(** A clock that shows the number of the query as its seconds. *)
Definition sample_clock (n : nat) : pystr :=
  py "2024-01-01 00:00:" ++ [48 + N.of_nat (n / 10); 48 + N.of_nat (n mod 10)].

(** The network is up and every message is delivered. *)
Definition online_env : Env := mkEnv sample_clock (fun _ => Connected) (fun _ => Returns tt).


(** The chat surface is down: no message is delivered. *)
Definition undelivered_env : Env :=
  mkEnv sample_clock (fun _ => Connected) (fun _ => Raises (py "Connection lost")).

(** Translators that answer a fixed text, as the mocks of the end-to-end
    tests of the specification do. *)
Definition mock_translators : gmap string Translator :=
  {[ "en_to_ur"%string := (fun _ => Returns (py "ہیلو"));
     "ur_to_en"%string := (fun _ => Returns (py "Hello")) ]}.

(** Translators whose calls fail. *)
Definition failing_translators : gmap string Translator :=
  {[ "en_to_ur"%string := (fun _ => Raises (py "Request exception"));
     "ur_to_en"%string := (fun _ => Raises (py "Request exception")) ]}.

(** Translators interrupted in the middle of a call: [translate] raises
    [SystemExit("stopped")], which is not of class [Exception]. *)
Definition interrupted_translators : gmap string Translator :=
  {[ "en_to_ur"%string := (fun _ => Interrupts (py "stopped"));
     "ur_to_en"%string := (fun _ => Interrupts (py "stopped")) ]}.


(** * Notions used by the statements *)

(** ** The validator as the specification words it *)

(** The punctuation set of the specification: full stop, comma,
    exclamation mark, question mark, apostrophe, quotation mark, hyphen. *)
Definition spec_punctuation (c : N) : bool :=
  (c =? 46) || (c =? 44) || (c =? 33) || (c =? 63) || (c =? 39) || (c =? 34) || (c =? 45).

(** (a): word characters, the punctuation set and whitespace. *)
Definition spec_latin (c : N) : bool := Re.word c || spec_punctuation c || isspace c.

(** (b): the Arabic block with the same punctuation set and whitespace. *)
Definition spec_arabic (c : N) : bool :=
  ((1536 <=? c) && (c <=? 1791)) || spec_punctuation c || isspace c.

(** Empty or whitespace-only. *)
Definition blank (text : pystr) : Prop := Forall (fun c => isspace c = true) text.

(** The validator of the specification: false on blank text, otherwise
    true exactly when the whole text is of kind (a) or of kind (b). *)
Definition spec_validate (text : pystr) : bool :=
  negb (forallb isspace text) && (forallb spec_latin text || forallb spec_arabic text).

(** Code points of the Arabic block, and the letters a-z and A-Z. *)
Definition arabic_cp (c : N) : Prop := 1536 <= c <= 1791.
Definition latin_letter (c : N) : Prop := 97 <= c <= 122 \/ 65 <= c <= 90.

(** ** The translation dispatcher, path by path *)

(** The world after one query of the outside. *)
Definition queried (ev : event) (w : World) : World :=
  mkWorld (heap w) (sess_translators w) (sess_history w) (disk w)
          (S (tick w)) (events w ++ [ev]).

Definition err_not_initialized : pystr := py "Error: Translators not initialized.".
Definition err_no_internet : pystr :=
  py "Error: No internet connection. Please check your network.".
Definition err_invalid_input : pystr :=
  py "Error: Please provide valid English or Urdu text.".
Definition err_unknown_language : pystr :=
  py "Error: Unable to detect language. Use clear English or Urdu text.".

Definition err_translate (e : pystr) : pystr :=
  py "Error: Unable to translate. Check your internet connection. (" ++ e ++ py ")".

(** The direction chosen for a detected language. *)
Definition direction (source_lang : pystr) : string :=
  if bool_decide (source_lang = py "en") then "en_to_ur"%string else "ur_to_en"%string.
Definition target_name (source_lang : pystr) : pystr :=
  if bool_decide (source_lang = py "en") then py "Urdu" else py "English".

(** ** Text the codec can write *)

(** Code points a [str] can hold and the [utf-8] codec can write: up to
    U+10FFFF, surrogates excluded. *)
Definition scalar (c : N) : Prop := c < 1114112 /\ ~ (55296 <= c <= 57343).
Definition encodable (s : pystr) : Prop := Forall scalar s.


(** ** The text of a history *)

(** The text of the entries after the first, each behind its separator. *)
Definition tail_text (h : list HistoryEntry) : pystr :=
  concat (flat_map (fun e => py ", " :: Json.iterencode_entry e) h).

(** ** Valid entries *)

(** An entry whose three texts the codec can write. *)
Definition valid_entry (e : HistoryEntry) : Prop :=
  encodable (role e) /\ encodable (content e) /\ encodable (timestamp e).

(** ** Sessions *)

(** What [cl.user_session.get("history", [])] shows: the elements of the
    stored list, none when the key is absent. *)
Definition session_history_of (w : World) : list HistoryEntry :=
  match sess_history w with
  | Some r => default [] (heap w !! r)
  | None => []
  end.

(** The reference stored in the session is a list object. *)
Definition world_ok (w : World) : Prop :=
  forall r, sess_history w = Some r -> (r < length (heap w))%nat.

(** The bytes [save_history_to_file] leaves in the file. *)
Definition saved_file (h : list HistoryEntry) : list N :=
  snd (write_chunks (Json.iterencode h) []).

(** A step keeps the list objects and the file as they are; it may
    create new objects. *)
Definition keeps_objects (w w' : World) : Prop :=
  (forall r l, heap w !! r = Some l -> heap w' !! r = Some l) /\ disk w' = disk w.

(** The end of a turn, common to the two paths of [handle_message]: the
    reply is recorded, the last ten entries are stored in the session and
    the whole list is saved. *)
Definition turn_tail (env : Env) (history : nat) (reply : pystr) : Py unit :=
  ts' <~ get_current_timestamp env ;;
  list_append history (mkEntry (py "assistant") reply ts') ;;;
  store_last_ten history ;;;
  h <~ list_read history ;;
  save_history_to_file h.

(** The world a turn ends in: [history] is the list the turn has worked
    on, [pre] its elements once the reply is recorded. *)
Definition turn_end (history : nat) (a : HistoryEntry) (pre : list HistoryEntry)
    (w : World) : World :=
  mkWorld (alter (fun l => l ++ [a]) history (heap w) ++ [last_n 10 pre])
          (sess_translators w) (Some (length (heap w)))
          (Some (saved_file pre)) (S (tick w)) (events w).

(** The list a turn works on: the list of the session, or a new empty
    list when the session has none. *)
Definition turn_ref (w : World) : nat := default (length (heap w)) (sess_history w).

(** The entry recorded for the message of the user. *)
Definition user_entry (env : Env) (message_content : pystr) (w : World) : HistoryEntry :=
  mkEntry (py "user") (Str.strip message_content) (clock env (tick w)).

(** The world once the message of the user is recorded. *)
Definition turn_start (env : Env) (message_content : pystr) (w : World) : World :=
  mkWorld (alter (fun l => l ++ [user_entry env message_content w]) (turn_ref w)
                 (heap w ++ [[]]))
          (sess_translators w) (sess_history w) (disk w) (S (tick w)) (events w).

(** The reply to an input: a command when it starts with a slash, a
    translation otherwise. *)
Definition respond (env : Env) (translators : option (gmap string Translator))
    (user_input : pystr) : Py pystr :=
  if Str.startswith (Str.lower user_input) (py "/")
  then process_command user_input
  else translate_text env translators user_input.

(** A step that returns a text or is interrupted; it does not leave
    with an exception of class [Exception]. *)
Definition answers (r : outcome pystr) : Prop :=
  (exists resp, r = Returns resp) \/ (exists e, r = Interrupts e).

(** The handler of [handle_message]: the error is sent and recorded. *)
Definition turn_failed (env : Env) (history : nat) (e : pystr) (w : World)
  : outcome unit * World :=
  let error_message := py "Error: " ++ e in
  match chat env (tick w) with
  | Returns _ => turn_tail env history error_message (queried (EvSend error_message) w)
  | Raises e' => (Raises e', queried (EvSend error_message) w)
  | Interrupts e' => (Interrupts e', queried (EvSend error_message) w)
  end.

(** The entries a turn appends to the list it works on. *)
Definition turn_entries (env : Env) (m : pystr) (w : World) : list HistoryEntry :=
  drop (length (session_history_of w))
       (default [] (heap (snd (handle_message env m w)) !! turn_ref w)).

(** The entries appended over a run of turns, oldest first. *)
Fixpoint appended_entries (env : Env) (messages : list pystr) (w : World)
  : list HistoryEntry :=
  match messages with
  | [] => []
  | m :: ms => turn_entries env m w ++ appended_entries env ms (snd (handle_message env m w))
  end.

(** Every turn of the run completes: [handle_message] returns. *)
Fixpoint turns_complete (env : Env) (messages : list pystr) (w : World) : Prop :=
  match messages with
  | [] => True
  | m :: ms =>
      fst (handle_message env m w) = Returns tt
      /\ turns_complete env ms (snd (handle_message env m w))
  end.

(** The fixed answer of [/history] on an empty history. *)
Definition no_history : pystr := py "No translation history available.".

(** ** Proof steps for the codec *)

(** Names the quotient and the remainder of [c] by 64. *)
Ltac split_64 c q r :=
  let Hc := fresh "Hc" in
  let Hlt := fresh "Hlt" in
  pose proof (N.div_mod c 64 ltac:(discriminate)) as Hc;
  pose proof (N.mod_lt c 64 ltac:(discriminate)) as Hlt;
  set (q := c / 64) in *; set (r := c mod 64) in *; clearbody q r.

(** Settles the comparisons of the goal by arithmetic. *)
Ltac decide_tests :=
  repeat match goal with
    | |- context [?a <? ?b] =>
        destruct (N.ltb_spec a b); try lia; cbn [andb orb negb]
    | |- context [?a <=? ?b] =>
        destruct (N.leb_spec a b); try lia; cbn [andb orb negb]
    end.

(** ** Sample runs *)

(** A session after five translations. *)
Definition busy_session : World :=
  run_turns online_env (replicate 5 (py "Hello")) (fresh_session mock_translators).

(** Seven turns of an unknown command. *)
Definition seven_messages : list pystr := replicate 7 (py "/x").

(** A history of two valid entries. *)
Definition sample_history : list HistoryEntry :=
  [ mkEntry (py "user") (py "Hello") (py "2024-01-01 00:00:00");
    mkEntry (py "assistant") (py "Translation to Urdu: ہیلو") (py "2024-01-01 00:00:02") ].

(** A history with a lone surrogate. *)
Definition surrogate_history : list HistoryEntry :=
  [ mkEntry (py "user") [55296] (py "2024-01-01 00:00:00") ].


(** * The start of a session *)

(** What importing a module does: it succeeds, raises [ImportError], or
    raises another exception of class [Exception]. *)
Inductive import_result : Type :=
| Imported
| ImportFails
| ImportRaises (e : pystr).

(** The machine the module runs on: [__import__(module)],
    [from deep_translator import GoogleTranslator],
    [GoogleTranslator(source=..., target=...)] and
    [load_dotenv(find_dotenv())]. *)
Record Host : Type := mkHost {
  import_module : string -> import_result;
  import_google_translator : import_result;
  google_translator : string -> string -> outcome Translator;
  load_dotenv : outcome bool
}.

(** [cl.user_session.set("translators", d)] *)
Definition session_set_translators (d : gmap string Translator) : Py unit :=
  fun w =>
    (Returns tt,
     mkWorld (heap w) (Some d) (sess_history w) (disk w) (tick w) (events w)).

(** The history a loaded value stands for: a list of dictionaries with the
    keys [role], [content], [timestamp], in this order, and texts as
    values.  Any other value is not a history of the model. *)
Definition entry_of_json (v : json) : option HistoryEntry :=
  match v with
  | Json.JObj [(k1, Json.JStr r); (k2, Json.JStr c); (k3, Json.JStr t)] =>
      if bool_decide (k1 = py "role") && bool_decide (k2 = py "content")
         && bool_decide (k3 = py "timestamp")
      then Some (mkEntry r c t) else None
  | _ => None
  end.

Definition entries_of_json (v : json) : option (list HistoryEntry) :=
  match v with
  | Json.JArr items => mapM entry_of_json items
  | _ => None
  end.

Section Start.

Variable host : Host.
Variable env : Env.

(** The loop of [check_dependencies]: the modules that raise
    [ImportError]; another exception leaves the loop. *)
Fixpoint missing_modules (required : list string) : outcome (list string) :=
  match required with
  | [] => Returns []
  | module :: rest =>
      match import_module host module with
      | Imported => missing_modules rest
      | ImportFails =>
          match missing_modules rest with
          | Returns missing => Returns (module :: missing)
          | Raises e => Raises e
          | Interrupts e => Interrupts e
          end
      | ImportRaises e => Raises e
      end
  end.

Definition check_dependencies : outcome bool :=
  match missing_modules ["deep_translator"; "chainlit"; "dotenv"]%string with
  | Returns [] => Returns true
  | Returns (_ :: _) => Returns false
  | Raises e => Raises e
  | Interrupts e => Interrupts e
  end.

(** [load_environment]: what [load_dotenv] returns, false when it raises
    an exception of class [Exception]. *)
Definition load_environment : outcome bool :=
  match load_dotenv host with
  | Returns loaded => Returns loaded
  | Raises _ => Returns false
  | Interrupts e => Interrupts e
  end.

(** [initialize_translators]: the dictionary of the two handles, the
    empty dictionary when the import or a construction raises an
    exception of class [Exception]. *)
Definition initialize_translators : outcome (gmap string Translator) :=
  match import_google_translator host with
  | Imported =>
      match google_translator host "en" "ur" with
      | Returns en_to_ur =>
          match google_translator host "ur" "en" with
          | Returns ur_to_en =>
              Returns {[ "en_to_ur"%string := en_to_ur; "ur_to_en"%string := ur_to_en ]}
          | Raises _ => Returns ∅
          | Interrupts e => Interrupts e
          end
      | Raises _ => Returns ∅
      | Interrupts e => Interrupts e
      end
  | ImportFails | ImportRaises _ => Returns ∅
  end.

Definition welcome_message : pystr :=
  py "Welcome to Translation Buddy! Type English or Urdu text, and I'll translate it to the other language. Use '/history' to view past translations or '/clear' to reset history.".

(** [handle_chat_start].  The session holds its history as a list of
    entries: when the file holds another JSON value, the value Python
    would store is returned as [Some v] and the key is left unset here;
    in every other case the result is [None]. *)
Definition handle_chat_start : Py (option json) :=
  deps <~ of_outcome check_dependencies ;;
  if negb deps then
    send_message env
      (py "Error: Missing dependencies. Run 'pip install deep-translator chainlit python-dotenv'.") ;;;
    ret None
  else
    loaded_env <~ of_outcome load_environment ;;
    if negb loaded_env then
      send_message env (py "Error: Failed to load environment variables.") ;;;
      ret None
    else
      online <~ check_internet env ;;
      if negb online then
        send_message env (py "Error: No internet connection. Please check your network.") ;;;
        ret None
      else
        translators <~ of_outcome initialize_translators ;;
        if bool_decide (translators = ∅) then
          send_message env (py "Error: Could not initialize translators.") ;;;
          ret None
        else
          session_set_translators translators ;;;
          loaded <~ load_history_from_file ;;
          match entries_of_json loaded with
          | Some h =>
              r <~ list_new h ;;
              session_set_history r ;;;
              send_message env welcome_message ;;;
              ret None
          | None =>
              send_message env welcome_message ;;;
              ret (Some loaded)
          end.

End Start.

(** ** Commands *)

(** The form under which [process_command] compares a command. *)
Definition command_form (command : pystr) : pystr := Str.strip (Str.lower command).

(** The fixed answer to an unknown command. *)
Definition unknown_command : pystr := py "Unknown command. Available: /history, /clear".

(** ** Sample hosts *)

(** Everything is installed and the two translators answer a fixed text. *)
Definition ready_host : Host :=
  mkHost (fun _ => Imported) Imported
         (fun source _ =>
            if bool_decide (source = "en"%string)
            then Returns (fun _ => Returns (py "ہیلو"))
            else Returns (fun _ => Returns (py "Hello")))
         (Returns true).

(** The package of the translators is not installed. *)
Definition bare_host : Host :=
  mkHost (fun module =>
            if bool_decide (module = "deep_translator"%string) then ImportFails else Imported)
         ImportFails
         (fun _ _ => Raises (py "not installed"))
         (Returns true).


(** A world before any session. *)
Definition empty_world : World := mkWorld [] None None None 0 [].

(** ** The checks of a start *)

(** The four checks of [handle_chat_start] pass, and [translators] is
    the dictionary that [initialize_translators] returns. *)
Definition start_ready (host : Host) (env : Env) (w : World)
    (translators : gmap string Translator) : Prop :=
  check_dependencies host = Returns true
  /\ load_environment host = Returns true
  /\ network env (tick w) = Connected
  /\ initialize_translators host = Returns translators
  /\ translators <> ∅.

(** The file gives no history: it is absent, it is not UTF-8 text, or
    its text is not JSON. *)
Definition no_stored_history (w : World) : Prop :=
  match disk w with
  | None => True
  | Some file =>
      match read_text file with
      | None => True
      | Some text => Json.loads text = None
      end
  end.

(** A world whose file is cut in the middle of an entry. *)
Definition torn_file_world : World :=
  mkWorld [] None None (Some (py "[{")) 0 [].

(** A world whose file holds the sample history. *)
Definition saved_world : World :=
  mkWorld [] None None (Some (saved_file sample_history)) 0 [].

(** * Properties *)

(** ** Strings and the regular expressions *)

Lemma lstrip_nil_iff (s : pystr) : Str.lstrip s = [] <-> blank s.
Proof.
  unfold blank. induction s as [|c s IH]; simpl.
  - split; [constructor | reflexivity].
  - destruct (isspace c) eqn:Hc.
    + rewrite IH. split; [intros H; constructor; assumption | intros H; inversion H; assumption].
    + split; [discriminate | intros H; inversion H; congruence].
Qed.

Lemma lstrip_head (s t : pystr) (c : N) : Str.lstrip s = c :: t -> isspace c = false.
Proof.
  induction s as [|d s IH]; simpl; [discriminate|].
  destruct (isspace d) eqn:Hd; [exact IH|]. intros [= -> _]. exact Hd.
Qed.

Lemma lstrip_blank_nil (s : pystr) : blank s -> Str.lstrip s = [].
Proof. apply lstrip_nil_iff. Qed.

Lemma blank_rev (s : pystr) : blank (rev s) -> blank s.
Proof.
  unfold blank. rewrite !Forall_forall. intros H c Hc. apply H.
  apply list_elem_of_In. apply in_rev. rewrite rev_involutive.
  apply list_elem_of_In. exact Hc.
Qed.

(** [s.strip()] is empty exactly on blank strings. *)
Lemma strip_nil_iff (s : pystr) : Str.strip s = [] <-> blank s.
Proof.
  unfold Str.strip, Str.rstrip. split.
  - intros H. apply (f_equal (@rev N)) in H. rewrite rev_involutive in H. simpl in H.
    apply lstrip_nil_iff, blank_rev in H.
    destruct (Str.lstrip s) as [|c t] eqn:E; [apply lstrip_nil_iff; exact E|].
    apply lstrip_head in E. inversion H; congruence.
  - intros H. rewrite (lstrip_blank_nil s H). reflexivity.
Qed.

Lemma blank_forallb (s : pystr) : forallb isspace s = true <-> blank s.
Proof. unfold blank. rewrite forallb_forall, Forall_forall. split; intros H c Hc; apply H; apply list_elem_of_In; exact Hc. Qed.

Lemma at_end_forallb (cls : N -> bool) (s : pystr) :
  cls 10 = true -> Re.at_end s = true -> forallb cls s = true.
Proof.
  intros Hnl. destruct s as [|c [|d s]]; simpl; [reflexivity| |].
  - destruct c as [|p]; [discriminate|].
    destruct (N.eq_dec (N.pos p) 10) as [E|E].
    + rewrite E, Hnl. reflexivity.
    + intros H. exfalso. apply E. clear E Hnl.
      repeat (destruct p as [p|p|]; try discriminate). reflexivity.
  - destruct c as [|p]; [discriminate|].
    repeat (destruct p as [p|p|]; try discriminate).
Qed.

(** When the class holds the newline, [[cls]+$] matches from the head
    exactly the non-empty texts made of the class. *)
Lemma class_plus_end_spec (cls : N -> bool) (s : pystr) :
  cls 10 = true ->
  Re.class_plus_end cls s = true <-> s <> [] /\ Forall (fun c => cls c = true) s.
Proof.
  intros Hnl. induction s as [|c s IH].
  - simpl. split; [discriminate | intros [H _]; contradiction].
  - change (Re.class_plus_end cls (c :: s))
      with (cls c && (Re.at_end s || Re.class_plus_end cls s)).
    rewrite andb_true_iff, orb_true_iff, IH. split.
    + intros [Hc [He | [_ Hs]]]; (split; [discriminate|]); constructor; try assumption.
      apply Forall_forall. intros x Hx.
      pose proof (at_end_forallb cls s Hnl He) as Hall.
      rewrite forallb_forall in Hall. apply Hall, list_elem_of_In, Hx.
    + intros [_ H]. inversion H as [|? ? Hc Hs]; subst. split; [assumption|].
      destruct s as [|d s']; [left; reflexivity | right; split; [discriminate | assumption]].
Qed.

Lemma newline_is_space : isspace 10 = true.
Proof. vm_compute. reflexivity. Qed.

Lemma latin_class_newline : Re.latin_class 10 = true.
Proof. vm_compute. reflexivity. Qed.

Lemma arabic_class_newline : Re.arabic_class 10 = true.
Proof. vm_compute. reflexivity. Qed.

(** The validator accepts exactly the texts that are not blank and are
    made of one of the two classes of the pattern. *)
Lemma validate_input_iff (text : pystr) :
  validate_input text = true <->
  ~ blank text /\ (Forall (fun c => Re.latin_class c = true) text
                   \/ Forall (fun c => Re.arabic_class c = true) text).
Proof.
  unfold validate_input.
  destruct (bool_decide (text = [])) eqn:E1; simpl.
  - apply bool_decide_eq_true in E1. subst. split; [discriminate|].
    intros [H _]. exfalso. apply H. constructor.
  - apply bool_decide_eq_false in E1.
    destruct (bool_decide (Str.strip text = [])) eqn:E2.
    + apply bool_decide_eq_true, strip_nil_iff in E2. split; [discriminate|].
      intros [H _]. contradiction.
    + apply bool_decide_eq_false in E2. rewrite strip_nil_iff in E2.
      rewrite orb_true_iff.
      rewrite (class_plus_end_spec _ text latin_class_newline).
      rewrite (class_plus_end_spec _ text arabic_class_newline). tauto.
Qed.

Lemma existsb_elem (f : N -> bool) (s : pystr) :
  existsb f s = true <-> exists c, c ∈ s /\ f c = true.
Proof.
  rewrite existsb_exists. split; intros (c & H1 & H2); exists c; split; try assumption;
    apply list_elem_of_In; assumption.
Qed.

Lemma in_range_iff (lo hi c : N) : (lo <=? c) && (c <=? hi) = true <-> lo <= c <= hi.
Proof. rewrite andb_true_iff, !N.leb_le. reflexivity. Qed.

Lemma search_arabic_iff (text : pystr) :
  Re.search_class (fun c => (1536 <=? c) && (c <=? 1791)) text = true
  <-> exists c, c ∈ text /\ arabic_cp c.
Proof.
  unfold Re.search_class, arabic_cp. rewrite existsb_elem.
  split; intros (c & Hc & Hr); exists c; (split; [assumption|]); apply in_range_iff; exact Hr.
Qed.

Lemma search_latin_iff (text : pystr) :
  Re.search_class
    (fun c => ((97 <=? c) && (c <=? 122)) || ((65 <=? c) && (c <=? 90))) text = true
  <-> exists c, c ∈ text /\ latin_letter c.
Proof.
  unfold Re.search_class, latin_letter. rewrite existsb_elem.
  split; intros (c & Hc & Hr); exists c; (split; [assumption|]).
  - apply orb_true_iff in Hr. rewrite !in_range_iff in Hr. exact Hr.
  - apply orb_true_iff. rewrite !in_range_iff. exact Hr.
Qed.

(** ** Claims *)

(** C4: if the text holds a code point of U+0600..U+06FF, [detect_language]
    answers ['ur'], whatever Latin letters come with it; otherwise, if it
    holds a letter a-z or A-Z, it answers ['en']; otherwise ['unknown']. *)
Theorem detect_language_cases (text : pystr) :
  ((exists c, c ∈ text /\ arabic_cp c) -> detect_language text = py "ur")
  /\ (~ (exists c, c ∈ text /\ arabic_cp c) -> (exists c, c ∈ text /\ latin_letter c) ->
      detect_language text = py "en")
  /\ (~ (exists c, c ∈ text /\ arabic_cp c) -> ~ (exists c, c ∈ text /\ latin_letter c) ->
      detect_language text = py "unknown").
Proof.
  unfold detect_language.
  rewrite <- search_arabic_iff, <- search_latin_iff.
  destruct (Re.search_class _ text); [|destruct (Re.search_class _ text)].
  - split; [reflexivity|]. split; intros Hn; exfalso; apply Hn; reflexivity.
  - split; [discriminate|]. split; [reflexivity|]. intros _ Hn. exfalso. apply Hn. reflexivity.
  - split; [discriminate|]. split; [discriminate|]. reflexivity.
Qed.

Lemma detect_language_cases_witness :
  detect_language (py "Hello سلام") = py "ur"
  /\ detect_language (py "Hello") = py "en"
  /\ detect_language (py "123") = py "unknown".
Proof.
  split; [|split].
  - apply (proj1 (detect_language_cases (py "Hello سلام"))).
    apply search_arabic_iff. vm_compute. reflexivity.
  - apply (proj1 (proj2 (detect_language_cases (py "Hello")))).
    + intros H. apply search_arabic_iff in H. vm_compute in H. discriminate.
    + apply search_latin_iff. vm_compute. reflexivity.
  - apply (proj2 (proj2 (detect_language_cases (py "123")))).
    + intros H. apply search_arabic_iff in H. vm_compute in H. discriminate.
    + intros H. apply search_latin_iff in H. vm_compute in H. discriminate.
Defined.

(** C7, as amended: [validate_input] is false on empty and on
    whitespace-only text; on any other text it is true exactly when the
    whole text is made of (a) word characters, whitespace and the seven
    marks full stop, comma, exclamation mark, question mark, apostrophe,
    quotation mark, hyphen, or of (b) code points of U+0600..U+06FF,
    whitespace and the four marks full stop, comma, exclamation mark,
    question mark.  The four examples of the specification hold. *)
Theorem validate_input_characterised :
  (forall text : pystr,
      validate_input text = true <->
      ~ blank text /\ (Forall (fun c => Re.latin_class c = true) text
                       \/ Forall (fun c => Re.arabic_class c = true) text))
  /\ validate_input (py "") = false
  /\ validate_input (py "   ") = false
  /\ validate_input (py "Hello, world!") = true
  /\ validate_input (py "سلام") = true.
Proof.
  split; [exact validate_input_iff|].
  repeat split; vm_compute; reflexivity.
Qed.

(** C7, as stated, fails: the text U+06D4 (Arabic full stop) followed by a
    hyphen is not blank and is of kind (b) with the punctuation set of
    (a), so the validator of the specification accepts it; the second
    class of the pattern has no hyphen, and [validate_input] refuses it. *)
Lemma validate_input_same_punctuation_fails :
  spec_validate [1748; 45] = true /\ validate_input [1748; 45] = false.
Proof. split; vm_compute; reflexivity. Qed.

(** C10, as amended: every text that is not blank and is made of Unicode
    word characters, whitespace and the seven marks of the first class is
    accepted, mixed English and Urdu text included. *)
Theorem validate_input_accepts_word_text (text : pystr) :
  ~ blank text ->
  Forall (fun c => Re.word c = true \/ isspace c = true \/ spec_punctuation c = true) text ->
  validate_input text = true.
Proof.
  intros Hnb Hall.
  apply validate_input_iff. split; [assumption|]. left.
  eapply Forall_impl; [exact Hall|]. intros c Hc. cbv beta in Hc.
  unfold Re.latin_class, Re.space. unfold spec_punctuation in Hc.
  rewrite !orb_true_iff in Hc. rewrite !orb_true_iff. tauto.
Qed.

Lemma validate_input_accepts_word_text_witness :
  validate_input (py "Hello سلام") = true.
Proof.
  apply (validate_input_accepts_word_text (py "Hello سلام")).
  - intros H. apply blank_forallb in H. vm_compute in H. discriminate.
  - apply Forall_forall. intros c Hc.
    assert (H : forallb (fun c => Re.word c || isspace c || spec_punctuation c)
                        (py "Hello سلام") = true) by (vm_compute; reflexivity).
    rewrite forallb_forall in H. apply list_elem_of_In, H in Hc.
    rewrite !orb_true_iff in Hc. tauto.
Defined.

(** C10, as stated, fails: three spaces are a non-empty text made of
    whitespace only, hence of word characters, punctuation and whitespace,
    and [validate_input] refuses it. *)
Lemma validate_input_refuses_spaces :
  py "   " <> []
  /\ Forall (fun c => Re.word c = true \/ isspace c = true \/ spec_punctuation c = true)
            (py "   ")
  /\ validate_input (py "   ") = false.
Proof.
  split; [vm_compute; discriminate|]. split; [|vm_compute; reflexivity].
  change (py "   ") with [32; 32; 32].
  repeat constructor; right; left; vm_compute; reflexivity.
Qed.

(** ** The translation dispatcher *)

Lemma check_internet_eq (env : Env) (w : World) :
  check_internet env w =
  (match network env (tick w) with
   | Connected => Returns true
   | GaiError _ | SockTimeout _ => Returns false
   | ProbeError e => Raises e
   | ProbeInterrupt e => Interrupts e
   end, queried EvProbe w).
Proof.
  unfold check_internet, bind, query, ret, raise, interrupt, queried. simpl.
  destruct (network env (tick w)); reflexivity.
Qed.

(** [translate_text], path by path. *)
Lemma translate_text_eq (env : Env) (translators : option (gmap string Translator))
    (text : pystr) (w : World) :
  translate_text env translators text w =
  if negb (truthy translators) then (Returns err_not_initialized, w)
  else
    match network env (tick w) with
    | ProbeError e => (Returns (err_translate e), queried EvProbe w)
    | ProbeInterrupt e => (Interrupts e, queried EvProbe w)
    | GaiError _ | SockTimeout _ => (Returns err_no_internet, queried EvProbe w)
    | Connected =>
        if negb (validate_input text)
        then (Returns err_invalid_input, queried EvProbe w)
        else if bool_decide (detect_language text = py "unknown")
        then (Returns err_unknown_language, queried EvProbe w)
        else
          let key := direction (detect_language text) in
          match (default ∅ translators !! key : option Translator) with
          | None => (Returns (err_translate ([39] ++ py key ++ [39])), queried EvProbe w)
          | Some t =>
              (match t text with
               | Returns translated =>
                   Returns (py "Translation to " ++ target_name (detect_language text)
                            ++ py ": " ++ translated)
               | Raises e => Returns (err_translate e)
               | Interrupts e => Interrupts e
               end,
               queried (EvTranslate key text) (queried EvProbe w))
          end
    end.
Proof.
  unfold translate_text, try_except, bind. 
  destruct (negb (truthy translators)); [reflexivity|].
  rewrite check_internet_eq.
  destruct (network env (tick w)); try reflexivity.
  cbn [negb].
  destruct (negb (validate_input text)); [reflexivity|].
  destruct (bool_decide (detect_language text = py "unknown")); [reflexivity|].
  unfold call_translate, direction, target_name, bind.
  destruct (default ∅ translators !! _) as [t|]; [|reflexivity].
  unfold query, of_outcome, queried. cbn [fst snd].
  destruct (t text); reflexivity.
Qed.




Lemma truthy_nonempty (d : gmap string Translator) : d <> ∅ -> truthy (Some d) = true.
Proof.
  intros H. unfold truthy. apply negb_true_iff, bool_decide_eq_false. exact H.
Qed.

Lemma truthy_lookup (d : gmap string Translator) (key : string) (t : Translator) :
  d !! key = Some t -> truthy (Some d) = true.
Proof.
  intros H. apply truthy_nonempty. intros ->. rewrite lookup_empty in H. discriminate.
Qed.

(** C6: when the translators are initialised, the network is reachable, the
    input is valid and the external call returns, [translate_text] calls
    the direction that matches the detected language, once, and answers
    the fixed prefix for the target language followed by the text the
    call returned: English to Urdu for English input, Urdu to English for
    Urdu input. *)
Theorem translate_text_success (env : Env) (d : gmap string Translator)
    (text : pystr) (w : World) (t : Translator) (translated : pystr) :
  fst (check_internet env w) = Returns true -> validate_input text = true ->
  t text = Returns translated ->
  (detect_language text = py "en" -> d !! "en_to_ur"%string = Some t ->
   translate_text env (Some d) text w
   = (Returns (py "Translation to Urdu: " ++ translated),
      queried (EvTranslate "en_to_ur" text) (queried EvProbe w)))
  /\ (detect_language text = py "ur" -> d !! "ur_to_en"%string = Some t ->
      translate_text env (Some d) text w
      = (Returns (py "Translation to English: " ++ translated),
         queried (EvTranslate "ur_to_en" text) (queried EvProbe w))).
Proof.
  intros Hnet Hvalid Hcall.
  rewrite check_internet_eq in Hnet. cbn [fst] in Hnet.
  rewrite translate_text_eq, Hvalid.
  destruct (network env (tick w)); try discriminate.
  split; intros -> Hkey; rewrite (truthy_lookup d _ t Hkey); cbn [negb];
    change (default ∅ (Some d)) with d.
  - change (bool_decide (py "en" = py "unknown")) with false.
    change (direction (py "en")) with "en_to_ur"%string.
    cbv zeta. rewrite Hkey, Hcall. reflexivity.
  - change (bool_decide (py "ur" = py "unknown")) with false.
    change (direction (py "ur")) with "ur_to_en"%string.
    cbv zeta. rewrite Hkey, Hcall. reflexivity.
Qed.

Lemma translate_text_success_witness :
  fst (translate_text online_env (Some mock_translators) (py "Hello")
                      (fresh_session mock_translators))
  = Returns (py "Translation to Urdu: ہیلو")
  /\ fst (translate_text online_env (Some mock_translators) (py "سلام")
                         (fresh_session mock_translators))
     = Returns (py "Translation to English: Hello").
Proof.
  split.
  - rewrite (proj1 (translate_text_success online_env mock_translators (py "Hello")
                      (fresh_session mock_translators) (fun _ => Returns (py "ہیلو"))
                      (py "ہیلو") eq_refl eq_refl eq_refl)
                   eq_refl eq_refl).
    reflexivity.
  - rewrite (proj2 (translate_text_success online_env mock_translators (py "سلام")
                      (fresh_session mock_translators) (fun _ => Returns (py "Hello"))
                      (py "Hello") eq_refl eq_refl eq_refl)
                   eq_refl eq_refl).
    reflexivity.
Defined.

(** C9, as amended: whatever the input, the state of the network and the
    behaviour of the translators, no exception of class [Exception]
    leaves [translate_text]: when the external call raises one, the text
    returned is the fixed translation error with the message of the
    exception between brackets.  A text is returned unless the probe or
    the external call raises an exception that is not of class
    [Exception]; such an exception is not handled and leaves
    [translate_text]. *)
Theorem translate_text_catches_exceptions (env : Env)
    (translators : option (gmap string Translator)) (text : pystr) (w : World) :
  (forall e : pystr, fst (translate_text env translators text w) <> Raises e)
  /\ (forall (d : gmap string Translator) (t : Translator) (e : pystr),
         translators = Some d ->
         fst (check_internet env w) = Returns true -> validate_input text = true ->
         detect_language text <> py "unknown" ->
         d !! direction (detect_language text) = Some t -> t text = Raises e ->
         fst (translate_text env translators text w)
         = Returns (py "Error: Unable to translate. Check your internet connection. ("
                    ++ e ++ py ")"))
  /\ ((forall e, fst (check_internet env w) <> Interrupts e) ->
      (forall (d : gmap string Translator) (t : Translator) (e : pystr),
          translators = Some d -> d !! direction (detect_language text) = Some t ->
          t text <> Interrupts e) ->
      exists (s : pystr) (w' : World),
        translate_text env translators text w = (Returns s, w'))
  /\ (forall (d : gmap string Translator) (t : Translator) (e : pystr),
         translators = Some d ->
         fst (check_internet env w) = Returns true -> validate_input text = true ->
         detect_language text <> py "unknown" ->
         d !! direction (detect_language text) = Some t -> t text = Interrupts e ->
         fst (translate_text env translators text w) = Interrupts e)
  /\ (forall e : pystr,
         truthy translators = true -> fst (check_internet env w) = Interrupts e ->
         fst (translate_text env translators text w) = Interrupts e).
Proof.
  split; [|split; [|split; [|split]]].
  - intros e. rewrite translate_text_eq.
    destruct (negb (truthy translators)); [discriminate|].
    destruct (network env (tick w)); try discriminate.
    destruct (negb (validate_input text)); [discriminate|].
    destruct (bool_decide _); [discriminate|]. cbv zeta.
    destruct (default ∅ translators !! _) as [t|]; [|discriminate].
    destruct (t text); discriminate.
  - intros d t e -> Hnet Hvalid Hlang Hkey Hcall.
    rewrite check_internet_eq in Hnet. cbn [fst] in Hnet.
    rewrite translate_text_eq, (truthy_lookup d _ t Hkey), Hvalid.
    cbn [negb]. change (default ∅ (Some d)) with d.
    destruct (network env (tick w)); try discriminate.
    rewrite (bool_decide_eq_false_2 _ Hlang). cbv zeta.
    rewrite Hkey, Hcall. reflexivity.
  - intros Hprobe Hcall. rewrite check_internet_eq in Hprobe. cbn [fst] in Hprobe.
    rewrite translate_text_eq.
    destruct (negb (truthy translators)); [eauto|].
    destruct (network env (tick w)) as [|e|e|e|e]; eauto.
    + destruct (negb (validate_input text)); [eauto|].
      destruct (bool_decide _); [eauto|]. cbv zeta.
      destruct translators as [d|]; cbn [default from_option id].
      * destruct (d !! direction (detect_language text)) as [t|] eqn:Hkey; [|eauto].
        destruct (t text) as [s|e|e] eqn:Ht; eauto.
        exfalso. exact (Hcall d t e eq_refl Hkey Ht).
      * rewrite lookup_empty. eauto.
    + exfalso. exact (Hprobe e eq_refl).
  - intros d t e -> Hnet Hvalid Hlang Hkey Hcall.
    rewrite check_internet_eq in Hnet. cbn [fst] in Hnet.
    rewrite translate_text_eq, (truthy_lookup d _ t Hkey), Hvalid.
    cbn [negb]. change (default ∅ (Some d)) with d.
    destruct (network env (tick w)); try discriminate.
    rewrite (bool_decide_eq_false_2 _ Hlang). cbv zeta.
    rewrite Hkey, Hcall. reflexivity.
  - intros e Htr Hnet. rewrite check_internet_eq in Hnet. cbn [fst] in Hnet.
    rewrite translate_text_eq, Htr. cbn [negb].
    destruct (network env (tick w)); try discriminate.
    injection Hnet as ->. reflexivity.
Qed.

Lemma translate_text_catches_exceptions_witness :
  fst (translate_text online_env (Some failing_translators) (py "Hello")
                      (fresh_session failing_translators))
  = Returns (py "Error: Unable to translate. Check your internet connection. (Request exception)")
  /\ exists (s : pystr) (w' : World),
       translate_text online_env (Some failing_translators) (py "Hello")
                      (fresh_session failing_translators) = (Returns s, w').
Proof.
  split.
  - rewrite (proj1 (proj2 (translate_text_catches_exceptions online_env
                             (Some failing_translators) (py "Hello")
                             (fresh_session failing_translators)))
                   failing_translators (fun _ => Raises (py "Request exception"))
                   (py "Request exception") eq_refl eq_refl eq_refl).
    + reflexivity.
    + vm_compute. discriminate.
    + reflexivity.
    + reflexivity.
  - apply (proj1 (proj2 (proj2 (translate_text_catches_exceptions online_env
                                  (Some failing_translators) (py "Hello")
                                  (fresh_session failing_translators))))).
    + intros e. vm_compute. discriminate.
    + intros d t e [= <-] Hkey. vm_compute in Hkey. injection Hkey as <-. discriminate.
Defined.

(** C9, as stated, fails: an exception that is not of class [Exception],
    raised by the external call, leaves [translate_text]. *)
Lemma translate_text_interrupt_propagates :
  fst (translate_text online_env (Some interrupted_translators) (py "Hello")
                      (fresh_session interrupted_translators))
  = Interrupts (py "stopped").
Proof. vm_compute. reflexivity. Qed.

(** ** UTF-8 *)

Lemma encode_cp_scalar (c : N) : scalar c -> exists bs, Utf8.encode_cp c = Some bs.
Proof.
  intros [H1 H2]. unfold Utf8.encode_cp.
  decide_tests; eauto.
Qed.

Lemma decode_encode_cp (c : N) (bs rest : list N) :
  Utf8.encode_cp c = Some bs -> Utf8.decode (bs ++ rest) = cons c <$> Utf8.decode rest.
Proof.
  unfold Utf8.encode_cp.
  destruct (N.ltb_spec c 128) as [H1|H1].
  { intros [= <-]. cbn [app Utf8.decode]. decide_tests. reflexivity. }
  destruct (N.ltb_spec c 2048) as [H2|H2].
  { intros [= <-]. split_64 c q r. cbn [app Utf8.decode]. unfold Utf8.is_cont.
    decide_tests. f_equal. f_equal. lia. }
  destruct (N.ltb_spec c 65536) as [H3|H3].
  { destruct (N.leb_spec 55296 c) as [H4|H4]; cbn [andb].
    - destruct (N.leb_spec c 57343) as [H5|H5]; [discriminate|].
      intros [= <-].
      replace (c / 4096) with (c / 64 / 64) by (rewrite N.Div0.div_div; reflexivity).
      split_64 c q r. split_64 q q' r'. cbn [app Utf8.decode]. unfold Utf8.is_cont.
      decide_tests. f_equal. f_equal. lia.
    - intros [= <-].
      replace (c / 4096) with (c / 64 / 64) by (rewrite N.Div0.div_div; reflexivity).
      split_64 c q r. split_64 q q' r'. cbn [app Utf8.decode]. unfold Utf8.is_cont.
      decide_tests. f_equal. f_equal. lia. }
  destruct (N.ltb_spec c 1114112) as [H4|H4]; [|discriminate].
  intros [= <-].
  replace (c / 262144) with (c / 64 / 64 / 64) by (rewrite !N.Div0.div_div; reflexivity).
  replace (c / 4096) with (c / 64 / 64) by (rewrite N.Div0.div_div; reflexivity).
  split_64 c q r. split_64 q q' r'. split_64 q' q'' r''.
  cbn [app Utf8.decode]. unfold Utf8.is_cont.
  decide_tests. f_equal. f_equal. lia.
Qed.

(** Decoding undoes encoding. *)
Lemma decode_encode (s : pystr) (bs : list N) :
  Utf8.encode s = Some bs -> Utf8.decode bs = Some s.
Proof.
  revert bs. induction s as [|c s IH]; intros bs; cbn [Utf8.encode].
  - intros [= <-]. reflexivity.
  - destruct (Utf8.encode_cp c) as [b1|] eqn:E1; [|discriminate].
    destruct (Utf8.encode s) as [b2|] eqn:E2; [|discriminate].
    intros [= <-]. rewrite (decode_encode_cp c b1 b2 E1), (IH b2 eq_refl). reflexivity.
Qed.

Lemma encode_encodable (s : pystr) : encodable s -> exists bs, Utf8.encode s = Some bs.
Proof.
  induction 1 as [|c s Hc Hs [bs IH]]; cbn [Utf8.encode]; [eauto|].
  destruct (encode_cp_scalar c Hc) as [b ->]. rewrite IH. eauto.
Qed.

Lemma encode_app (s t : pystr) (a b : list N) :
  Utf8.encode s = Some a -> Utf8.encode t = Some b -> Utf8.encode (s ++ t) = Some (a ++ b).
Proof.
  revert a. induction s as [|c s IH]; intros a; cbn [Utf8.encode app].
  - intros [= <-]. trivial.
  - destruct (Utf8.encode_cp c) as [b1|]; [|discriminate].
    destruct (Utf8.encode s) as [b2|]; [|discriminate].
    intros [= <-] Ht. rewrite (IH b2 eq_refl Ht), app_assoc. reflexivity.
Qed.

(** ** JSON text of a history *)

Import Json.

Lemma below_32 (c : N) : c < 32 -> In c (N.of_nat <$> seq 0 32).
Proof.
  intros H. apply in_map_iff. exists (N.to_nat c). split; [lia|].
  apply in_seq. lia.
Qed.

(** The scanner reads back one code point from its escaped form. *)
Lemma scanstring_escape_char (c : N) (rest : pystr) :
  scanstring (escape_char c ++ rest) = push c (scanstring rest).
Proof.
  unfold escape_char.
  destruct (N.eqb_spec c 92) as [->|H92]; [reflexivity|].
  destruct (N.eqb_spec c 34) as [->|H34]; [reflexivity|].
  destruct (N.eqb_spec c 8) as [->|H8]; [reflexivity|].
  destruct (N.eqb_spec c 12) as [->|H12]; [reflexivity|].
  destruct (N.eqb_spec c 10) as [->|H10]; [reflexivity|].
  destruct (N.eqb_spec c 13) as [->|H13]; [reflexivity|].
  destruct (N.eqb_spec c 9) as [->|H9]; [reflexivity|].
  destruct (N.ltb_spec c 32) as [Hlt|Hge].
  - apply below_32 in Hlt. cbn [fmap list_fmap seq] in Hlt.
    repeat (destruct Hlt as [<-|Hlt]; [reflexivity|]). destruct Hlt.
  - cbn [app scanstring].
    rewrite (proj2 (N.eqb_neq c 34) H34), (proj2 (N.eqb_neq c 92) H92).
    rewrite (proj2 (N.ltb_ge c 32) Hge). reflexivity.
Qed.

Lemma scanstring_escaped (s rest : pystr) :
  scanstring (flat_map escape_char s ++ 34 :: rest) = Some (s, rest).
Proof.
  induction s as [|c s IH]; [reflexivity|].
  cbn [flat_map]. rewrite <- app_assoc, scanstring_escape_char, IH. reflexivity.
Qed.

(** One turn of the object loop on a key and a string value that another
    pair follows. *)
Lemma object_loop_pair (fuel : nat) (k v rest : pystr) (acc : list (pystr * json)) :
  object_loop (S (S fuel))
    (flat_map escape_char k ++ 34 :: 58 :: 32 :: 34 ::
     flat_map escape_char v ++ 34 :: 44 :: 32 :: 34 :: rest) acc
  = object_loop (S fuel) rest (acc ++ [(k, JStr v)]).
Proof.
  cbn [object_loop]. rewrite scanstring_escaped.
  cbn [skip_ws is_ws N.eqb Pos.eqb orb]. cbn [scan_once N.eqb Pos.eqb].
  rewrite scanstring_escaped. reflexivity.
Qed.

(** The last turn of the object loop. *)
Lemma object_loop_last (fuel : nat) (k v rest : pystr) (acc : list (pystr * json)) :
  object_loop (S (S fuel))
    (flat_map escape_char k ++ 34 :: 58 :: 32 :: 34 ::
     flat_map escape_char v ++ 34 :: 125 :: rest) acc
  = Some (acc ++ [(k, JStr v)], rest).
Proof.
  cbn [object_loop]. rewrite scanstring_escaped.
  cbn [skip_ws is_ws N.eqb Pos.eqb orb]. cbn [scan_once N.eqb Pos.eqb].
  rewrite scanstring_escaped. reflexivity.
Qed.

(** The text of an entry, laid out as the scanner walks it. *)
Lemma entry_text (e : HistoryEntry) (rest : pystr) :
  concat (iterencode_entry e) ++ rest
  = 123 :: 34 ::
    flat_map escape_char (py "role") ++ 34 :: 58 :: 32 :: 34 ::
    flat_map escape_char (role e) ++ 34 :: 44 :: 32 :: 34 ::
    flat_map escape_char (py "content") ++ 34 :: 58 :: 32 :: 34 ::
    flat_map escape_char (content e) ++ 34 :: 44 :: 32 :: 34 ::
    flat_map escape_char (py "timestamp") ++ 34 :: 58 :: 32 :: 34 ::
    flat_map escape_char (timestamp e) ++ 34 :: 125 :: rest.
Proof.
  unfold iterencode_entry, encode_basestring. cbn [concat].
  change (py ": ") with [58; 32]. change (py ", ") with [44; 32].
  repeat (rewrite <- ?app_assoc; cbn [app]). reflexivity.
Qed.

(** The scanner reads an entry back from its text. *)
Lemma scan_once_entry (fuel : nat) (e : HistoryEntry) (rest : pystr) :
  scan_once (5 + fuel) (concat (iterencode_entry e) ++ rest) = Some (entry_json e, rest).
Proof.
  rewrite entry_text.
  change (5 + fuel)%nat with (S (S (S (S (S fuel))))).
  cbn [scan_once N.eqb Pos.eqb skip_ws is_ws orb].
  rewrite !object_loop_pair, object_loop_last. reflexivity.
Qed.

Lemma skip_ws_entry (e : HistoryEntry) (rest : pystr) :
  skip_ws (concat (iterencode_entry e) ++ rest) = concat (iterencode_entry e) ++ rest.
Proof. rewrite entry_text. reflexivity. Qed.

Lemma tail_text_cons (e : HistoryEntry) (h : list HistoryEntry) :
  tail_text (e :: h) = 44 :: 32 :: concat (iterencode_entry e) ++ tail_text h.
Proof.
  unfold tail_text. cbn [flat_map]. rewrite concat_app. cbn [concat].
  change (py ", ") with [44; 32]. rewrite <- app_assoc. reflexivity.
Qed.

(** The array loop reads the entries back, given one unit of fuel for each
    entry and six more. *)
Lemma array_loop_entries (h : list HistoryEntry) :
  forall (fuel : nat) (e : HistoryEntry) (rest : pystr) (acc : list json),
    array_loop (length h + 6 + fuel)
      (concat (iterencode_entry e) ++ tail_text h ++ 93 :: rest) acc
    = Some (acc ++ entry_json e :: (entry_json <$> h), rest).
Proof.
  induction h as [|e2 h IH]; intros fuel e rest acc.
  - change (length [] + 6 + fuel)%nat with (S (5 + fuel)).
    cbn [array_loop]. rewrite scan_once_entry. reflexivity.
  - change (length (e2 :: h) + 6 + fuel)%nat with (S (length h + 6 + fuel)).
    cbn [array_loop].
    replace (length h + 6 + fuel)%nat with (5 + (length h + 1 + fuel))%nat at 1 by lia.
    rewrite scan_once_entry, tail_text_cons.
    cbn [app skip_ws is_ws N.eqb Pos.eqb orb].
    rewrite <- app_assoc, skip_ws_entry, IH, <- app_assoc. reflexivity.
Qed.

Lemma dumps_cons (e : HistoryEntry) (h : list HistoryEntry) :
  dumps (e :: h) = 91 :: concat (iterencode_entry e) ++ tail_text h ++ [93].
Proof.
  unfold dumps, iterencode, tail_text. rewrite <- app_comm_cons. cbn [concat app].
  rewrite !concat_app. cbn [concat]. rewrite app_nil_r. reflexivity.
Qed.

Lemma scan_once_array (fuel : nat) (e : HistoryEntry) (rest : pystr) :
  scan_once (S fuel) (91 :: concat (iterencode_entry e) ++ rest)
  = match array_loop fuel (concat (iterencode_entry e) ++ rest) [] with
    | Some (items, rest') => Some (JArr items, rest')
    | None => None
    end.
Proof. rewrite entry_text. reflexivity. Qed.

Lemma tail_text_length (h : list HistoryEntry) : (length h <= length (tail_text h))%nat.
Proof.
  induction h as [|e h IH]; [cbn; lia|].
  rewrite tail_text_cons. cbn [length]. rewrite length_app. lia.
Qed.

(** [json.loads] reads back what [json.dumps] wrote for a history. *)
Lemma loads_dumps (h : list HistoryEntry) : loads (dumps h) = Some (history_json h).
Proof.
  destruct h as [|e h]; [reflexivity|].
  unfold loads. rewrite dumps_cons. cbn [Str.startswith N.eqb Pos.eqb andb skip_ws is_ws orb].
  assert (Hlen : (length h + 7
                  <= 2 * length (91%N :: concat (iterencode_entry e) ++ tail_text h ++ [93%N])
                     + 2)%nat).
  { cbn [length]. rewrite !length_app. cbn [length]. pose proof (tail_text_length h).
    assert (1 <= length (concat (iterencode_entry e)))%nat
      by (unfold iterencode_entry; cbn [concat app length]; lia).
    lia. }
  destruct (Nat.le_exists_sub _ _ Hlen) as (f & -> & _).
  replace (f + (length h + 7))%nat with (S (length h + 6 + f)) by lia.
  rewrite scan_once_array, array_loop_entries. reflexivity.
Qed.

(** The text of a history holds no carriage return, so reading the file
    in text mode gives the text back. *)
Lemma hex_digit_no_cr (d : N) : hex_digit d <> 13.
Proof. unfold hex_digit. destruct (N.ltb_spec d 10); lia. Qed.

Lemma escape_char_no_cr (c : N) : Forall (fun x => x <> 13) (escape_char c).
Proof.
  unfold escape_char.
  repeat match goal with
         | |- context [N.eqb ?a ?b] => destruct (N.eqb_spec a b)
         | |- context [N.ltb ?a ?b] => destruct (N.ltb_spec a b)
         end;
    repeat (apply List.Forall_cons; [first [lia | apply hex_digit_no_cr]|]);
    apply List.Forall_nil.
Qed.

Lemma encode_basestring_no_cr (s : pystr) : Forall (fun x => x <> 13) (encode_basestring s).
Proof.
  unfold encode_basestring. apply Forall_app. split; [apply List.Forall_cons; [lia|apply List.Forall_nil]|].
  apply Forall_app. split; [|apply List.Forall_cons; [lia|apply List.Forall_nil]].
  induction s as [|c s IH]; cbn [flat_map]; [constructor|].
  apply Forall_app. split; [apply escape_char_no_cr | exact IH].
Qed.

Lemma Forall_concat {A : Type} (P : A -> Prop) (ls : list (list A)) :
  Forall (Forall P) ls -> Forall P (concat ls).
Proof.
  induction 1 as [|l ls Hl Hls IH]; cbn [concat]; [constructor|].
  apply Forall_app. split; assumption.
Qed.

Lemma entry_no_cr (e : HistoryEntry) :
  Forall (fun x => x <> 13) (concat (iterencode_entry e)).
Proof.
  apply Forall_concat. unfold iterencode_entry.
  repeat (apply List.Forall_cons;
          [first [ apply encode_basestring_no_cr
                 | vm_compute; repeat (apply List.Forall_cons; [discriminate|]);
                   apply List.Forall_nil ] |]).
  apply List.Forall_nil.
Qed.

Lemma dumps_no_cr (h : list HistoryEntry) : Forall (fun x => x <> 13) (dumps h).
Proof.
  destruct h as [|e h].
  { change (dumps []) with [91; 93]. repeat (apply List.Forall_cons; [lia|]). apply List.Forall_nil. }
  rewrite dumps_cons. constructor; [lia|].
  apply Forall_app. split; [apply entry_no_cr|].
  apply Forall_app. split; [|apply List.Forall_cons; [lia|apply List.Forall_nil]].
  induction h as [|e2 h IH]; [constructor|].
  rewrite tail_text_cons. constructor; [lia|]. constructor; [lia|].
  apply Forall_app. split; [apply entry_no_cr | exact IH].
Qed.

(** ** The history file *)

Lemma universal_newlines_id (s : pystr) :
  Forall (fun x => x <> 13) s -> universal_newlines s = s.
Proof.
  induction 1 as [|c s Hc Hs IH]; [reflexivity|].
  cbn [universal_newlines]. rewrite (proj2 (N.eqb_neq c 13) Hc), IH. reflexivity.
Qed.

Lemma scalar_ascii (c : N) : c < 128 -> scalar c.
Proof. unfold scalar. lia. Qed.

Lemma hex_digit_ascii (d : N) : d < 16 -> hex_digit d < 128.
Proof. unfold hex_digit. destruct (N.ltb_spec d 10); lia. Qed.

Lemma escape_char_encodable (c : N) : scalar c -> encodable (escape_char c).
Proof.
  intros Hc. unfold escape_char, encodable.
  repeat match goal with
         | |- context [N.eqb ?a ?b] => destruct (N.eqb_spec a b)
         | |- context [N.ltb ?a ?b] => destruct (N.ltb_spec a b)
         end;
    repeat (apply List.Forall_cons;
            [first [ exact Hc
                   | apply scalar_ascii; lia
                   | apply scalar_ascii, hex_digit_ascii;
                     first [ apply N.Div0.div_lt_upper_bound; lia
                           | apply N.mod_lt; discriminate ] ] |]);
    apply List.Forall_nil.
Qed.

Lemma encode_basestring_encodable (s : pystr) :
  encodable s -> encodable (encode_basestring s).
Proof.
  intros Hs. unfold encode_basestring, encodable.
  apply Forall_app. split; [apply List.Forall_cons; [apply scalar_ascii; lia|apply List.Forall_nil]|].
  apply Forall_app. split; [|apply List.Forall_cons; [apply scalar_ascii; lia|apply List.Forall_nil]].
  induction Hs as [|c s Hc Hs IH]; cbn [flat_map]; [constructor|].
  apply Forall_app. split; [apply escape_char_encodable; exact Hc | exact IH].
Qed.

Lemma literal_encodable (s : pystr) :
  forallb (fun c => c <? 128) s = true -> encodable s.
Proof.
  intros H. apply Forall_forall. intros c Hc. apply scalar_ascii, N.ltb_lt.
  rewrite forallb_forall in H. apply H, list_elem_of_In, Hc.
Qed.

Lemma entry_chunks_encodable (e : HistoryEntry) :
  valid_entry e -> Forall encodable (iterencode_entry e).
Proof.
  intros (Hr & Hc & Ht). unfold iterencode_entry.
  repeat (apply List.Forall_cons;
          [first [ apply encode_basestring_encodable; assumption
                 | apply literal_encodable; vm_compute; reflexivity ] |]).
  apply List.Forall_nil.
Qed.

Lemma chunks_encodable (h : list HistoryEntry) :
  Forall valid_entry h -> Forall encodable (iterencode h).
Proof.
  intros Hh. destruct Hh as [|e h He Hh]; cbn [iterencode].
  - apply List.Forall_cons; [apply literal_encodable; reflexivity | apply List.Forall_nil].
  - apply List.Forall_cons; [apply literal_encodable; reflexivity|].
    apply Forall_app. split; [apply entry_chunks_encodable; exact He|].
    apply Forall_app. split;
      [|apply List.Forall_cons; [apply literal_encodable; reflexivity | apply List.Forall_nil]].
    induction Hh as [|e2 h He2 Hh IH]; cbn [flat_map]; [constructor|].
    apply List.Forall_cons; [apply literal_encodable; reflexivity|].
    apply Forall_app. split; [apply entry_chunks_encodable; exact He2 | exact IH].
Qed.

(** Chunks the codec can write all reach the file, in order. *)
Lemma write_chunks_encodable (chunks : list pystr) :
  Forall encodable chunks ->
  exists bs, Utf8.encode (concat chunks) = Some bs
             /\ forall file, write_chunks chunks file = (Returns tt, file ++ bs).
Proof.
  induction 1 as [|c cs Hc Hcs (bs & Hbs & IH)].
  - exists []. split; [reflexivity|]. intros file. cbn. rewrite app_nil_r. reflexivity.
  - destruct (encode_encodable c Hc) as [b Hb].
    exists (b ++ bs). split; [cbn [concat]; apply encode_app; assumption|].
    intros file. cbn [write_chunks]. rewrite Hb, IH, app_assoc. reflexivity.
Qed.

(** Saving a history of valid entries leaves its JSON text, in UTF-8, in
    the file. *)
Lemma save_history_disk (h : list HistoryEntry) (w : World) :
  Forall valid_entry h ->
  exists bs, Utf8.encode (dumps h) = Some bs
             /\ save_history_to_file h w = (Returns tt, set_disk (Some bs) w).
Proof.
  intros Hh.
  destruct (write_chunks_encodable _ (chunks_encodable h Hh)) as (bs & Hbs & Hw).
  exists bs. split; [exact Hbs|].
  unfold save_history_to_file, try_except. rewrite Hw. reflexivity.
Qed.

(** Loading a file that holds the text of a history gives the history. *)
Lemma load_history_disk (h : list HistoryEntry) (bs : list N) (w : World) :
  Utf8.encode (dumps h) = Some bs -> disk w = Some bs ->
  load_history_from_file w = (Returns (history_json h), w).
Proof.
  intros Hbs Hd. unfold load_history_from_file, try_except, read_text.
  rewrite Hd, (decode_encode _ _ Hbs). cbn [fmap option_fmap option_map].
  rewrite (universal_newlines_id _ (dumps_no_cr h)), loads_dumps. reflexivity.
Qed.

(** C8: for every history of valid entries, saving it and then loading
    returns the list of dictionaries equal to it, as long as the file is
    not written in between. *)
Theorem history_round_trip (h : list HistoryEntry) (w w' : World) :
  Forall valid_entry h ->
  disk w' = disk (snd (save_history_to_file h w)) ->
  fst (load_history_from_file w') = Returns (history_json h).
Proof.
  intros Hh Hd.
  destruct (save_history_disk h w Hh) as (bs & Hbs & Hsave).
  rewrite Hsave in Hd. cbn [snd set_disk disk] in Hd.
  rewrite (load_history_disk h bs w' Hbs Hd). reflexivity.
Qed.

(** ** Turns *)

(** Writing raises only when a chunk cannot be encoded. *)
Lemma write_chunks_not_interrupted (chunks : list pystr) (file : list N) (e : pystr) :
  fst (write_chunks chunks file) <> Interrupts e.
Proof.
  revert file. induction chunks as [|c cs IH]; intros file; cbn [write_chunks].
  - discriminate.
  - destruct (Utf8.encode c); [apply IH | discriminate].
Qed.

Lemma save_history_eq (h : list HistoryEntry) (w : World) :
  save_history_to_file h w = (Returns tt, set_disk (Some (saved_file h)) w).
Proof.
  unfold save_history_to_file, try_except, saved_file.
  pose proof (write_chunks_not_interrupted (iterencode h) []) as Hni.
  destruct (write_chunks (iterencode h) []) as [[[]|e|e] file]; try reflexivity.
  exfalso. exact (Hni e eq_refl).
Qed.

Lemma keeps_objects_refl (w : World) : keeps_objects w w.
Proof. split; [trivial | reflexivity]. Qed.

Lemma translate_text_keeps (env : Env) (translators : option (gmap string Translator))
    (text : pystr) (w : World) :
  exists r w', translate_text env translators text w = (r, w')
               /\ keeps_objects w w' /\ answers r.
Proof.
  rewrite translate_text_eq. unfold answers.
  destruct (negb (truthy translators));
    [eexists _, _; split; [reflexivity|split; [apply keeps_objects_refl|eauto]]|].
  destruct (network env (tick w));
    try (eexists _, _; split; [reflexivity|split; [split; [trivial|reflexivity]|eauto]]).
  destruct (negb (validate_input text));
    [eexists _, _; split; [reflexivity|split; [split; [trivial|reflexivity]|eauto]]|].
  destruct (bool_decide _);
    [eexists _, _; split; [reflexivity|split; [split; [trivial|reflexivity]|eauto]]|].
  cbv zeta. destruct (_ : option Translator) as [t|]; [destruct (t text)|];
    eexists _, _; (split; [reflexivity|split; [split; [trivial|reflexivity]|eauto]]).
Qed.

Lemma process_command_keeps (command : pystr) (w : World) :
  exists resp w', process_command command w = (Returns resp, w') /\ keeps_objects w w'.
Proof.
  unfold process_command.
  destruct (bool_decide _).
  - unfold bind, list_new, session_get_history, list_read. cbn [fst snd].
    match goal with |- context [default [] ?x] => destruct (default [] x) end;
      eexists _, _; (split; [reflexivity|]); split; try reflexivity;
      intros r' l' H; cbn [heap set_heap]; apply lookup_app_l_Some; exact H.
  - destruct (bool_decide _).
    + eexists _, _. split; [reflexivity|]. split; [|reflexivity].
      intros r l H. cbn. apply lookup_app_l_Some. exact H.
    + eexists _, _. split; [reflexivity|]. apply keeps_objects_refl.
Qed.

Lemma turn_tail_eq (env : Env) (history : nat) (reply : pystr) (w : World)
    (l : list HistoryEntry) :
  heap w !! history = Some l ->
  let a := mkEntry (py "assistant") reply (clock env (tick w)) in
  turn_tail env history reply w = (Returns tt, turn_end history a (l ++ [a]) w).
Proof.
  intros Hl a.
  cbv [turn_tail bind get_current_timestamp next_tick ret list_append
        store_last_ten list_read list_new session_set_history
        set_heap set_sess_history].
  cbn [fst snd heap tick sess_history sess_translators disk events].
  rewrite save_history_eq.
  rewrite list_lookup_alter_eq, Hl. cbn [fmap option_fmap option_map default from_option id].
  rewrite lookup_app_l by (rewrite length_alter; eapply lookup_lt_Some; exact Hl).
  rewrite list_lookup_alter_eq, Hl. cbn [fmap option_fmap option_map default from_option id].
  unfold turn_end, set_disk.
  cbn [fst snd heap set_heap set_sess_history tick sess_history sess_translators disk events].
  rewrite length_alter. reflexivity.
Qed.

Lemma turn_tail_returns (env : Env) (history : nat) (reply : pystr) (w : World) :
  exists w', turn_tail env history reply w = (Returns tt, w').
Proof.
  cbv [turn_tail bind get_current_timestamp next_tick ret list_append
        store_last_ten list_read list_new session_set_history].
  cbn [fst snd]. rewrite save_history_eq. eauto.
Qed.

(** [handle_message], path by path. *)
Lemma handle_message_eq (env : Env) (m : pystr) (w : World) :
  handle_message env m w =
  match respond env (sess_translators w) (Str.strip m) (turn_start env m w) with
  | (Returns response, w2) =>
      match chat env (tick w2) with
      | Returns _ => turn_tail env (turn_ref w) response (queried (EvSend response) w2)
      | Raises e => turn_failed env (turn_ref w) e (queried (EvSend response) w2)
      | Interrupts e => (Interrupts e, queried (EvSend response) w2)
      end
  | (Raises e, w2) => turn_failed env (turn_ref w) e w2
  | (Interrupts e, w2) => (Interrupts e, w2)
  end.
Proof.
  unfold handle_message.
  cbv [bind try_except list_new session_get_history session_get_translators
       get_current_timestamp next_tick ret list_append set_heap].
  cbn [fst snd heap tick sess_history sess_translators disk events].
  fold (turn_ref w). fold (user_entry env m w). fold (turn_start env m w).
  fold (respond env (sess_translators w) (Str.strip m)).
  destruct (respond env (sess_translators w) (Str.strip m) (turn_start env m w))
    as [[response|e|e] w2].
  - cbv [send_message bind query of_outcome]. fold (queried (EvSend response) w2).
    destruct (chat env (tick w2)) as [[]|e|e].
    + destruct (turn_tail_returns env (turn_ref w) response (queried (EvSend response) w2))
        as [w' Hw'].
      transitivity
        (match turn_tail env (turn_ref w) response (queried (EvSend response) w2) with
         | (Returns a, w') => (Returns a, w')
         | (Raises e, w') => turn_failed env (turn_ref w) e w'
         | (Interrupts e, w') => (Interrupts e, w')
         end); [reflexivity|].
      rewrite Hw'. reflexivity.
    + cbv [turn_failed send_message bind query of_outcome turn_tail].
      destruct (chat env _) as [[]|e'|e']; reflexivity.
    + reflexivity.
  - cbv [turn_failed send_message bind query of_outcome turn_tail].
    destruct (chat env _) as [[]|e'|e']; reflexivity.
  - reflexivity.
Qed.

Lemma respond_keeps (env : Env) (translators : option (gmap string Translator))
    (input : pystr) (w : World) :
  exists r w', respond env translators input w = (r, w')
               /\ keeps_objects w w' /\ answers r.
Proof.
  unfold respond. destruct (Str.startswith _ _); [|apply translate_text_keeps].
  destruct (process_command_keeps input w) as (resp & w' & -> & Hkeep).
  exists (Returns resp), w'. split; [reflexivity|]. split; [exact Hkeep|].
  left. eauto.
Qed.

Lemma turn_start_lookup (env : Env) (m : pystr) (w : World) :
  world_ok w ->
  heap (turn_start env m w) !! turn_ref w
  = Some (session_history_of w ++ [user_entry env m w]).
Proof.
  intros Hok. unfold turn_start. cbn [heap]. rewrite list_lookup_alter_eq.
  unfold turn_ref, session_history_of.
  destruct (sess_history w) as [r|] eqn:E; cbn [default from_option id].
  - specialize (Hok r E). rewrite lookup_app_l by exact Hok.
    destruct (lookup_lt_is_Some_2 _ _ Hok) as [x Hx]. rewrite Hx. reflexivity.
  - rewrite list_lookup_middle by reflexivity. reflexivity.
Qed.

(** A turn that completes ends in [turn_end]: the list it worked on holds
    the history of the session as the turn found it, the entry of the
    user and the entry of the reply. *)
Lemma handle_message_completed (env : Env) (m : pystr) (w w' : World) :
  world_ok w -> handle_message env m w = (Returns tt, w') ->
  exists (reply : pystr) (w3 : World),
    let a := mkEntry (py "assistant") reply (clock env (tick w3)) in
    w' = turn_end (turn_ref w) a
           ((session_history_of w ++ [user_entry env m w]) ++ [a]) w3.
Proof.
  intros Hok. rewrite handle_message_eq.
  destruct (respond_keeps env (sess_translators w) (Str.strip m) (turn_start env m w))
    as (r & w2 & -> & (Hkeep & _) & [(resp & ->)|(e & ->)]); [|discriminate].
  pose proof (Hkeep _ _ (turn_start_lookup env m w Hok)) as Hl.
  destruct (chat env (tick w2)) as [[]|e|e]; [| |discriminate].
  - rewrite (turn_tail_eq env _ resp (queried (EvSend resp) w2) _ Hl).
    intros [= <-]. exists resp, (queried (EvSend resp) w2). reflexivity.
  - unfold turn_failed.
    destruct (chat env (tick (queried (EvSend resp) w2))) as [[]|e'|e'];
      [|discriminate|discriminate].
    rewrite (turn_tail_eq env _ _ (queried _ (queried (EvSend resp) w2)) _ Hl).
    intros [= <-].
    exists (py "Error: " ++ e),
           (queried (EvSend (py "Error: " ++ e)) (queried (EvSend resp) w2)).
    reflexivity.
Qed.

Lemma session_history_turn_end (history : nat) (a : HistoryEntry)
    (pre : list HistoryEntry) (w : World) :
  session_history_of (turn_end history a pre w) = last_n 10 pre.
Proof.
  unfold session_history_of, turn_end. cbn [sess_history heap].
  rewrite list_lookup_middle by (rewrite length_alter; reflexivity). reflexivity.
Qed.

Lemma world_ok_turn_end (history : nat) (a : HistoryEntry)
    (pre : list HistoryEntry) (w : World) :
  world_ok (turn_end history a pre w).
Proof.
  intros r. unfold turn_end. cbn [sess_history heap]. intros [= <-].
  rewrite length_app, length_alter. cbn [length]. lia.
Qed.

Lemma last_n_length {A : Type} (n : nat) (l : list A) : (length (last_n n l) <= n)%nat.
Proof. unfold last_n. rewrite length_drop. lia. Qed.

Lemma last_n_suffix {A : Type} (n : nat) (l : list A) :
  l = take (length l - n) l ++ last_n n l.
Proof. unfold last_n. symmetry. apply take_drop. Qed.

(** C3: whatever the message, when a turn completes the history stored in
    the session is the list the turn worked on (the history the turn
    found, the entry of the user, the entry of the reply) cut to its last
    ten entries: it has at most ten entries, and they are the end of that
    list, in the same order. *)
Theorem session_history_capped (env : Env) (m : pystr) (w w' : World) :
  world_ok w -> handle_message env m w = (Returns tt, w') ->
  exists (u a : HistoryEntry) (dropped : list HistoryEntry),
    let pre := session_history_of w ++ [u; a] in
    role u = py "user" /\ content u = Str.strip m /\ role a = py "assistant"
    /\ session_history_of w' = last_n 10 pre
    /\ (length (session_history_of w') <= 10)%nat
    /\ pre = dropped ++ session_history_of w'.
Proof.
  intros Hok Hrun.
  destruct (handle_message_completed env m w w' Hok Hrun) as (reply & w3 & ->).
  cbv zeta. rewrite session_history_turn_end, <- app_assoc. cbn [app].
  exists (user_entry env m w), (mkEntry (py "assistant") reply (clock env (tick w3))).
  eexists.
  split; [reflexivity|]. split; [reflexivity|]. split; [reflexivity|].
  split; [reflexivity|]. split; [apply last_n_length | apply last_n_suffix].
Qed.

Lemma world_ok_fresh (translators : gmap string Translator) :
  world_ok (fresh_session translators).
Proof. intros r. cbn. intros [= <-]. lia. Qed.

Lemma world_ok_busy : world_ok busy_session.
Proof. intros r. vm_compute. intros [= <-]. repeat constructor. Qed.

Lemma session_history_capped_witness :
  exists (u a : HistoryEntry) (dropped : list HistoryEntry),
    role u = py "user" /\ content u = Str.strip (py " سلام ") /\ role a = py "assistant"
    /\ session_history_of (snd (handle_message online_env (py " سلام ") busy_session))
       = last_n 10 (session_history_of busy_session ++ [u; a])
    /\ (length (session_history_of
                  (snd (handle_message online_env (py " سلام ") busy_session))) <= 10)%nat
    /\ session_history_of busy_session ++ [u; a]
       = dropped
         ++ session_history_of (snd (handle_message online_env (py " سلام ") busy_session)).
Proof.
  apply (session_history_capped online_env (py " سلام ") busy_session).
  - exact world_ok_busy.
  - vm_compute. reflexivity.
Defined.

(** A turn that does not complete: when neither the reply nor the error
    message can be sent, the exception leaves [handle_message] before the
    cut, and the entry of the user stays in the list of the session. *)
Remark aborted_turn_keeps_user_entry :
  fst (handle_message undelivered_env (py "Hello") busy_session)
  = Raises (py "Connection lost")
  /\ length (session_history_of busy_session) = 10%nat
  /\ length (session_history_of
               (snd (handle_message undelivered_env (py "Hello") busy_session))) = 11%nat.
Proof. repeat split; vm_compute; reflexivity. Qed.




Lemma encodable_check (s : pystr) :
  forallb (fun c => (c <? 1114112) && negb ((55296 <=? c) && (c <=? 57343))) s = true ->
  encodable s.
Proof.
  intros H. apply Forall_forall. intros c Hc. rewrite forallb_forall in H.
  apply list_elem_of_In, H in Hc. apply andb_true_iff in Hc. destruct Hc as [H1 H2].
  apply N.ltb_lt in H1. apply negb_true_iff in H2. split; [exact H1|].
  intros H3. apply in_range_iff in H3. congruence.
Qed.

Lemma history_round_trip_witness :
  fst (load_history_from_file
         (snd (save_history_to_file sample_history (fresh_session mock_translators))))
  = Returns (Json.history_json sample_history).
Proof.
  apply (history_round_trip sample_history (fresh_session mock_translators)); [|reflexivity].
  repeat (apply List.Forall_cons;
          [repeat split; apply encodable_check; vm_compute; reflexivity|]).
  apply List.Forall_nil.
Defined.

(** Validity matters: an entry with a lone surrogate cannot be written,
    the file is left cut short and loading gives the empty list. *)
Remark surrogate_entry_not_saved :
  fst (load_history_from_file
         (snd (save_history_to_file surrogate_history (fresh_session mock_translators))))
  = Returns (Json.JArr [])
  /\ Json.history_json surrogate_history <> Json.JArr [].
Proof. split; [vm_compute; reflexivity | discriminate]. Qed.

(** ** The two commands, one after the other *)

(** A turn whose reply is delivered. *)
Lemma handle_message_delivered (env : Env) (m : pystr) (w w2 : World) (resp : pystr) :
  world_ok w ->
  respond env (sess_translators w) (Str.strip m) (turn_start env m w) = (Returns resp, w2) ->
  chat env (tick w2) = Returns tt ->
  handle_message env m w
  = (Returns tt,
     let a := mkEntry (py "assistant") resp (clock env (S (tick w2))) in
     turn_end (turn_ref w) a ((session_history_of w ++ [user_entry env m w]) ++ [a])
              (queried (EvSend resp) w2)).
Proof.
  intros Hok Hresp Hchat. rewrite handle_message_eq.
  destruct (respond_keeps env (sess_translators w) (Str.strip m) (turn_start env m w))
    as (resp' & w2' & Heq & Hkeep & _).
  rewrite Hresp in Heq. injection Heq as <- <-.
  rewrite Hresp, Hchat.
  apply (turn_tail_eq env _ resp (queried (EvSend resp) w2)).
  apply Hkeep, turn_start_lookup, Hok.
Qed.

Lemma respond_clear (env : Env) (translators : option (gmap string Translator)) (w : World) :
  respond env translators (Str.strip (py "/clear")) w
  = (Returns (py "Translation history cleared."),
     mkWorld (heap w ++ [[]]) (sess_translators w) (Some (length (heap w)))
             (disk w) (tick w) (events w)).
Proof.
  unfold respond.
  replace (Str.strip (py "/clear")) with (py "/clear") by (vm_compute; reflexivity).
  replace (Str.startswith (Str.lower (py "/clear")) (py "/")) with true
    by (vm_compute; reflexivity).
  unfold process_command.
  replace (Str.strip (Str.lower (py "/clear"))) with (py "/clear")
    by (vm_compute; reflexivity).
  reflexivity.
Qed.

Lemma respond_history (env : Env) (translators : option (gmap string Translator))
    (w : World) :
  world_ok w ->
  respond env translators (Str.strip (py "/history")) w
  = (Returns (match session_history_of w with
              | [] => no_history
              | _ => Str.join [10] (format_entry <$> session_history_of w)
              end),
     set_heap (heap w ++ [[]]) w).
Proof.
  intros Hok. unfold respond.
  replace (Str.strip (py "/history")) with (py "/history") by (vm_compute; reflexivity).
  replace (Str.startswith (Str.lower (py "/history")) (py "/")) with true
    by (vm_compute; reflexivity).
  unfold process_command.
  replace (Str.strip (Str.lower (py "/history"))) with (py "/history")
    by (vm_compute; reflexivity).
  change (bool_decide (py "/history" = py "/history")) with true. cbv iota.
  cbv [bind list_new session_get_history list_read ret set_heap].
  cbn [fst snd heap sess_history].
  assert (Hh : default [] ((heap w ++ [[]]) !! default (length (heap w)) (sess_history w))
               = session_history_of w).
  { unfold session_history_of. destruct (sess_history w) as [r|] eqn:E;
      cbn [default from_option id].
    - rewrite lookup_app_l by (apply Hok; exact E). reflexivity.
    - rewrite list_lookup_middle by reflexivity. reflexivity. }
  rewrite Hh. destruct (session_history_of w); reflexivity.
Qed.

Lemma join_last (sep : pystr) (parts : list pystr) (p : pystr) :
  p <> [] -> last (Str.join sep (parts ++ [p])) = last p.
Proof.
  intros Hp. induction parts as [|q parts IH]; [reflexivity|].
  cbn [app]. destruct (parts ++ [p]) as [|x xs] eqn:E.
  { destruct parts; discriminate. }
  cbn [Str.join]. cbn [Str.join] in IH.
  rewrite !last_app. rewrite IH.
  destruct (last p) eqn:El; [reflexivity|].
  apply last_None in El. contradiction.
Qed.

Lemma last_n_snoc_nonempty {A : Type} (n : nat) (l : list A) (a : A) :
  last_n (S n) (l ++ [a]) <> [].
Proof.
  intros H. apply (f_equal length) in H. unfold last_n in H.
  rewrite length_drop, length_app in H. cbn [length] in H. lia.
Qed.

Lemma world_ok_turn_start (env : Env) (m : pystr) (w : World) :
  world_ok w -> world_ok (turn_start env m w).
Proof.
  intros Hok r. unfold turn_start. cbn [sess_history heap]. intros E.
  rewrite length_alter, length_app. specialize (Hok r E). lia.
Qed.

Lemma session_history_turn_start (env : Env) (m : pystr) (w : World) :
  world_ok w -> sess_history w <> None ->
  session_history_of (turn_start env m w) = session_history_of w ++ [user_entry env m w].
Proof.
  intros Hok Hsome. pose proof (turn_start_lookup env m w Hok) as Hl.
  unfold session_history_of at 1. unfold turn_ref in Hl.
  change (sess_history (turn_start env m w)) with (sess_history w).
  destruct (sess_history w) as [r|]; [|contradiction].
  cbn [default from_option id] in Hl. rewrite Hl. reflexivity.
Qed.

Lemma events_turn_end (history : nat) (a : HistoryEntry) (pre : list HistoryEntry)
    (w : World) :
  events (turn_end history a pre w) = events w.
Proof. reflexivity. Qed.

Lemma events_queried (ev : event) (w : World) : events (queried ev w) = events w ++ [ev].
Proof. reflexivity. Qed.

Lemma match_snoc {A B : Type} (l : list A) (a : A) (x y : B) :
  match l ++ [a] with
  | [] => x
  | _ => y
  end = y.
Proof. destruct l; reflexivity. Qed.

Lemma format_entry_last (e : HistoryEntry) (s : pystr) (c : N) :
  content e = s ++ [c] -> last (format_entry e) = Some c.
Proof.
  intros H. unfold format_entry. rewrite H, !app_assoc. apply last_snoc.
Qed.

(** C1, on the code: in any session whose messages are delivered, the
    turn of [/clear] completes and leaves a history that is not empty in the
    session (its own two entries are stored after the reset), and the
    turn of [/history] that follows answers the listing of that history
    and of its own entry, which is not the fixed no-history answer. *)
Theorem clear_then_history_lists_entries (env : Env) (w : World) :
  world_ok w -> (forall n, chat env n = Returns tt) ->
  exists (w1 w2 : World) (listing : pystr),
    handle_message env (py "/clear") w = (Returns tt, w1)
    /\ handle_message env (py "/history") w1 = (Returns tt, w2)
    /\ session_history_of w1 <> []
    /\ events w2
       = events w ++ [EvSend (py "Translation history cleared."); EvSend listing]
    /\ listing
       = Str.join [10] (format_entry
                          <$> (session_history_of w1
                                 ++ [user_entry env (py "/history") w1]))
    /\ listing <> no_history.
Proof.
  intros Hok Hchat.
  pose proof (handle_message_delivered env (py "/clear") w _ _ Hok
                (respond_clear env _ _) (Hchat _)) as H1.
  cbv zeta in H1.
  match type of H1 with _ = (_, ?x) => set (w1 := x) in * end.
  assert (Hok1 : world_ok w1) by apply world_ok_turn_end.
  assert (Hh1 : session_history_of w1 <> []).
  { unfold w1. rewrite session_history_turn_end. apply last_n_snoc_nonempty. }
  assert (Hs1 : sess_history w1 <> None) by discriminate.
  pose proof (respond_history env (sess_translators w1) _
                (world_ok_turn_start env (py "/history") w1 Hok1)) as Hr.
  rewrite (session_history_turn_start env (py "/history") w1 Hok1 Hs1) in Hr.
  set (u2 := user_entry env (py "/history") w1) in *.
  set (listing := Str.join [10] (format_entry <$> (session_history_of w1 ++ [u2]))) in *.
  unfold listing in Hr |- *. rewrite match_snoc in Hr. fold listing in Hr |- *.
  pose proof (handle_message_delivered env (py "/history") w1 _ _ Hok1 Hr (Hchat _)) as H2.
  cbv zeta in H2.
  match type of H2 with _ = (_, ?x) => set (w2 := x) in * end.
  exists w1, w2, listing.
  split; [exact H1|]. split; [exact H2|]. split; [exact Hh1|].
  split; [|split; [reflexivity|]].
  - unfold w2. rewrite events_turn_end, events_queried.
    change (events (set_heap _ (turn_start env (py "/history") w1))) with (events w1).
    unfold w1. rewrite events_turn_end, events_queried. cbn [events].
    rewrite <- app_assoc. reflexivity.
  - assert (Hlast : last (format_entry u2) = Some 121).
    { apply (format_entry_last u2 (py "/histor")). unfold u2, user_entry. cbn [content].
      vm_compute. reflexivity. }
    intros Heq. apply (f_equal (@last N)) in Heq.
    unfold listing in Heq. rewrite fmap_app in Heq. cbn [fmap list_fmap] in Heq.
    rewrite join_last, Hlast in Heq.
    + change (last no_history) with (Some 46) in Heq. discriminate.
    + intros E. rewrite E in Hlast. discriminate.
Qed.

Lemma clear_then_history_lists_entries_witness :
  exists (w1 w2 : World) (listing : pystr),
    handle_message online_env (py "/clear") (fresh_session mock_translators)
    = (Returns tt, w1)
    /\ handle_message online_env (py "/history") w1 = (Returns tt, w2)
    /\ session_history_of w1 <> []
    /\ events w2
       = events (fresh_session mock_translators)
         ++ [EvSend (py "Translation history cleared."); EvSend listing]
    /\ listing
       = Str.join [10] (format_entry
                          <$> (session_history_of w1
                                 ++ [user_entry online_env (py "/history") w1]))
    /\ listing <> no_history.
Proof.
  apply (clear_then_history_lists_entries online_env (fresh_session mock_translators)).
  - apply world_ok_fresh.
  - reflexivity.
Defined.

(** The run of the two commands in a session that has just started: the
    listing sent for [/history]. *)
Example clear_then_history_run :
  events (run_turns online_env [py "/clear"; py "/history"]
                    (fresh_session mock_translators))
  = [ EvSend (py "Translation history cleared.");
      EvSend (py "2024-01-01 00:00:00 [user]: /clear" ++ [10]
              ++ py "2024-01-01 00:00:02 [assistant]: Translation history cleared." ++ [10]
              ++ py "2024-01-01 00:00:03 [user]: /history") ].
Proof. vm_compute. reflexivity. Qed.

(** In a session whose history is empty, [/history] lists its own entry:
    the entry of the user is appended to the list of the session before
    the command reads it. *)
Example history_in_fresh_session :
  events (run_turns online_env [py "/history"] (fresh_session mock_translators))
  = [ EvSend (py "2024-01-01 00:00:00 [user]: /history") ].
Proof. vm_compute. reflexivity. Qed.

(** * Further properties *)

(** ** Whitespace around a text *)

Lemma lstrip_split (s : pystr) : exists l, blank l /\ s = l ++ Str.lstrip s.
Proof.
  induction s as [|c s (l & Hl & IH)]; [exists []; split; [constructor|reflexivity]|].
  cbn [Str.lstrip]. destruct (isspace c) eqn:Hc.
  - exists (c :: l). split; [constructor; assumption|]. cbn [app]. congruence.
  - exists []. split; [constructor|reflexivity].
Qed.

Lemma rstrip_split (s : pystr) : exists r, blank r /\ s = Str.rstrip s ++ r.
Proof.
  destruct (lstrip_split (rev s)) as (l & Hl & E).
  exists (rev l). split.
  - apply blank_rev. rewrite rev_involutive. exact Hl.
  - unfold Str.rstrip. rewrite <- rev_app_distr, <- E, rev_involutive. reflexivity.
Qed.

(** A text is its stripped form between two runs of whitespace. *)
Lemma strip_split (s : pystr) :
  exists l r, blank l /\ blank r /\ s = l ++ Str.strip s ++ r.
Proof.
  destruct (lstrip_split s) as (l & Hl & E1).
  destruct (rstrip_split (Str.lstrip s)) as (r & Hr & E2).
  exists l, r. split; [exact Hl|]. split; [exact Hr|].
  unfold Str.strip. rewrite <- E2. exact E1.
Qed.

Lemma lstrip_fixed (s : pystr) :
  match s with [] => True | c :: _ => isspace c = false end -> Str.lstrip s = s.
Proof. destruct s as [|c s]; [reflexivity|]. cbn [Str.lstrip]. intros ->. reflexivity. Qed.

Lemma lstrip_idem (s : pystr) : Str.lstrip (Str.lstrip s) = Str.lstrip s.
Proof.
  apply lstrip_fixed. destruct (Str.lstrip s) as [|c t] eqn:E; [exact I|].
  exact (lstrip_head s t c E).
Qed.

Lemma rstrip_idem (s : pystr) : Str.rstrip (Str.rstrip s) = Str.rstrip s.
Proof. unfold Str.rstrip. rewrite rev_involutive, lstrip_idem. reflexivity. Qed.

Lemma lstrip_rstrip_lstrip (s : pystr) :
  Str.lstrip (Str.rstrip (Str.lstrip s)) = Str.rstrip (Str.lstrip s).
Proof.
  apply lstrip_fixed.
  destruct (rstrip_split (Str.lstrip s)) as (r & _ & E).
  destruct (Str.rstrip (Str.lstrip s)) as [|c t]; [exact I|].
  destruct (Str.lstrip s) as [|d u] eqn:E'; [discriminate|].
  cbn [app] in E. injection E as -> _. exact (lstrip_head s u c E').
Qed.

(** Stripping twice is stripping once. *)
Lemma strip_idem (s : pystr) : Str.strip (Str.strip s) = Str.strip s.
Proof.
  unfold Str.strip at 1. unfold Str.strip at 1 2.
  rewrite lstrip_rstrip_lstrip, rstrip_idem. reflexivity.
Qed.

Lemma blank_app (s t : pystr) : blank (s ++ t) <-> blank s /\ blank t.
Proof. unfold blank. apply Forall_app. Qed.

Lemma blank_strip (s : pystr) : blank (Str.strip s) <-> blank s.
Proof.
  split; intros H.
  - apply strip_nil_iff. rewrite <- strip_idem. apply strip_nil_iff. exact H.
  - apply strip_nil_iff in H. rewrite H. constructor.
Qed.

(** A property that holds of whitespace holds of a text exactly when it
    holds of its stripped form. *)
Lemma Forall_strip (P : N -> Prop) (s : pystr) :
  (forall c, isspace c = true -> P c) -> Forall P (Str.strip s) <-> Forall P s.
Proof.
  intros Hsp. destruct (strip_split s) as (l & r & Hl & Hr & E).
  assert (Hb : forall b, blank b -> Forall P b).
  { intros b Hb. eapply Forall_impl; [exact Hb|]. exact Hsp. }
  split; intros H.
  - rewrite E. apply Forall_app. split; [apply Hb, Hl|].
    apply Forall_app. split; [exact H | apply Hb, Hr].
  - rewrite E in H. apply Forall_app in H. destruct H as [_ H].
    apply Forall_app in H. exact (proj1 H).
Qed.

Lemma bool_eq_iff (a b : bool) : (a = true <-> b = true) -> a = b.
Proof. destruct a, b; intros [H1 H2]; try reflexivity; [symmetry; auto | auto]. Qed.

Lemma space_not_arabic (c : N) : isspace c = true -> (1536 <=? c) && (c <=? 1791) = false.
Proof.
  unfold isspace, space_ranges. cbn [in_ranges]. intros H.
  apply not_true_iff_false. intros Hr. apply in_range_iff in Hr.
  rewrite !orb_true_iff, !in_range_iff in H. lia.
Qed.

Lemma space_not_letter (c : N) :
  isspace c = true -> ((97 <=? c) && (c <=? 122)) || ((65 <=? c) && (c <=? 90)) = false.
Proof.
  unfold isspace, space_ranges. cbn [in_ranges]. intros H.
  apply not_true_iff_false. intros Hr. rewrite orb_true_iff, !in_range_iff in Hr.
  rewrite !orb_true_iff, !in_range_iff in H. lia.
Qed.

Lemma existsb_strip (f : N -> bool) (s : pystr) :
  (forall c, isspace c = true -> f c = false) ->
  existsb f (Str.strip s) = existsb f s.
Proof.
  intros Hsp. apply bool_eq_iff.
  assert (H : forall t, existsb f t = true <-> ~ Forall (fun c => f c = false) t).
  { intros t. rewrite existsb_elem, Forall_forall. split.
    - intros (c & Hc & Hf) Hall. rewrite (Hall c Hc) in Hf. discriminate.
    - intros Hn. destruct (existsb f t) eqn:E; [apply existsb_elem in E; exact E|].
      exfalso. apply Hn. intros c Hc. destruct (f c) eqn:Ef; [|reflexivity].
      assert (existsb f t = true) by (apply existsb_elem; eauto). congruence. }
  rewrite !H, (Forall_strip _ s Hsp). reflexivity.
Qed.

(** X1: whitespace before and after a text changes neither its validity
    nor the language detected. *)
Theorem strip_keeps_validity_and_language (text : pystr) :
  validate_input (Str.strip text) = validate_input text
  /\ detect_language (Str.strip text) = detect_language text.
Proof.
  split.
  - apply bool_eq_iff. rewrite !validate_input_iff, blank_strip.
    rewrite (Forall_strip (fun c => Re.latin_class c = true) text),
            (Forall_strip (fun c => Re.arabic_class c = true) text); [reflexivity| |].
    + intros c Hc. unfold Re.arabic_class, Re.space. rewrite Hc.
      rewrite orb_true_r. reflexivity.
    + intros c Hc. unfold Re.latin_class, Re.space. rewrite Hc.
      rewrite orb_true_r. reflexivity.
  - unfold detect_language, Re.search_class.
    rewrite (existsb_strip _ text space_not_arabic),
            (existsb_strip _ text space_not_letter). reflexivity.
Qed.

(** X2: a valid text that holds a code point outside the first class of
    the pattern (an Urdu full stop, comma or question mark, a vowel mark)
    is made of the second class only: code points of U+0600..U+06FF,
    whitespace and the marks . , ! ? -- so it holds no Latin letter, no
    ASCII digit, no apostrophe, quotation mark or hyphen. *)
Theorem urdu_marks_exclude_latin (text : pystr) :
  validate_input text = true ->
  (exists c, c ∈ text /\ Re.latin_class c = false) ->
  Forall (fun d => arabic_cp d \/ isspace d = true
                   \/ d = 46 \/ d = 44 \/ d = 33 \/ d = 63) text
  /\ ~ (exists d, d ∈ text /\ (latin_letter d \/ 48 <= d <= 57 \/ d = 39 \/ d = 34 \/ d = 45)).
Proof.
  intros Hv (c & Hc & Hl). apply validate_input_iff in Hv. destruct Hv as [_ [H|H]].
  { rewrite Forall_forall in H. rewrite (H c Hc) in Hl. discriminate. }
  assert (Hall : Forall (fun d => arabic_cp d \/ isspace d = true
                                  \/ d = 46 \/ d = 44 \/ d = 33 \/ d = 63) text).
  { eapply Forall_impl; [exact H|]. intros d Hd. cbv beta in Hd.
    unfold Re.arabic_class, Re.space in Hd.
    rewrite !orb_true_iff, in_range_iff, !N.eqb_eq in Hd. unfold arabic_cp. tauto. }
  split; [exact Hall|].
  intros (d & Hd & Hbad). rewrite Forall_forall in Hall. specialize (Hall d Hd).
  assert (Hsp : isspace d = true -> 9 <= d <= 13 \/ 28 <= d <= 32 \/ 133 <= d).
  { unfold isspace, space_ranges. cbn [in_ranges].
    rewrite !orb_true_iff, !in_range_iff. lia. }
  unfold arabic_cp, latin_letter in *. destruct Hall as [?|[Hs|?]]; [lia| |lia].
  apply Hsp in Hs. lia.
Qed.

Lemma urdu_marks_exclude_latin_witness :
  Forall (fun d => arabic_cp d \/ isspace d = true
                   \/ d = 46 \/ d = 44 \/ d = 33 \/ d = 63) (py "سلام، دنیا۔")
  /\ ~ (exists d, d ∈ py "سلام، دنیا۔"
                  /\ (latin_letter d \/ 48 <= d <= 57 \/ d = 39 \/ d = 34 \/ d = 45)).
Proof.
  apply (urdu_marks_exclude_latin (py "سلام، دنیا۔")).
  - vm_compute. reflexivity.
  - exists 1748. split; [|vm_compute; reflexivity].
    apply list_elem_of_In. vm_compute. tauto.
Defined.

(** ** The translation dispatcher, further *)

(** X3: when the dictionary of translators is not empty but lacks the key
    of the chosen direction, [translate_text] answers the translation
    error with the key between apostrophes (the message of the
    [KeyError]), after the probe and without any translation call. *)
Theorem translate_text_missing_key (env : Env) (d : gmap string Translator)
    (text : pystr) (w : World) :
  d <> ∅ -> fst (check_internet env w) = Returns true -> validate_input text = true ->
  detect_language text <> py "unknown" ->
  d !! direction (detect_language text) = None ->
  translate_text env (Some d) text w
  = (Returns (py "Error: Unable to translate. Check your internet connection. ('"
              ++ py (direction (detect_language text)) ++ py "')"),
     queried EvProbe w).
Proof.
  intros Hd Hnet Hvalid Hlang Hkey.
  rewrite check_internet_eq in Hnet. cbn [fst] in Hnet.
  rewrite translate_text_eq, (truthy_nonempty d Hd), Hvalid. cbn [negb].
  change (default ∅ (Some d)) with d.
  destruct (network env (tick w)); try discriminate.
  rewrite (bool_decide_eq_false_2 _ Hlang). cbv zeta. rewrite Hkey.
  unfold err_translate. rewrite <- !app_assoc. reflexivity.
Qed.

Lemma translate_text_missing_key_witness :
  translate_text online_env (Some {[ "ur_to_en"%string := (fun _ : pystr => Returns (py "Hello")) ]})
                 (py "Hello") (fresh_session mock_translators)
  = (Returns (py "Error: Unable to translate. Check your internet connection. ('en_to_ur')"),
     queried EvProbe (fresh_session mock_translators)).
Proof.
  apply (translate_text_missing_key online_env
           {[ "ur_to_en"%string := (fun _ : pystr => Returns (py "Hello")) ]}
           (py "Hello") (fresh_session mock_translators)).
  - intros H. apply (f_equal (fun m => m !! "ur_to_en"%string)) in H.
    vm_compute in H. discriminate.
  - reflexivity.
  - vm_compute. reflexivity.
  - vm_compute. discriminate.
  - vm_compute. reflexivity.
Defined.



(** X5: [translate_text] leaves the list objects, the session and the
    file as they are.  Outside, it makes no call, or the probe alone, or
    the probe followed by one translation call; the call is made only
    when the probe succeeded, the text is valid and its language is
    detected, and it passes the text as it was given, to the direction
    of the detected language.  It returns a text, unless the probe or
    that call raises an exception that is not of class [Exception],
    which then leaves [translate_text]. *)
Theorem translate_text_calls (env : Env)
    (translators : option (gmap string Translator)) (text : pystr) (w : World) :
  exists (r : outcome pystr) (w' : World),
    translate_text env translators text w = (r, w')
    /\ heap w' = heap w /\ sess_translators w' = sess_translators w
    /\ sess_history w' = sess_history w /\ disk w' = disk w
    /\ (events w' = events w
        \/ events w' = events w ++ [EvProbe]
        \/ (events w' = events w ++ [EvProbe; EvTranslate (direction (detect_language text)) text]
            /\ fst (check_internet env w) = Returns true
            /\ validate_input text = true
            /\ detect_language text <> py "unknown"))
    /\ ((exists reply, r = Returns reply)
        \/ (exists e, r = Interrupts e
                      /\ (fst (check_internet env w) = Interrupts e
                          \/ exists (d : gmap string Translator) (t : Translator),
                               translators = Some d
                               /\ d !! direction (detect_language text) = Some t
                               /\ t text = Interrupts e))).
Proof.
  rewrite check_internet_eq, translate_text_eq. cbn [fst].
  destruct (negb (truthy translators)).
  { eexists _, _. split; [reflexivity|]. do 4 (split; [reflexivity|]).
    split; [left; reflexivity | left; eexists; reflexivity]. }
  destruct (network env (tick w)) as [|e|e|e|e];
    try (eexists _, _; split; [reflexivity|]; do 4 (split; [reflexivity|]);
         split; [right; left; reflexivity | left; eexists; reflexivity]).
  2: { eexists _, _. split; [reflexivity|]. do 4 (split; [reflexivity|]).
       split; [right; left; reflexivity | right; eauto]. }
  destruct (validate_input text); cbn [negb];
    [|eexists _, _; split; [reflexivity|]; do 4 (split; [reflexivity|]);
      split; [right; left; reflexivity | left; eexists; reflexivity]].
  destruct (bool_decide (detect_language text = py "unknown")) eqn:Hl;
    [eexists _, _; split; [reflexivity|]; do 4 (split; [reflexivity|]);
     split; [right; left; reflexivity | left; eexists; reflexivity]|].
  apply bool_decide_eq_false in Hl. cbv zeta.
  destruct translators as [d|]; cbn [default from_option id].
  - destruct (d !! direction (detect_language text)) as [t|] eqn:Hkey.
    + destruct (t text) as [s|e|e] eqn:Ht; eexists _, _; (split; [reflexivity|]);
        do 4 (split; [reflexivity|]);
        (split; [right; right;
                 (split; [cbn [events queried]; rewrite <- app_assoc; reflexivity|]);
                 repeat split; assumption|]).
      * left. eexists. reflexivity.
      * left. eexists. reflexivity.
      * right. exists e. split; [reflexivity|]. right. exists d, t. repeat split; assumption.
    + eexists _, _. split; [reflexivity|]. do 4 (split; [reflexivity|]).
      split; [right; left; reflexivity | left; eexists; reflexivity].
  - rewrite lookup_empty.
    eexists _, _. split; [reflexivity|]. do 4 (split; [reflexivity|]).
    split; [right; left; reflexivity | left; eexists; reflexivity].
Qed.

Lemma startswith_app (p s : pystr) : Str.startswith (p ++ s) p = true.
Proof.
  induction p as [|c p IH]; [destruct s; reflexivity|].
  cbn [app Str.startswith]. rewrite N.eqb_refl. exact IH.
Qed.

(** X6: every reply of [translate_text] starts with [Error: ] or with
    [Translation to ]; it starts with [Translation to ] only when a
    translation call was made.  There is a reply unless an exception
    that is not of class [Exception] leaves [translate_text]. *)
Theorem translate_text_reply_prefix (env : Env)
    (translators : option (gmap string Translator)) (text : pystr) (w : World) :
  exists (r : outcome pystr) (w' : World),
    translate_text env translators text w = (r, w')
    /\ ((exists e, r = Interrupts e)
        \/ exists reply : pystr,
             r = Returns reply
             /\ (Str.startswith reply (py "Error: ") = true
                 \/ (Str.startswith reply (py "Translation to ") = true
                     /\ events w'
                        = events w
                          ++ [EvProbe; EvTranslate (direction (detect_language text)) text]))).
Proof.
  rewrite translate_text_eq.
  destruct (negb (truthy translators));
    [eexists _, _; split; [reflexivity|right; eexists; split; [reflexivity|left; reflexivity]]|].
  destruct (network env (tick w)) as [|e|e|e|e];
    try (eexists _, _; split;
         [reflexivity|right; eexists; split; [reflexivity|left; reflexivity]]).
  2: { eexists _, _. split; [reflexivity|]. left. eauto. }
  destruct (negb (validate_input text));
    [eexists _, _; split; [reflexivity|right; eexists; split; [reflexivity|left; reflexivity]]|].
  destruct (bool_decide _);
    [eexists _, _; split; [reflexivity|right; eexists; split; [reflexivity|left; reflexivity]]|].
  cbv zeta. destruct (_ : option Translator) as [t|];
    [|eexists _, _; split; [reflexivity|right; eexists; split; [reflexivity|left; reflexivity]]].
  destruct (t text) as [translated|e|e]; eexists _, _; (split; [reflexivity|]).
  - right. eexists. split; [reflexivity|].
    right. split; [apply startswith_app|].
    cbn [events queried]. rewrite <- app_assoc. reflexivity.
  - right. eexists. split; [reflexivity|]. left. vm_compute. reflexivity.
  - left. eauto.
Qed.

(** ** The command processor *)

Lemma session_history_new_object (w : World) (l : list HistoryEntry) :
  world_ok w ->
  session_history_of (set_heap (heap w ++ [l]) w) = session_history_of w.
Proof.
  intros Hok. unfold session_history_of, set_heap. cbn [sess_history heap].
  destruct (sess_history w) as [r|] eqn:E; [|reflexivity].
  rewrite lookup_app_l by (apply Hok; exact E). reflexivity.
Qed.

(** [process_command], path by path. *)
Lemma process_command_eq (command : pystr) (w : World) :
  process_command command w =
  if bool_decide (command_form command = py "/history") then
    (Returns (match default [] ((heap w ++ [[]]) !! default (length (heap w)) (sess_history w)) with
              | [] => no_history
              | h => Str.join [10] (format_entry <$> h)
              end),
     set_heap (heap w ++ [[]]) w)
  else if bool_decide (command_form command = py "/clear") then
    (Returns (py "Translation history cleared."),
     mkWorld (heap w ++ [[]]) (sess_translators w) (Some (length (heap w)))
             (disk w) (tick w) (events w))
  else (Returns unknown_command, w).
Proof.
  unfold process_command. fold (command_form command).
  destruct (bool_decide (command_form command = py "/history")).
  - cbv [bind list_new session_get_history list_read ret set_heap].
    cbn [fst snd heap sess_history].
    destruct (default [] _); reflexivity.
  - destruct (bool_decide (command_form command = py "/clear")); reflexivity.
Qed.

(** X7: on its own, the command processor does what the commands say:
    after [/clear], in any spelling, the history of the session is empty,
    and [/history] run next answers the fixed no-history text. *)
Theorem process_command_clear_then_history (c1 c2 : pystr) (w : World) :
  command_form c1 = py "/clear" -> command_form c2 = py "/history" ->
  session_history_of (snd (process_command c1 w)) = []
  /\ fst (process_command c2 (snd (process_command c1 w)))
     = Returns (py "No translation history available.").
Proof.
  intros H1 H2. rewrite (process_command_eq c1 w), H1.
  change (bool_decide (py "/clear" = py "/history")) with false.
  change (bool_decide (py "/clear" = py "/clear")) with true. cbv iota. cbn [snd].
  split.
  - unfold session_history_of. cbn [sess_history heap].
    rewrite list_lookup_middle by reflexivity. reflexivity.
  - rewrite process_command_eq, H2.
    change (bool_decide (py "/history" = py "/history")) with true. cbv iota.
    cbn [fst heap sess_history default from_option id].
    rewrite lookup_app_l by (rewrite length_app; cbn [length]; lia).
    rewrite list_lookup_middle by reflexivity. reflexivity.
Qed.

Lemma process_command_clear_then_history_witness :
  session_history_of (snd (process_command (py " /CLEAR ") busy_session)) = []
  /\ fst (process_command (py "/History") (snd (process_command (py " /CLEAR ") busy_session)))
     = Returns (py "No translation history available.").
Proof.
  apply (process_command_clear_then_history (py " /CLEAR ") (py "/History") busy_session);
    vm_compute; reflexivity.
Defined.

(** X8: a command always returns a text; it makes no call outside and
    leaves the file and the translators as they are.  Only [/clear]
    changes the history of the session; a text that is neither command,
    in any spelling, gets the fixed unknown-command answer and changes
    nothing at all. *)
Theorem process_command_effects (command : pystr) (w : World) :
  world_ok w ->
  exists (reply : pystr) (w' : World),
    process_command command w = (Returns reply, w')
    /\ disk w' = disk w /\ sess_translators w' = sess_translators w
    /\ tick w' = tick w /\ events w' = events w
    /\ (command_form command <> py "/clear" ->
        session_history_of w' = session_history_of w)
    /\ (command_form command <> py "/clear" -> command_form command <> py "/history" ->
        reply = py "Unknown command. Available: /history, /clear" /\ w' = w).
Proof.
  intros Hok. rewrite process_command_eq.
  destruct (bool_decide (command_form command = py "/history")) eqn:E1.
  - apply bool_decide_eq_true in E1. eexists _, _. split; [reflexivity|].
    do 4 (split; [reflexivity|]). split.
    + intros _. apply session_history_new_object. exact Hok.
    + intros _ H. contradiction.
  - destruct (bool_decide (command_form command = py "/clear")) eqn:E2.
    + apply bool_decide_eq_true in E2. eexists _, _. split; [reflexivity|].
      do 4 (split; [reflexivity|]). split; intros H; contradiction.
    + eexists _, _. split; [reflexivity|].
      do 4 (split; [reflexivity|]). split; [reflexivity|]. intros _ _. split; reflexivity.
Qed.

Lemma process_command_effects_witness :
  process_command (py "/help") busy_session
  = (Returns (py "Unknown command. Available: /history, /clear"), busy_session).
Proof.
  destruct (process_command_effects (py "/help") busy_session world_ok_busy)
    as (reply & w' & E & _ & _ & _ & _ & _ & H).
  rewrite E. destruct H as [-> ->]; [vm_compute; discriminate | vm_compute; discriminate|].
  reflexivity.
Defined.

(** ** Turns, further *)

Lemma translate_text_frame (env : Env) (translators : option (gmap string Translator))
    (text : pystr) (w : World) :
  exists (r : outcome pystr) (w' : World),
    translate_text env translators text w = (r, w')
    /\ heap w' = heap w /\ sess_translators w' = sess_translators w
    /\ sess_history w' = sess_history w /\ disk w' = disk w.
Proof.
  rewrite translate_text_eq.
  destruct (negb (truthy translators)); [eexists _, _; repeat split; reflexivity|].
  destruct (network env (tick w)); try (eexists _, _; repeat split; reflexivity).
  destruct (negb (validate_input text)); [eexists _, _; repeat split; reflexivity|].
  destruct (bool_decide _); [eexists _, _; repeat split; reflexivity|].
  cbv zeta. destruct (_ : option Translator) as [t|]; [destruct (t text)|];
    eexists _, _; repeat split; reflexivity.
Qed.

Lemma turn_tail_world (env : Env) (history : nat) (reply : pystr) (w : World) :
  exists w', turn_tail env history reply w = (Returns tt, w')
             /\ events w' = events w /\ sess_translators w' = sess_translators w.
Proof.
  cbv [turn_tail bind get_current_timestamp next_tick ret list_append
        store_last_ten list_read list_new session_set_history].
  cbn [fst snd]. rewrite save_history_eq. eexists. split; [reflexivity|].
  split; reflexivity.
Qed.

(** A completed turn, with what was sent. *)
Lemma handle_message_completed_sent (env : Env) (m : pystr) (w w' : World) :
  world_ok w -> handle_message env m w = (Returns tt, w') ->
  exists (resp reply : pystr) (w2 w3 : World),
    respond env (sess_translators w) (Str.strip m) (turn_start env m w) = (Returns resp, w2)
    /\ heap w3 !! turn_ref w = Some (session_history_of w ++ [user_entry env m w])
    /\ w' = turn_end (turn_ref w) (mkEntry (py "assistant") reply (clock env (tick w3)))
              ((session_history_of w ++ [user_entry env m w])
                 ++ [mkEntry (py "assistant") reply (clock env (tick w3))]) w3
    /\ ((reply = resp /\ w3 = queried (EvSend resp) w2)
        \/ (exists e, chat env (tick w2) = Raises e /\ reply = py "Error: " ++ e
                      /\ w3 = queried (EvSend reply) (queried (EvSend resp) w2))).
Proof.
  intros Hok. rewrite handle_message_eq.
  destruct (respond_keeps env (sess_translators w) (Str.strip m) (turn_start env m w))
    as (r & w2 & Hresp & (Hkeep & _) & [(resp & ->)|(e & ->)]);
    rewrite Hresp; [|discriminate].
  pose proof (Hkeep _ _ (turn_start_lookup env m w Hok)) as Hl.
  destruct (chat env (tick w2)) as [[]|e|e] eqn:Hchat; [| |discriminate].
  - rewrite (turn_tail_eq env _ resp (queried (EvSend resp) w2) _ Hl).
    intros [= <-]. exists resp, resp, w2, (queried (EvSend resp) w2).
    split; [reflexivity|]. split; [exact Hl|]. split; [reflexivity|].
    left. split; reflexivity.
  - unfold turn_failed.
    destruct (chat env (tick (queried (EvSend resp) w2))) as [[]|e'|e'];
      [|discriminate|discriminate].
    rewrite (turn_tail_eq env _ _ (queried _ (queried (EvSend resp) w2)) _ Hl).
    intros [= <-].
    exists resp, (py "Error: " ++ e), w2,
           (queried (EvSend (py "Error: " ++ e)) (queried (EvSend resp) w2)).
    split; [reflexivity|]. split; [exact Hl|]. split; [reflexivity|].
    right. exists e. split; [exact Hchat|]. split; reflexivity.
Qed.

Lemma last_last_n_snoc {A : Type} (n : nat) (l : list A) (a : A) :
  last (last_n (S n) (l ++ [a])) = Some a.
Proof.
  pose proof (last_n_suffix (S n) (l ++ [a])) as E.
  destruct (last (last_n (S n) (l ++ [a]))) as [b|] eqn:El.
  - apply (f_equal last) in E. rewrite last_snoc, last_app, El in E. congruence.
  - apply last_None in El. exfalso. exact (last_n_snoc_nonempty n l a El).
Qed.

(** X9: [handle_message] works on the stripped message only: whitespace
    before and after a message changes nothing of the turn. *)
Theorem handle_message_ignores_outer_whitespace (env : Env) (m : pystr) (w : World) :
  handle_message env (Str.strip m) w = handle_message env m w.
Proof. unfold handle_message. rewrite strip_idem. reflexivity. Qed.

(** X10: when a turn completes, the last entry of the history stored in
    the session is the entry of the assistant, and its content is the
    last message sent to the chat: the reply, or, when sending the reply
    raised [e], the text [Error: e] sent in its place. *)
Theorem reply_recorded_is_reply_sent (env : Env) (m : pystr) (w w' : World) :
  world_ok w -> handle_message env m w = (Returns tt, w') ->
  exists (a : HistoryEntry) (resp : pystr),
    last (session_history_of w') = Some a /\ role a = py "assistant"
    /\ last (events w') = Some (EvSend (content a))
    /\ fst (respond env (sess_translators w) (Str.strip m) (turn_start env m w))
       = Returns resp
    /\ (content a = resp
        \/ exists (e : pystr) (sent : list event),
             content a = py "Error: " ++ e
             /\ events w' = sent ++ [EvSend resp; EvSend (py "Error: " ++ e)]).
Proof.
  intros Hok Hrun.
  destruct (handle_message_completed_sent env m w w' Hok Hrun)
    as (resp & reply & w2 & w3 & Hresp & _ & -> & Hsent).
  exists (mkEntry (py "assistant") reply (clock env (tick w3))), resp.
  rewrite session_history_turn_end, events_turn_end, Hresp.
  split; [apply last_last_n_snoc|]. split; [reflexivity|]. cbn [content fst].
  destruct Hsent as [[-> ->]|(e & _ & -> & ->)].
  - split; [rewrite events_queried; apply last_snoc|]. split; [reflexivity|].
    left. reflexivity.
  - split; [rewrite events_queried; apply last_snoc|]. split; [reflexivity|].
    right. exists e, (events w2). split; [reflexivity|].
    rewrite !events_queried, <- app_assoc. reflexivity.
Qed.

Lemma reply_recorded_is_reply_sent_witness :
  exists (a : HistoryEntry) (resp : pystr),
    last (session_history_of (snd (handle_message online_env (py "Hello") busy_session)))
    = Some a /\ role a = py "assistant"
    /\ last (events (snd (handle_message online_env (py "Hello") busy_session)))
       = Some (EvSend (content a))
    /\ fst (respond online_env (sess_translators busy_session) (Str.strip (py "Hello"))
                    (turn_start online_env (py "Hello") busy_session))
       = Returns resp
    /\ (content a = resp
        \/ exists (e : pystr) (sent : list event),
             content a = py "Error: " ++ e
             /\ events (snd (handle_message online_env (py "Hello") busy_session))
                = sent ++ [EvSend resp; EvSend (py "Error: " ++ e)]).
Proof.
  apply (reply_recorded_is_reply_sent online_env (py "Hello") busy_session).
  - exact world_ok_busy.
  - vm_compute. reflexivity.
Defined.

(** X11: a turn whose input starts with a slash makes no call to the
    network: it only sends to the chat, once, or twice when the first
    sending raised. *)
Theorem command_turn_sends_only (env : Env) (m : pystr) (w : World) :
  Str.startswith (Str.lower (Str.strip m)) (py "/") = true ->
  exists sent : list pystr,
    events (snd (handle_message env m w)) = events w ++ (EvSend <$> sent)
    /\ (length sent = 1%nat \/ length sent = 2%nat).
Proof.
  intros Hcmd. rewrite handle_message_eq. unfold respond. rewrite Hcmd.
  assert (Hp : exists resp w2,
             process_command (Str.strip m) (turn_start env m w) = (Returns resp, w2)
             /\ events w2 = events w).
  { rewrite process_command_eq.
    destruct (bool_decide _); [eexists _, _; split; reflexivity|].
    destruct (bool_decide _); eexists _, _; split; reflexivity. }
  destruct Hp as (resp & w2 & -> & Hev).
  destruct (chat env (tick w2)) as [[]|e|e].
  - destruct (turn_tail_world env (turn_ref w) resp (queried (EvSend resp) w2))
      as (w' & -> & Hev' & _).
    exists [resp]. cbn [snd]. rewrite Hev', events_queried, Hev. split; [reflexivity|].
    left. reflexivity.
  - unfold turn_failed.
    exists [resp; py "Error: " ++ e]. split; [|right; reflexivity].
    destruct (chat env (tick (queried (EvSend resp) w2))) as [[]|e'|e'].
    + destruct (turn_tail_world env (turn_ref w) (py "Error: " ++ e)
                  (queried (EvSend (py "Error: " ++ e)) (queried (EvSend resp) w2)))
        as (w' & -> & Hev' & _).
      cbn [snd]. rewrite Hev', !events_queried, Hev, <- app_assoc. reflexivity.
    + cbn [snd]. rewrite !events_queried, Hev, <- app_assoc. reflexivity.
    + cbn [snd]. rewrite !events_queried, Hev, <- app_assoc. reflexivity.
  - exists [resp]. cbn [snd]. rewrite events_queried, Hev. split; [reflexivity|].
    left. reflexivity.
Qed.

Lemma command_turn_sends_only_witness :
  exists sent : list pystr,
    events (snd (handle_message online_env (py " /History ") busy_session))
    = events busy_session ++ (EvSend <$> sent)
    /\ (length sent = 1%nat \/ length sent = 2%nat).
Proof.
  apply (command_turn_sends_only online_env (py " /History ") busy_session).
  vm_compute. reflexivity.
Defined.

(** ** Runs of turns *)

Lemma last_n_app_last_n {A : Type} (n k : nat) (l r : list A) :
  (k <= length r)%nat -> last_n (n + k) (last_n n l ++ r) = last_n (n + k) (l ++ r).
Proof.
  intros Hk. unfold last_n.
  destruct (decide (length l <= n)%nat) as [Hle|Hgt].
  - replace (length l - n)%nat with 0%nat by lia. reflexivity.
  - rewrite !length_app, length_drop.
    replace (length l - (length l - n) + length r - (n + k))%nat
      with (length r - k)%nat by lia.
    replace (length l + length r - (n + k))%nat
      with ((length l - n) + (length r - k))%nat by lia.
    rewrite <- drop_drop.
    rewrite (drop_app_le l r (length l - n)) by lia. reflexivity.
Qed.

Lemma last_n_all {A : Type} (n : nat) (l : list A) :
  (length l <= n)%nat -> last_n n l = l.
Proof. intros H. unfold last_n. replace (length l - n)%nat with 0%nat by lia. reflexivity. Qed.

(** What a completed turn leaves. *)
Lemma turn_completed_summary (env : Env) (m : pystr) (w w' : World) :
  world_ok w -> handle_message env m w = (Returns tt, w') ->
  exists a : HistoryEntry,
    turn_entries env m w = [user_entry env m w; a]
    /\ session_history_of w' = last_n 10 (session_history_of w ++ [user_entry env m w; a])
    /\ disk w' = Some (saved_file (session_history_of w ++ [user_entry env m w; a]))
    /\ world_ok w'.
Proof.
  intros Hok Hrun.
  destruct (handle_message_completed_sent env m w w' Hok Hrun)
    as (resp & reply & w2 & w3 & _ & Hl & Hw' & _).
  exists (mkEntry (py "assistant") reply (clock env (tick w3))).
  split.
  - unfold turn_entries. rewrite Hrun. cbn [snd]. rewrite Hw'. unfold turn_end. cbn [heap].
    rewrite lookup_app_l
      by (rewrite length_alter; apply lookup_lt_is_Some; eexists; exact Hl).
    rewrite list_lookup_alter_eq, Hl. cbn [fmap option_fmap option_map default from_option id].
    rewrite <- app_assoc, drop_app_length. reflexivity.
  - rewrite Hw', session_history_turn_end, <- app_assoc. cbn [app].
    split; [reflexivity|]. split; [reflexivity|]. apply world_ok_turn_end.
Qed.

(** X12: over a run of one or more turns that all complete, started in a
    session whose history has at most ten entries, the session ends with
    the last ten, and the file with the last twelve, of the entries the
    session started with followed by all the entries of the run, in
    order. *)
Theorem run_keeps_last_entries (env : Env) (messages : list pystr) (w : World) :
  world_ok w -> turns_complete env messages w ->
  (length (session_history_of w) <= 10)%nat -> messages <> [] ->
  session_history_of (run_turns env messages w)
  = last_n 10 (session_history_of w ++ appended_entries env messages w)
  /\ disk (run_turns env messages w)
     = Some (saved_file (last_n 12 (session_history_of w ++ appended_entries env messages w))).
Proof.
  revert w.
  induction messages as [|m ms IH]; intros w Hok Hall Hlen Hne; [contradiction|].
  destruct Hall as [Hfst Hrest].
  destruct (handle_message env m w) as [r w1] eqn:Hrun.
  cbn [fst snd] in Hfst, Hrest. subst r.
  destruct (turn_completed_summary env m w w1 Hok Hrun) as (a & Hent & Hsess & Hdisk & Hok1).
  cbn [run_turns appended_entries]. rewrite Hrun, Hent. cbn [snd].
  destruct ms as [|m' ms'].
  - cbn [run_turns appended_entries]. rewrite app_nil_r. split; [exact Hsess|].
    rewrite Hdisk, last_n_all; [reflexivity|].
    rewrite length_app. cbn [length]. lia.
  - assert (Hlen1 : (length (session_history_of w1) <= 10)%nat)
      by (rewrite Hsess; apply last_n_length).
    destruct (IH w1 Hok1 Hrest Hlen1 ltac:(discriminate)) as [IHs IHd].
    rewrite IHs, IHd, Hsess.
    assert (H2 : (2 <= length (appended_entries env (m' :: ms') w1))%nat).
    { destruct Hrest as [Hfst' _].
      destruct (handle_message env m' w1) as [r' w2] eqn:Hrun'.
      cbn [fst] in Hfst'. subst r'.
      destruct (turn_completed_summary env m' w1 w2 Hok1 Hrun') as (a' & Hent' & _).
      cbn [appended_entries]. rewrite Hent', length_app. cbn [length]. lia. }
    split.
    + rewrite (last_n_app_last_n 10 0) by lia. rewrite <- app_assoc. reflexivity.
    + rewrite (last_n_app_last_n 10 2) by exact H2. rewrite <- app_assoc. reflexivity.
Qed.

Lemma run_keeps_last_entries_witness :
  session_history_of (run_turns online_env seven_messages (fresh_session mock_translators))
  = last_n 10 (session_history_of (fresh_session mock_translators)
               ++ appended_entries online_env seven_messages (fresh_session mock_translators))
  /\ disk (run_turns online_env seven_messages (fresh_session mock_translators))
     = Some (saved_file
               (last_n 12 (session_history_of (fresh_session mock_translators)
                           ++ appended_entries online_env seven_messages
                                (fresh_session mock_translators)))).
Proof.
  apply (run_keeps_last_entries online_env seven_messages (fresh_session mock_translators)).
  - apply world_ok_fresh.
  - vm_compute. repeat split.
  - vm_compute. lia.
  - discriminate.
Defined.

(** ** Turns in particular sessions *)

(** X13: in a session without translators (none stored, or an empty
    dict) a message that is no command is answered with the fixed error,
    without any call to the network; the turn is recorded like any other. *)
Theorem turn_without_translators (env : Env) (m : pystr) (w : World) :
  world_ok w -> truthy (sess_translators w) = false ->
  Str.startswith (Str.lower (Str.strip m)) (py "/") = false ->
  chat env (S (tick w)) = Returns tt ->
  exists w' : World,
    handle_message env m w = (Returns tt, w')
    /\ events w' = events w ++ [EvSend (py "Error: Translators not initialized.")]
    /\ session_history_of w'
       = last_n 10 (session_history_of w
                    ++ [mkEntry (py "user") (Str.strip m) (clock env (tick w));
                        mkEntry (py "assistant") (py "Error: Translators not initialized.")
                                (clock env (S (S (tick w))))]).
Proof.
  intros Hok Htr Hcmd Hchat.
  assert (Hresp : respond env (sess_translators w) (Str.strip m) (turn_start env m w)
                  = (Returns err_not_initialized, turn_start env m w)).
  { unfold respond. rewrite Hcmd, translate_text_eq, Htr. reflexivity. }
  rewrite (handle_message_delivered env m w _ _ Hok Hresp Hchat).
  eexists. split; [reflexivity|]. cbv zeta.
  rewrite events_turn_end, session_history_turn_end, events_queried, <- app_assoc.
  split; reflexivity.
Qed.

Lemma turn_without_translators_witness :
  exists w' : World,
    handle_message online_env (py "Hello") empty_world = (Returns tt, w')
    /\ events w' = events empty_world ++ [EvSend (py "Error: Translators not initialized.")]
    /\ session_history_of w'
       = last_n 10 (session_history_of empty_world
                    ++ [mkEntry (py "user") (Str.strip (py "Hello"))
                                (clock online_env (tick empty_world));
                        mkEntry (py "assistant") (py "Error: Translators not initialized.")
                                (clock online_env (S (S (tick empty_world))))]).
Proof.
  apply (turn_without_translators online_env (py "Hello") empty_world).
  - intros r. cbn. discriminate.
  - reflexivity.
  - vm_compute. reflexivity.
  - reflexivity.
Defined.

(** X14: a message of whitespace only, or empty, is no command; when the
    network answers, the reply is the error for invalid input, and the
    entry recorded for the user has an empty content. *)
Theorem blank_message_turn (env : Env) (m : pystr) (w : World) :
  world_ok w -> blank m -> truthy (sess_translators w) = true ->
  network env (S (tick w)) = Connected -> chat env (S (S (tick w))) = Returns tt ->
  exists w' : World,
    handle_message env m w = (Returns tt, w')
    /\ events w'
       = events w
         ++ [EvProbe; EvSend (py "Error: Please provide valid English or Urdu text.")]
    /\ session_history_of w'
       = last_n 10 (session_history_of w
                    ++ [mkEntry (py "user") [] (clock env (tick w));
                        mkEntry (py "assistant")
                                (py "Error: Please provide valid English or Urdu text.")
                                (clock env (S (S (S (tick w)))))]).
Proof.
  intros Hok Hblank Htr Hnet Hchat.
  assert (Hs : Str.strip m = []) by (apply strip_nil_iff; exact Hblank).
  assert (Hresp : respond env (sess_translators w) (Str.strip m) (turn_start env m w)
                  = (Returns err_invalid_input, queried EvProbe (turn_start env m w))).
  { unfold respond. rewrite Hs.
    change (Str.startswith (Str.lower []) (py "/")) with false. cbv iota.
    rewrite translate_text_eq, Htr. cbn [negb].
    change (tick (turn_start env m w)) with (S (tick w)). rewrite Hnet.
    reflexivity. }
  rewrite (handle_message_delivered env m w _ _ Hok Hresp Hchat).
  eexists. split; [reflexivity|]. cbv zeta.
  rewrite events_turn_end, session_history_turn_end, !events_queried, <- !app_assoc.
  unfold user_entry. rewrite Hs. split; reflexivity.
Qed.

Lemma blank_message_turn_witness :
  exists w' : World,
    handle_message online_env (py "   ") busy_session = (Returns tt, w')
    /\ events w'
       = events busy_session
         ++ [EvProbe; EvSend (py "Error: Please provide valid English or Urdu text.")]
    /\ session_history_of w'
       = last_n 10 (session_history_of busy_session
                    ++ [mkEntry (py "user") [] (clock online_env (tick busy_session));
                        mkEntry (py "assistant")
                                (py "Error: Please provide valid English or Urdu text.")
                                (clock online_env (S (S (S (tick busy_session)))))]).
Proof.
  apply (blank_message_turn online_env (py "   ") busy_session).
  - exact world_ok_busy.
  - vm_compute. repeat constructor.
  - vm_compute. reflexivity.
  - reflexivity.
  - reflexivity.
Defined.

(** X15: in a session that has no history yet (the key is not set),
    [/history] answers the fixed no-history text: the entry just recorded
    for the command went to a list the command does not read.  When the
    turn completes the session holds the two entries of the turn. *)
Theorem history_command_without_key (env : Env) (m : pystr) (w : World) :
  sess_history w = None ->
  Str.startswith (Str.lower (Str.strip m)) (py "/") = true ->
  command_form (Str.strip m) = py "/history" ->
  chat env (S (tick w)) = Returns tt ->
  exists w' : World,
    handle_message env m w = (Returns tt, w')
    /\ events w' = events w ++ [EvSend (py "No translation history available.")]
    /\ session_history_of w'
       = [mkEntry (py "user") (Str.strip m) (clock env (tick w));
          mkEntry (py "assistant") (py "No translation history available.")
                  (clock env (S (S (tick w))))].
Proof.
  intros Hnone Hcmd Hform Hchat.
  assert (Hok : world_ok w) by (intros r E; rewrite Hnone in E; discriminate).
  assert (Hresp : respond env (sess_translators w) (Str.strip m) (turn_start env m w)
                  = (Returns no_history,
                     set_heap (heap (turn_start env m w) ++ [[]]) (turn_start env m w))).
  { unfold respond. rewrite Hcmd, process_command_eq, Hform.
    change (bool_decide (py "/history" = py "/history")) with true. cbv iota.
    change (sess_history (turn_start env m w)) with (sess_history w). rewrite Hnone.
    cbn [default from_option id].
    rewrite list_lookup_middle by reflexivity. reflexivity. }
  rewrite (handle_message_delivered env m w _ _ Hok Hresp Hchat).
  eexists. split; [reflexivity|]. cbv zeta.
  rewrite events_turn_end, session_history_turn_end, events_queried.
  split; [reflexivity|].
  unfold session_history_of. rewrite Hnone. reflexivity.
Qed.

Lemma history_command_without_key_witness :
  exists w' : World,
    handle_message online_env (py "/history") empty_world = (Returns tt, w')
    /\ events w' = events empty_world ++ [EvSend (py "No translation history available.")]
    /\ session_history_of w'
       = [mkEntry (py "user") (Str.strip (py "/history")) (clock online_env (tick empty_world));
          mkEntry (py "assistant") (py "No translation history available.")
                  (clock online_env (S (S (tick empty_world))))].
Proof.
  apply (history_command_without_key online_env (py "/history") empty_world).
  - reflexivity.
  - vm_compute. reflexivity.
  - vm_compute. reflexivity.
  - reflexivity.
Defined.

(** X16: when no message can be sent, a turn on a text that is no
    command does not complete: it raises the exception of the sending,
    unless the translation step was interrupted by an exception that is
    not of class [Exception], which leaves the turn at once.  Either
    way nothing is written to the file, and the list of the session
    keeps the entry of the user, without a reply and without the cut to
    ten entries. *)
Theorem undelivered_turn_raises (env : Env) (m e : pystr) (w : World) :
  world_ok w -> sess_history w <> None ->
  Str.startswith (Str.lower (Str.strip m)) (py "/") = false ->
  (forall n, chat env n = Raises e) ->
  exists (r : outcome unit) (w' : World),
    handle_message env m w = (r, w')
    /\ ((r = Raises e
         /\ exists resp,
              fst (translate_text env (sess_translators w) (Str.strip m)
                                  (turn_start env m w)) = Returns resp)
        \/ (exists e', r = Interrupts e'
                       /\ fst (translate_text env (sess_translators w) (Str.strip m)
                                              (turn_start env m w)) = Interrupts e'))
    /\ disk w' = disk w
    /\ session_history_of w' = session_history_of w ++ [user_entry env m w].
Proof.
  intros Hok Hsome Hcmd Hchat. rewrite handle_message_eq.
  unfold respond. rewrite Hcmd.
  destruct (translate_text_keeps env (sess_translators w) (Str.strip m) (turn_start env m w))
    as (r & w2 & Hrun & _ & Hans).
  destruct (translate_text_frame env (sess_translators w) (Str.strip m) (turn_start env m w))
    as (r' & w2' & Hrun' & Hheap & _ & Hsess & Hdisk).
  rewrite Hrun in Hrun'. injection Hrun' as <- <-. rewrite Hrun. cbn [fst].
  assert (Hhist : forall ev1 ev2,
             session_history_of w2 = session_history_of w ++ [user_entry env m w]
             /\ session_history_of (queried ev1 (queried ev2 w2))
                = session_history_of w ++ [user_entry env m w]).
  { intros ev1 ev2. rewrite <- (session_history_turn_start env m w Hok Hsome).
    unfold session_history_of, queried. cbn [sess_history heap].
    rewrite Hsess, Hheap. split; reflexivity. }
  destruct Hans as [(resp & ->)|(e' & ->)].
  - rewrite Hchat. unfold turn_failed. rewrite Hchat.
    eexists _, _. split; [reflexivity|]. split; [left; eauto|].
    split; [exact Hdisk | apply Hhist].
  - eexists _, _. split; [reflexivity|]. split; [right; eauto|].
    split; [exact Hdisk | apply (Hhist EvProbe EvProbe)].
Qed.

Lemma undelivered_turn_raises_witness :
  exists (r : outcome unit) (w' : World),
    handle_message undelivered_env (py "Hello") busy_session = (r, w')
    /\ ((r = Raises (py "Connection lost")
         /\ exists resp,
              fst (translate_text undelivered_env (sess_translators busy_session)
                                  (Str.strip (py "Hello"))
                                  (turn_start undelivered_env (py "Hello") busy_session))
              = Returns resp)
        \/ (exists e', r = Interrupts e'
                       /\ fst (translate_text undelivered_env (sess_translators busy_session)
                                              (Str.strip (py "Hello"))
                                              (turn_start undelivered_env (py "Hello")
                                                          busy_session))
                          = Interrupts e'))
    /\ disk w' = disk busy_session
    /\ session_history_of w'
       = session_history_of busy_session ++ [user_entry undelivered_env (py "Hello") busy_session].
Proof.
  apply (undelivered_turn_raises undelivered_env (py "Hello") (py "Connection lost")
           busy_session).
  - exact world_ok_busy.
  - vm_compute. discriminate.
  - vm_compute. reflexivity.
  - intros n. reflexivity.
Defined.

(** ** The start of a session *)

Lemma send_then_none (env : Env) (msg : pystr) (w : World) :
  (send_message env msg ;;; ret (None : option json)) w
  = (match chat env (tick w) with
     | Returns _ => Returns None
     | Raises e => Raises e
     | Interrupts e => Interrupts e
     end, queried (EvSend msg) w).
Proof.
  cbv [bind send_message query of_outcome ret]. cbn [fst snd tick].
  destruct (chat env (tick w)) as [[]|e|e]; reflexivity.
Qed.

Lemma entry_of_entry_json (e : HistoryEntry) : entry_of_json (entry_json e) = Some e.
Proof. destruct e. reflexivity. Qed.

Lemma entries_of_history_json (h : list HistoryEntry) :
  entries_of_json (history_json h) = Some h.
Proof.
  unfold entries_of_json, history_json.
  induction h as [|e h IH]; [reflexivity|].
  cbn [fmap list_fmap mapM]. fold (entry_json <$> h).
  rewrite entry_of_entry_json. cbn [mbind option_bind]. rewrite IH. reflexivity.
Qed.

Lemma saved_file_encodes (h : list HistoryEntry) :
  Forall valid_entry h -> Utf8.encode (dumps h) = Some (saved_file h).
Proof.
  intros Hh. destruct (save_history_disk h empty_world Hh) as (bs & Hbs & Hsave).
  rewrite save_history_eq in Hsave. injection Hsave as ->. exact Hbs.
Qed.

Lemma load_history_total (w : World) :
  exists v : json,
    (forall w', disk w' = disk w -> load_history_from_file w' = (Returns v, w'))
    /\ (no_stored_history w -> v = JArr [])
    /\ (forall h, Forall valid_entry h -> disk w = Some (saved_file h) -> v = history_json h).
Proof.
  unfold no_stored_history.
  destruct (disk w) as [file|] eqn:Hd.
  - destruct (read_text file) as [text|] eqn:Hr.
    + destruct (loads text) as [v|] eqn:Hv.
      * exists v. split; [|split].
        -- intros w' E. unfold load_history_from_file, try_except. rewrite E, Hr, Hv.
           reflexivity.
        -- discriminate.
        -- intros h Hh [= ->].
           pose proof (load_history_disk h _ w (saved_file_encodes h Hh) Hd) as Hl.
           unfold load_history_from_file, try_except in Hl. rewrite Hd, Hr, Hv in Hl.
           congruence.
      * exists (JArr []). split; [|split].
        -- intros w' E. unfold load_history_from_file, try_except. rewrite E, Hr, Hv.
           reflexivity.
        -- reflexivity.
        -- intros h Hh [= ->].
           pose proof (load_history_disk h _ w (saved_file_encodes h Hh) Hd) as Hl.
           unfold load_history_from_file, try_except in Hl. rewrite Hd, Hr, Hv in Hl.
           cbv [ret] in Hl. congruence.
    + exists (JArr []). split; [|split].
      * intros w' E. unfold load_history_from_file, try_except. rewrite E, Hr. reflexivity.
      * reflexivity.
      * intros h Hh [= ->].
        pose proof (load_history_disk h _ w (saved_file_encodes h Hh) Hd) as Hl.
        unfold load_history_from_file, try_except in Hl. rewrite Hd, Hr in Hl.
        cbv [ret] in Hl. congruence.
  - exists (JArr []). split; [|split].
    + intros w' E. unfold load_history_from_file, try_except. rewrite E. reflexivity.
    + reflexivity.
    + discriminate.
Qed.

(** [handle_chat_start] once the four checks pass. *)
Lemma handle_chat_start_ready (host : Host) (env : Env) (w : World)
    (d : gmap string Translator) (v : json) :
  start_ready host env w d ->
  (forall w', disk w' = disk w -> load_history_from_file w' = (Returns v, w')) ->
  handle_chat_start host env w
  = match entries_of_json v with
    | Some h =>
        (send_message env welcome_message ;;; ret None)
          (mkWorld (heap w ++ [h]) (Some d)
                   (Some (length (heap w))) (disk w) (S (tick w)) (events w ++ [EvProbe]))
    | None =>
        (send_message env welcome_message ;;; ret (Some v))
          (mkWorld (heap w) (Some d) (sess_history w)
                   (disk w) (S (tick w)) (events w ++ [EvProbe]))
    end.
Proof.
  intros (Hdeps & Henv & Hnet & Htr & Hfull) Hload.
  unfold handle_chat_start.
  unfold bind at 1, of_outcome at 1. rewrite Hdeps. cbn [negb].
  unfold bind at 1, of_outcome at 1. rewrite Henv. cbn [negb].
  unfold bind at 1, check_internet at 1, bind at 1, query at 1. rewrite Hnet.
  unfold ret at 1. cbn [negb].
  unfold bind at 1, of_outcome at 1. rewrite Htr.
  rewrite (bool_decide_eq_false_2 _ Hfull).
  unfold bind at 1, session_set_translators at 1.
  cbn [heap sess_history disk tick events].
  unfold bind at 1. rewrite Hload by reflexivity.
  destruct (entries_of_json v) as [h|]; reflexivity.
Qed.

Lemma initialize_translators_both (host : Host) (d : gmap string Translator) :
  initialize_translators host = Returns d -> d <> ∅ ->
  exists a b : Translator,
    google_translator host "en" "ur" = Returns a
    /\ google_translator host "ur" "en" = Returns b
    /\ d = {[ "en_to_ur"%string := a; "ur_to_en"%string := b ]}.
Proof.
  unfold initialize_translators.
  destruct (import_google_translator host); try (intros [= <-]; contradiction).
  destruct (google_translator host "en" "ur") as [a|e|e];
    try (intros [= <-]; contradiction); try discriminate.
  destruct (google_translator host "ur" "en") as [b|e|e];
    try (intros [= <-]; contradiction); try discriminate.
  intros [= <-] _. exists a, b. repeat split.
Qed.

Lemma ready_host_ready (env : Env) (w : World) :
  network env (tick w) = Connected ->
  start_ready ready_host env w mock_translators.
Proof.
  intros Hnet. split; [reflexivity|]. split; [reflexivity|]. split; [exact Hnet|].
  split; [reflexivity|].
  intros H. apply (f_equal (fun d => d !! "en_to_ur"%string)) in H.
  vm_compute in H. discriminate.
Qed.

(** X17: when a check of the start fails, nothing is stored: the keys of
    the session, the lists and the file are as before, no translator is
    built into the session, and either an exception leaves the handler
    or exactly one message is sent, an error message. *)
Theorem chat_start_refused (host : Host) (env : Env) (w : World) :
  ~ (exists d, start_ready host env w d) ->
  exists (r : outcome (option json)) (w' : World),
    handle_chat_start host env w = (r, w')
    /\ heap w' = heap w /\ sess_translators w' = sess_translators w
    /\ sess_history w' = sess_history w /\ disk w' = disk w
    /\ ((exists e, r = Raises e \/ r = Interrupts e)
        \/ (r = Returns None
            /\ exists msg : pystr,
                 Str.startswith msg (py "Error: ") = true
                 /\ (events w' = events w ++ [EvSend msg]
                     \/ events w' = events w ++ [EvProbe; EvSend msg]))).
Proof.
  intros Hnot. unfold handle_chat_start.
  unfold bind at 1, of_outcome at 1.
  destruct (check_dependencies host) as [[|]|e|e] eqn:Hdeps; cbn [negb].
  - unfold bind at 1, of_outcome at 1.
    destruct (load_environment host) as [[|]|e|e] eqn:Henv; cbn [negb].
    + unfold bind at 1, check_internet at 1, bind at 1, query at 1.
      destruct (network env (tick w)) as [|e|e|e|e] eqn:Hnet.
      * unfold ret at 1. cbn [negb]. unfold bind at 1, of_outcome at 1.
        destruct (initialize_translators host) as [d|e|e] eqn:Htr.
        -- destruct (decide (d = ∅)) as [Hempty|Hfull].
           ++ rewrite (bool_decide_eq_true_2 _ Hempty), send_then_none.
              eexists _, _. split; [reflexivity|]. do 4 (split; [reflexivity|]).
              cbn [tick].
              destruct (chat env (S (tick w))) as [[]|e|e]; [right|left; eauto|left; eauto].
              split; [reflexivity|]. eexists.
              split; [|right; unfold queried; cbn [events]; rewrite <- app_assoc;
                       reflexivity].
              reflexivity.
           ++ exfalso. apply Hnot. exists d. repeat split; assumption.
        -- eexists _, _. split; [reflexivity|]. do 4 (split; [reflexivity|]). left. eauto.
        -- eexists _, _. split; [reflexivity|]. do 4 (split; [reflexivity|]). left. eauto.
      * unfold ret at 1. cbn [negb]. rewrite send_then_none.
        eexists _, _. split; [reflexivity|]. do 4 (split; [reflexivity|]).
        cbn [tick].
        destruct (chat env (S (tick w))) as [[]|e'|e']; [right|left; eauto|left; eauto].
        split; [reflexivity|]. eexists.
        split; [|right; unfold queried; cbn [events]; rewrite <- app_assoc; reflexivity].
        reflexivity.
      * unfold ret at 1. cbn [negb]. rewrite send_then_none.
        eexists _, _. split; [reflexivity|]. do 4 (split; [reflexivity|]).
        cbn [tick].
        destruct (chat env (S (tick w))) as [[]|e'|e']; [right|left; eauto|left; eauto].
        split; [reflexivity|]. eexists.
        split; [|right; unfold queried; cbn [events]; rewrite <- app_assoc; reflexivity].
        reflexivity.
      * eexists _, _. split; [reflexivity|]. do 4 (split; [reflexivity|]). left. eauto.
      * eexists _, _. split; [reflexivity|]. do 4 (split; [reflexivity|]). left. eauto.
    + rewrite send_then_none.
      eexists _, _. split; [reflexivity|]. do 4 (split; [reflexivity|]).
      destruct (chat env (tick w)) as [[]|e|e]; [right|left; eauto|left; eauto].
      split; [reflexivity|]. eexists. split; [|left; reflexivity]. reflexivity.
    + eexists _, _. split; [reflexivity|]. do 4 (split; [reflexivity|]). left. eauto.
    + eexists _, _. split; [reflexivity|]. do 4 (split; [reflexivity|]). left. eauto.
  - rewrite send_then_none.
    eexists _, _. split; [reflexivity|]. do 4 (split; [reflexivity|]).
    destruct (chat env (tick w)) as [[]|e|e]; [right|left; eauto|left; eauto].
    split; [reflexivity|]. eexists. split; [|left; reflexivity]. reflexivity.
  - eexists _, _. split; [reflexivity|]. do 4 (split; [reflexivity|]). left. eauto.
  - eexists _, _. split; [reflexivity|]. do 4 (split; [reflexivity|]). left. eauto.
Qed.

Lemma chat_start_refused_witness :
  exists (r : outcome (option json)) (w' : World),
    handle_chat_start bare_host online_env empty_world = (r, w')
    /\ heap w' = heap empty_world /\ sess_translators w' = sess_translators empty_world
    /\ sess_history w' = sess_history empty_world /\ disk w' = disk empty_world
    /\ ((exists e, r = Raises e \/ r = Interrupts e)
        \/ (r = Returns None
            /\ exists msg : pystr,
                 Str.startswith msg (py "Error: ") = true
                 /\ (events w' = events empty_world ++ [EvSend msg]
                     \/ events w' = events empty_world ++ [EvProbe; EvSend msg]))).
Proof.
  apply (chat_start_refused bare_host online_env empty_world).
  intros (d & H & _). vm_compute in H. discriminate.
Defined.

(** X18: when the four checks pass and the file gives no history (it is
    absent, is not UTF-8 text, or is not JSON), the start stores the
    translators and a new empty history in the session, probes the
    network once, sends the welcome message and leaves the file alone. *)
Theorem chat_start_without_history (host : Host) (env : Env) (w : World)
    (d : gmap string Translator) :
  start_ready host env w d -> no_stored_history w -> chat env (S (tick w)) = Returns tt ->
  handle_chat_start host env w
  = (Returns None,
     mkWorld (heap w ++ [[]]) (Some d) (Some (length (heap w)))
             (disk w) (S (S (tick w))) (events w ++ [EvProbe; EvSend welcome_message])).
Proof.
  intros Hready Hnone Hchat.
  destruct (load_history_total w) as (v & Hload & Hv & _).
  rewrite (handle_chat_start_ready host env w d v Hready Hload), (Hv Hnone).
  change (entries_of_json (JArr [])) with (Some ([] : list HistoryEntry)). cbv iota.
  rewrite send_then_none. cbn [tick]. rewrite Hchat.
  unfold queried. cbn [heap sess_translators sess_history disk tick events].
  rewrite <- app_assoc. reflexivity.
Qed.

Lemma chat_start_without_history_witness :
  handle_chat_start ready_host online_env torn_file_world
  = (Returns None,
     mkWorld (heap torn_file_world ++ [[]]) (Some mock_translators)
             (Some (length (heap torn_file_world)))
             (disk torn_file_world) (S (S (tick torn_file_world)))
             (events torn_file_world ++ [EvProbe; EvSend welcome_message])).
Proof.
  apply (chat_start_without_history ready_host online_env torn_file_world mock_translators).
  - apply ready_host_ready. reflexivity.
  - vm_compute. reflexivity.
  - reflexivity.
Defined.

(** X19: when the four checks pass and the file holds a saved history of
    valid entries, the start stores that whole history in the session,
    whatever its length: the cut to ten entries is not applied on
    loading.  The file is left as it is. *)
Theorem chat_start_restores_saved_history (host : Host) (env : Env) (w : World)
    (d : gmap string Translator) (h : list HistoryEntry) :
  start_ready host env w d -> Forall valid_entry h -> disk w = Some (saved_file h) ->
  chat env (S (tick w)) = Returns tt ->
  exists w' : World,
    handle_chat_start host env w = (Returns None, w')
    /\ session_history_of w' = h
    /\ sess_translators w' = Some d
    /\ disk w' = disk w
    /\ world_ok w'.
Proof.
  intros Hready Hvalid Hdisk Hchat.
  destruct (load_history_total w) as (v & Hload & _ & Hv).
  rewrite (handle_chat_start_ready host env w d v Hready Hload), (Hv h Hvalid Hdisk).
  rewrite entries_of_history_json, send_then_none. cbn [tick]. rewrite Hchat.
  eexists. split; [reflexivity|].
  unfold session_history_of, queried. cbn [heap sess_translators sess_history disk].
  rewrite list_lookup_middle by reflexivity.
  split; [reflexivity|]. split; [reflexivity|]. split; [reflexivity|].
  intros r. cbn [sess_history heap]. intros [= <-]. rewrite length_app. cbn [length]. lia.
Qed.

Lemma chat_start_restores_saved_history_witness :
  exists w' : World,
    handle_chat_start ready_host online_env saved_world = (Returns None, w')
    /\ session_history_of w' = sample_history
    /\ sess_translators w' = Some mock_translators
    /\ disk w' = disk saved_world
    /\ world_ok w'.
Proof.
  apply (chat_start_restores_saved_history ready_host online_env saved_world
           mock_translators sample_history).
  - apply ready_host_ready. reflexivity.
  - repeat (apply List.Forall_cons;
            [repeat split; apply encodable_check; vm_compute; reflexivity|]).
    apply List.Forall_nil.
  - reflexivity.
  - reflexivity.
Defined.

(** X20: the translators a start stores are never a partial dict: when
    [initialize_translators] gives a non-empty dict, it holds the handle
    of each direction, so a valid text of a known language always
    reaches the translator of its direction once the probe succeeds; the
    reply for a missing key cannot come from such a session. *)
Theorem initialized_translators_are_called (host : Host) (env : Env) (text : pystr)
    (w : World) (d : gmap string Translator) :
  initialize_translators host = Returns d -> d <> ∅ ->
  network env (tick w) = Connected ->
  validate_input text = true -> detect_language text <> py "unknown" ->
  exists t : Translator,
    d !! direction (detect_language text) = Some t
    /\ translate_text env (Some d) text w
       = (match t text with
          | Returns translated =>
              Returns (py "Translation to " ++ target_name (detect_language text)
                       ++ py ": " ++ translated)
          | Raises e => Returns (err_translate e)
          | Interrupts e => Interrupts e
          end,
          queried (EvTranslate (direction (detect_language text)) text) (queried EvProbe w)).
Proof.
  intros Hinit Hfull Hnet Hvalid Hlang.
  destruct (initialize_translators_both host d Hinit Hfull) as (a & b & _ & _ & Hd).
  assert (Hl : exists t : Translator, d !! direction (detect_language text) = Some t).
  { rewrite Hd. unfold direction. destruct (bool_decide _); eexists; reflexivity. }
  destruct Hl as (t & Ht). exists t. split; [exact Ht|].
  rewrite translate_text_eq. unfold truthy.
  rewrite (bool_decide_eq_false_2 _ Hfull). cbn [negb].
  rewrite Hnet, Hvalid. cbn [negb].
  rewrite (bool_decide_eq_false_2 _ Hlang). cbv zeta.
  change (default ∅ (Some d)) with d.
  rewrite Ht. reflexivity.
Qed.

Lemma initialized_translators_are_called_witness :
  exists t : Translator,
    mock_translators !! direction (detect_language (py "Hello")) = Some t
    /\ translate_text online_env (Some mock_translators) (py "Hello") empty_world
       = (match t (py "Hello") with
          | Returns translated =>
              Returns (py "Translation to " ++ target_name (detect_language (py "Hello"))
                       ++ py ": " ++ translated)
          | Raises e => Returns (err_translate e)
          | Interrupts e => Interrupts e
          end,
          queried (EvTranslate (direction (detect_language (py "Hello"))) (py "Hello"))
                  (queried EvProbe empty_world)).
Proof.
  apply (initialized_translators_are_called ready_host online_env (py "Hello") empty_world
           mock_translators).
  - reflexivity.
  - apply (ready_host_ready online_env empty_world). reflexivity.
  - reflexivity.
  - vm_compute. reflexivity.
  - vm_compute. discriminate.
Defined.

(** X21: [check_dependencies] returns true exactly when each of the three
    modules imports, and an exception leaves it exactly when an import
    raises something other than [ImportError]: a module found missing
    does not stop the loop, the modules after it are still imported. *)
Theorem check_dependencies_result (host : Host) :
  (check_dependencies host = Returns true
   <-> import_module host "deep_translator" = Imported
       /\ import_module host "chainlit" = Imported
       /\ import_module host "dotenv" = Imported)
  /\ ((exists e, check_dependencies host = Raises e)
      <-> exists e, import_module host "deep_translator" = ImportRaises e
                    \/ import_module host "chainlit" = ImportRaises e
                    \/ import_module host "dotenv" = ImportRaises e).
Proof.
  unfold check_dependencies. cbn [missing_modules].
  destruct (import_module host "deep_translator") as [| |e1];
    destruct (import_module host "chainlit") as [| |e2];
    destruct (import_module host "dotenv") as [| |e3];
    (split; [split; [intros H; try discriminate H; repeat split
                    | intros (H1 & H2 & H3); try discriminate; reflexivity]
            | split; [intros (e & H); try discriminate H; eauto
                     | intros (e & [H|[H|H]]); try discriminate H; eauto]]).
Qed.
